(** * Scalekit Expo SDK: the authentication and session-state engine

    A shallow embedding of [src/types/index.ts] (the [ScalekitAuth] service
    class), of [src/ScalekitProvider.tsx] (the React provider that owns the
    auth state) and of the config plugin [withScalekit], with the properties
    of the session life cycle and of the deep-link configuration proved
    about them.

    Conventions of the embedding.
    - JavaScript strings are [string]s of code units in the range 0..255.
    - Numbers are integers ([Z]); every number that is read from JSON text is
      a safe integer (at most 2^53 - 1 in absolute value), where the
      arithmetic of doubles is exact.
    - An [async] method is a computation in the monad [M]: it reads and
      updates the [System] (React state, secure store, network log) and ends
      in an [outcome]: a value ([Ret]), a rejection ([Throw]), or
      [Unmodelled] when the run leaves the part of JavaScript described here
      (a value outside its TypeScript interface, a number that is not a safe
      integer, a code unit above 255).  [Unmodelled] is never caught by a
      [try]/[catch], and no theorem draws a conclusion about the code from
      it.
    - The methods are read at their TypeScript interfaces.  Where the code
      hands on a value that it has not checked against its interface, the
      token blob of [getStoredTokens], the module [Untyped] reads the same
      methods on every value that [JSON.parse] returns.
    - The collaborators (secure store failures, crypto provider, browser
      session, HTTP, URL parsing) are the fields of a [Platform]; the clock
      reading [Date.now()] is the parameter [now] of the methods that read
      it (each reads it at most once per call). *)

From stdpp Require Import gmap strings list fin_maps.
From Stdlib Require Import ZArith NArith Ascii String DecimalString.
From Stdlib Require DecimalPos DecimalFacts ZifyNat.

Open Scope Z_scope.

(** ** Code units and strings *)

Module Js.

Definition DQUOTE : ascii := "034"%char.
Definition BACKSLASH : ascii := "092"%char.

Definition code (c : ascii) : N := N_of_ascii c.

Definition in_range (lo hi : N) (c : ascii) : bool :=
  ((lo <=? code c) && (code c <=? hi))%N.

Definition is_digit (c : ascii) : bool := in_range 48 57 c.

Definition digit_value (c : ascii) : Z := Z.of_N (code c) - 48.

Definition hex_value (c : ascii) : option N :=
  if is_digit c then Some (code c - 48)%N
  else if in_range 97 102 c then Some (code c - 87)%N
  else if in_range 65 70 c then Some (code c - 55)%N
  else None.

(** [s.length] *)
Definition length (s : string) : Z := Z.of_nat (String.length s).

(** [!s] is false for a string exactly when it is not empty. *)
Definition truthy (s : string) : bool :=
  match s with EmptyString => false | String _ _ => true end.

(** [o && ...] for an optional string ([undefined], [null] and the empty
    string are all falsy). *)
Definition truthy_opt (o : option string) : bool :=
  match o with Some s => truthy s | None => false end.

(** [s.split(sep)] for a separator of one code unit. *)
Fixpoint split (sep : ascii) (s : string) : list string :=
  match s with
  | EmptyString => [EmptyString]
  | String c r =>
      if Ascii.eqb c sep then EmptyString :: split sep r
      else match split sep r with
           | [] => [String c EmptyString]
           | seg :: segs => String c seg :: segs
           end
  end.

(** [c.repeat(n)] *)
Fixpoint repeat (c : ascii) (n : nat) : string :=
  match n with O => EmptyString | S n' => String c (repeat c n') end.

(** [s.replace(/a/g, b)] for single code units [a] and [b]. *)
Fixpoint replace_all (a b : ascii) (s : string) : string :=
  match s with
  | EmptyString => EmptyString
  | String c r => String (if Ascii.eqb c a then b else c) (replace_all a b r)
  end.

(** [s.replace(/a/g, '')] *)
Fixpoint remove_all (a : ascii) (s : string) : string :=
  match s with
  | EmptyString => EmptyString
  | String c r => if Ascii.eqb c a then remove_all a r else String c (remove_all a r)
  end.

(** [parts.join(sep)] *)
Definition join (sep : string) (parts : list string) : string := String.concat sep parts.

Definition MAX_SAFE_INTEGER : Z := 9007199254740991.

Definition is_safe_integer (z : Z) : bool :=
  (- MAX_SAFE_INTEGER <=? z) && (z <=? MAX_SAFE_INTEGER).

(** Decimal digits of an integer, as [Number.prototype.toString] prints a
    safe integer. *)
Definition number_to_string (z : Z) : string := NilZero.string_of_int (Z.to_int z).

End Js.

(** ** Thrown values and outcomes *)

(** What a [throw] carries: an object that is [instanceof Error], known by
    its message, or any other value. *)
Inductive exn : Type :=
| Error (message : string)
| Thrown (value : string).

Inductive outcome (A : Type) : Type :=
| Ret (a : A)
| Throw (e : exn)
| Unmodelled.

Arguments Ret {A} a.
Arguments Throw {A} e.
Arguments Unmodelled {A}.

Definition obind {A B : Type} (o : outcome A) (k : A -> outcome B) : outcome B :=
  match o with
  | Ret a => k a
  | Throw e => Throw e
  | Unmodelled => Unmodelled
  end.

(** [try { body } catch (e) { handler }] on a computation without effects. *)
Definition ocatch {A : Type} (body : outcome A) (handler : exn -> outcome A) : outcome A :=
  match body with
  | Throw e => handler e
  | r => r
  end.

(** ** JSON values, [JSON.parse] and [JSON.stringify] *)

#[warnings="-register-all"]
Inductive json : Type :=
| JNull
| JBool (b : bool)
| JNumber (n : Z)
| JString (s : string)
| JArray (elements : list json)
| JObject (members : list (string * json)).

Module Json.

(** [!!v] for a JSON value. *)
Definition truthy (v : json) : bool :=
  match v with
  | JNull => false
  | JBool b => b
  | JNumber n => negb (n =? 0)
  | JString s => Js.truthy s
  | JArray _ | JObject _ => true
  end.

(** [o[k]] on the own properties of an object. *)
Fixpoint get (k : string) (o : list (string * json)) : option json :=
  match o with
  | [] => None
  | (k', v) :: o' => if String.eqb k k' then Some v else get k o'
  end.

(** An array index is the canonical decimal numeral of an integer in
    0 .. 2^32 - 2; such keys are enumerated first, in ascending order. *)
Definition array_index (k : string) : option Z :=
  match k with
  | EmptyString => None
  | String c r =>
      if forallb Js.is_digit (list_ascii_of_string k)
         && (negb (Ascii.eqb c "0") || match r with EmptyString => true | _ => false end)
      then
        let v := fold_left (fun acc d => 10 * acc + Js.digit_value d) (list_ascii_of_string k) 0 in
        if v <=? 4294967294 then Some v else None
      else None
  end.

(** Adds an array-index key [i] to an object that does not have it: before
    the first key that is not an array index or is a larger one. *)
Fixpoint insert_index (i : Z) (k : string) (v : json) (o : list (string * json))
  : list (string * json) :=
  match o with
  | [] => [(k, v)]
  | (k', v') :: o' =>
      match array_index k' with
      | Some j => if j <? i then (k', v') :: insert_index i k v o' else (k, v) :: o
      | None => (k, v) :: o
      end
  end.

Fixpoint replace_value (k : string) (v : json) (o : list (string * json))
  : list (string * json) :=
  match o with
  | [] => []
  | (k', v') :: o' =>
      if String.eqb k k' then (k, v) :: o' else (k', v') :: replace_value k v o'
  end.

(** [o[k] = v], keeping the members in the order in which JavaScript
    enumerates own properties. *)
Definition set (k : string) (v : json) (o : list (string * json)) : list (string * json) :=
  match get k o with
  | Some _ => replace_value k v o
  | None =>
      match array_index k with
      | Some i => insert_index i k v o
      | None => o ++ [(k, v)]
      end
  end.

Inductive parsed (A : Type) : Type :=
| Parsed (a : A) (rest : list ascii)
| SyntaxError
| NotModelled.

Arguments Parsed {A} a rest.
Arguments SyntaxError {A}.
Arguments NotModelled {A}.

Definition is_ws (c : ascii) : bool :=
  let n := Js.code c in ((n =? 32) || (n =? 9) || (n =? 10) || (n =? 13))%N.

Fixpoint skip_ws (s : list ascii) : list ascii :=
  match s with
  | c :: r => if is_ws c then skip_ws r else s
  | [] => []
  end.

Fixpoint strip_prefix (p s : list ascii) : option (list ascii) :=
  match p, s with
  | [], _ => Some s
  | a :: p', b :: s' => if Ascii.eqb a b then strip_prefix p' s' else None
  | _ :: _, [] => None
  end.

(** The code unit of a one-letter escape such as [\n]. *)
Definition simple_escape (c : ascii) : option ascii :=
  let n := Js.code c in
  if (n =? 34)%N then Some Js.DQUOTE
  else if (n =? 92)%N then Some Js.BACKSLASH
  else if (n =? 47)%N then Some "/"%char
  else if (n =? 98)%N then Some (ascii_of_N 8)
  else if (n =? 102)%N then Some (ascii_of_N 12)
  else if (n =? 110)%N then Some (ascii_of_N 10)
  else if (n =? 114)%N then Some (ascii_of_N 13)
  else if (n =? 116)%N then Some (ascii_of_N 9)
  else None.

Definition hex4 (a b c d : ascii) : option N :=
  match Js.hex_value a, Js.hex_value b, Js.hex_value c, Js.hex_value d with
  | Some x, Some y, Some z, Some w => Some (((x * 16 + y) * 16 + z) * 16 + w)%N
  | _, _, _, _ => None
  end.

(** The characters of a string literal after its opening quote, up to and
    including the closing quote; [acc] holds what was read, last first. *)
Fixpoint parse_string (s : list ascii) (acc : list ascii) : parsed string :=
  match s with
  | [] => SyntaxError
  | c :: r =>
      if Ascii.eqb c Js.DQUOTE then Parsed (string_of_list_ascii (rev acc)) r
      else if Ascii.eqb c Js.BACKSLASH then
        match r with
        | [] => SyntaxError
        | e :: r' =>
            if Ascii.eqb e "u" then
              match r' with
              | h1 :: h2 :: h3 :: h4 :: r'' =>
                  match hex4 h1 h2 h3 h4 with
                  | Some n =>
                      if (n <? 256)%N then parse_string r'' (ascii_of_N n :: acc)
                      else NotModelled
                  | None => SyntaxError
                  end
              | _ => SyntaxError
              end
            else
              match simple_escape e with
              | Some x => parse_string r' (x :: acc)
              | None => SyntaxError
              end
        end
      else if (Js.code c <? 32)%N then SyntaxError
      else parse_string r (c :: acc)
  end.

(** The longest run of decimal digits at the head of [s], as a number. *)
Fixpoint parse_digits (s : list ascii) (acc : Z) : Z * list ascii :=
  match s with
  | c :: r => if Js.is_digit c then parse_digits r (10 * acc + Js.digit_value c) else (acc, s)
  | [] => (acc, [])
  end.

Definition starts_fraction_or_exponent (s : list ascii) : bool :=
  match s with
  | c :: _ => Ascii.eqb c "." || Ascii.eqb c "e" || Ascii.eqb c "E"
  | [] => false
  end.

(** A number literal without its sign.  A leading zero stands alone; a
    fraction or an exponent, and an integer that is not safe, are outside
    the integers of this embedding. *)
Definition parse_unsigned (s : list ascii) : parsed Z :=
  match s with
  | c :: r =>
      if Js.is_digit c then
        let '(n, rest) := if Ascii.eqb c "0" then (0, r) else parse_digits s 0 in
        if starts_fraction_or_exponent rest then NotModelled
        else if Js.is_safe_integer n then Parsed n rest
        else NotModelled
      else SyntaxError
  | [] => SyntaxError
  end.

Definition parse_number (s : list ascii) : parsed json :=
  match s with
  | c :: r =>
      if Ascii.eqb c "-" then
        match parse_unsigned r with
        | Parsed n rest => Parsed (JNumber (- n)) rest
        | SyntaxError => SyntaxError
        | NotModelled => NotModelled
        end
      else
        match parse_unsigned s with
        | Parsed n rest => Parsed (JNumber n) rest
        | SyntaxError => SyntaxError
        | NotModelled => NotModelled
        end
  | [] => SyntaxError
  end.

Definition keyword (w : string) (v : json) (s : list ascii) : parsed json :=
  match strip_prefix (list_ascii_of_string w) s with
  | Some rest => Parsed v rest
  | None => SyntaxError
  end.

(** A value, the elements of an array after its first bracket, and the
    members of an object after its first brace.  [fuel] bounds the number of
    values and separators still to be read. *)
Fixpoint parse_value (fuel : nat) (s : list ascii) : parsed json :=
  match fuel with
  | O => NotModelled
  | S fuel' =>
      match skip_ws s with
      | [] => SyntaxError
      | c :: r =>
          if Ascii.eqb c Js.DQUOTE then
            match parse_string r [] with
            | Parsed str rest => Parsed (JString str) rest
            | SyntaxError => SyntaxError
            | NotModelled => NotModelled
            end
          else if Ascii.eqb c "[" then
            match skip_ws r with
            | c' :: r' =>
                if Ascii.eqb c' "]" then Parsed (JArray []) r'
                else parse_elements fuel' r []
            | [] => SyntaxError
            end
          else if Ascii.eqb c "{" then
            match skip_ws r with
            | c' :: r' =>
                if Ascii.eqb c' "}" then Parsed (JObject []) r'
                else parse_members fuel' r []
            | [] => SyntaxError
            end
          else if Ascii.eqb c "n" then keyword "null" JNull (c :: r)
          else if Ascii.eqb c "t" then keyword "true" (JBool true) (c :: r)
          else if Ascii.eqb c "f" then keyword "false" (JBool false) (c :: r)
          else parse_number (c :: r)
      end
  end
with parse_elements (fuel : nat) (s : list ascii) (acc : list json) : parsed json :=
  match fuel with
  | O => NotModelled
  | S fuel' =>
      match parse_value fuel' s with
      | Parsed v rest =>
          match skip_ws rest with
          | c :: r =>
              if Ascii.eqb c "," then parse_elements fuel' r (v :: acc)
              else if Ascii.eqb c "]" then Parsed (JArray (rev (v :: acc))) r
              else SyntaxError
          | [] => SyntaxError
          end
      | SyntaxError => SyntaxError
      | NotModelled => NotModelled
      end
  end
with parse_members (fuel : nat) (s : list ascii) (acc : list (string * json)) : parsed json :=
  match fuel with
  | O => NotModelled
  | S fuel' =>
      match skip_ws s with
      | c :: r =>
          if Ascii.eqb c Js.DQUOTE then
            match parse_string r [] with
            | Parsed k rest =>
                match skip_ws rest with
                | c1 :: r1 =>
                    if Ascii.eqb c1 ":" then
                      match parse_value fuel' r1 with
                      | Parsed v rest' =>
                          match skip_ws rest' with
                          | c2 :: r2 =>
                              if Ascii.eqb c2 "," then parse_members fuel' r2 (set k v acc)
                              else if Ascii.eqb c2 "}" then Parsed (JObject (set k v acc)) r2
                              else SyntaxError
                          | [] => SyntaxError
                          end
                      | SyntaxError => SyntaxError
                      | NotModelled => NotModelled
                      end
                    else SyntaxError
                | [] => SyntaxError
                end
            | SyntaxError => SyntaxError
            | NotModelled => NotModelled
            end
          else SyntaxError
      | [] => SyntaxError
      end
  end.

(** [JSON.parse(text)]: one value between optional white space. *)
Definition parse (text : string) : outcome json :=
  match parse_value (S (String.length text)) (list_ascii_of_string text) with
  | Parsed v rest =>
      match skip_ws rest with
      | [] => Ret v
      | _ :: _ => Throw (Error "SyntaxError: JSON Parse error")
      end
  | SyntaxError => Throw (Error "SyntaxError: JSON Parse error")
  | NotModelled => Unmodelled
  end.

Definition hex_digit (n : N) : ascii :=
  if (n <? 10)%N then ascii_of_N (48 + n) else ascii_of_N (87 + n).

(** [QuoteJSONString]: the code units of a string literal between its quotes. *)
Fixpoint quote_chars (s : string) : string :=
  match s with
  | EmptyString => EmptyString
  | String c r =>
      let n := Js.code c in
      let rest := quote_chars r in
      if (n =? 34)%N then String Js.BACKSLASH (String Js.DQUOTE rest)
      else if (n =? 92)%N then String Js.BACKSLASH (String Js.BACKSLASH rest)
      else if (n =? 8)%N then String Js.BACKSLASH (String "b" rest)
      else if (n =? 12)%N then String Js.BACKSLASH (String "f" rest)
      else if (n =? 10)%N then String Js.BACKSLASH (String "n" rest)
      else if (n =? 13)%N then String Js.BACKSLASH (String "r" rest)
      else if (n =? 9)%N then String Js.BACKSLASH (String "t" rest)
      else if (n <? 32)%N then
        String Js.BACKSLASH (String "u" (String "0" (String "0"
          (String (hex_digit (n / 16)) (String (hex_digit (n mod 16)) rest)))))
      else String c rest
  end.

Definition quote (s : string) : string :=
  String Js.DQUOTE (quote_chars s +:+ String Js.DQUOTE EmptyString).

(** [JSON.stringify(v)] *)
Fixpoint stringify (v : json) : string :=
  match v with
  | JNull => "null"
  | JBool true => "true"
  | JBool false => "false"
  | JNumber n => Js.number_to_string n
  | JString s => quote s
  | JArray l => "[" +:+ Js.join "," (map stringify l) +:+ "]"
  | JObject o =>
      "{" +:+ Js.join "," (map (fun kv => quote (fst kv) +:+ ":" +:+ stringify (snd kv)) o) +:+ "}"
  end.

End Json.

(** ** Base64: [btoa] and [atob] *)

Module Base64.

Definition alphabet_char (n : N) : ascii :=
  if (n <? 26)%N then ascii_of_N (65 + n)
  else if (n <? 52)%N then ascii_of_N (71 + n)
  else if (n <? 62)%N then ascii_of_N (n - 4)
  else if (n =? 62)%N then "+"%char
  else "/"%char.

Definition alphabet_value (c : ascii) : option N :=
  let n := Js.code c in
  if Js.in_range 65 90 c then Some (n - 65)%N
  else if Js.in_range 97 122 c then Some (n - 71)%N
  else if Js.in_range 48 57 c then Some (n + 4)%N
  else if (n =? 43)%N then Some 62%N
  else if (n =? 47)%N then Some 63%N
  else None.

Fixpoint encode (l : list N) : list ascii :=
  match l with
  | a :: b :: c :: r =>
      alphabet_char (a / 4) :: alphabet_char ((a mod 4) * 16 + b / 16)
        :: alphabet_char ((b mod 16) * 4 + c / 64) :: alphabet_char (c mod 64) :: encode r
  | [a; b] =>
      [alphabet_char (a / 4); alphabet_char ((a mod 4) * 16 + b / 16);
       alphabet_char ((b mod 16) * 4); "="%char]
  | [a] => [alphabet_char (a / 4); alphabet_char ((a mod 4) * 16); "="%char; "="%char]
  | [] => []
  end.

(** [btoa(binary)] on a string of code units below 256. *)
Definition btoa (binary : string) : string :=
  string_of_list_ascii (encode (map Js.code (list_ascii_of_string binary))).

Definition is_ascii_whitespace (c : ascii) : bool :=
  let n := Js.code c in ((n =? 9) || (n =? 10) || (n =? 12) || (n =? 13) || (n =? 32))%N.

(** Drops one or two [=] from the end of [d]. *)
Definition strip_padding (d : list ascii) : list ascii :=
  match rev d with
  | p :: q :: r =>
      if Ascii.eqb p "=" then (if Ascii.eqb q "=" then rev r else rev (q :: r)) else d
  | [p] => if Ascii.eqb p "=" then [] else d
  | [] => d
  end.

Fixpoint sextets (d : list ascii) : option (list N) :=
  match d with
  | [] => Some []
  | c :: r =>
      match alphabet_value c, sextets r with
      | Some v, Some vs => Some (v :: vs)
      | _, _ => None
      end
  end.

Fixpoint decode (l : list N) : list ascii :=
  match l with
  | a :: b :: c :: d :: r =>
      ascii_of_N (a * 4 + b / 16) :: ascii_of_N ((b mod 16) * 16 + c / 4)
        :: ascii_of_N ((c mod 4) * 64 + d) :: decode r
  | [a; b; c] => [ascii_of_N (a * 4 + b / 16); ascii_of_N ((b mod 16) * 16 + c / 4)]
  | [a; b] => [ascii_of_N (a * 4 + b / 16)]
  | _ => []
  end.

(** [atob(data)], the forgiving base64 decoding: ASCII white space is
    dropped; when the length is then a multiple of four, one or two final
    [=] are dropped; a length of 1 modulo 4 or a code unit outside the
    alphabet is an [InvalidCharacterError]; left-over bits are discarded. *)
Definition atob (data : string) : outcome string :=
  let d := filter (fun c => negb (is_ascii_whitespace c)) (list_ascii_of_string data) in
  let d := if (List.length d mod 4 =? 0)%nat then strip_padding d else d in
  if (List.length d mod 4 =? 1)%nat then Throw (Error "InvalidCharacterError")
  else match sextets d with
       | Some vs => Ret (string_of_list_ascii (decode vs))
       | None => Throw (Error "InvalidCharacterError")
       end.

End Base64.

(** ** Data model ([src/types/index.ts]) *)

Record ScalekitConfig : Type := {
  envUrl : string;
  clientId : string;
  clientSecret : option string;
  redirectUri : option string;
  scopes : option (list string);
}.

Record ScalekitTokens : Type := {
  accessToken : string;
  refreshToken : option string;
  idToken : option string;
  tokenType : string;
  expiresIn : Z;
  expiresAt : Z;
}.

(** The claims of the ID token: any JSON value, as [JSON.parse] returns it.
    The code only tests it for truthiness and serialises it; [JNull] is
    JavaScript's [null]. *)
Definition ScalekitUser : Type := json.

Record ScalekitAuthState : Type := {
  isLoading : bool;
  isAuthenticated : bool;
  user : ScalekitUser;
  tokens : option ScalekitTokens;
  error : option string;
}.

Record ScalekitLoginOptions : Type := {
  organizationId : option string;
  connectionId : option string;
  extraParams : option (gmap string string);
}.

(** The body of the token endpoint's answer, as the exchange reads it. *)
Record TokenResponse : Type := {
  access_token : string;
  refresh_token : option string;
  id_token : option string;
  token_type : string;
  expires_in : Z;
}.

(** The object literal [{ accessToken: ..., ..., expiresAt: ... }]; a field
    that is [undefined] has no member in the serialised form. *)
Definition tokens_to_json (t : ScalekitTokens) : json :=
  JObject
    ([("accessToken", JString (accessToken t))]
     ++ match refreshToken t with Some r => [("refreshToken", JString r)] | None => [] end
     ++ match idToken t with Some i => [("idToken", JString i)] | None => [] end
     ++ [("tokenType", JString (tokenType t));
         ("expiresIn", JNumber (expiresIn t));
         ("expiresAt", JNumber (expiresAt t))]).

Definition required_string (k : string) (o : list (string * json)) : option string :=
  match Json.get k o with Some (JString s) => Some s | _ => None end.

(** A member that is a number, which is a safe integer like every number
    that [JSON.parse] returns. *)
Definition required_number (k : string) (o : list (string * json)) : option Z :=
  match Json.get k o with
  | Some (JNumber n) => if Js.is_safe_integer n then Some n else None
  | _ => None
  end.

(** [Some None] when the member is missing, [Some (Some s)] when it is a
    string, [None] when it has another type. *)
Definition optional_string (k : string) (o : list (string * json)) : option (option string) :=
  match Json.get k o with
  | None => Some None
  | Some (JString s) => Some (Some s)
  | Some _ => None
  end.

Definition ScalekitTokens_keys : list string :=
  ["accessToken"; "refreshToken"; "idToken"; "tokenType"; "expiresIn"; "expiresAt"].

(** A parsed value read at the interface [ScalekitTokens]: an object with
    exactly the members of the interface, each of its declared type. *)
Definition as_ScalekitTokens (v : json) : option ScalekitTokens :=
  match v with
  | JObject o =>
      if forallb (fun kv => existsb (String.eqb (fst kv)) ScalekitTokens_keys) o then
        match required_string "accessToken" o, optional_string "refreshToken" o,
              optional_string "idToken" o, required_string "tokenType" o,
              required_number "expiresIn" o, required_number "expiresAt" o with
        | Some a, Some r, Some i, Some ty, Some ein, Some eat =>
            Some {| accessToken := a; refreshToken := r; idToken := i;
                    tokenType := ty; expiresIn := ein; expiresAt := eat |}
        | _, _, _, _, _, _ => None
        end
      else None
  | _ => None
  end.

(** The answer of the token endpoint read at its documented fields; other
    members are ignored, as the code never looks at them. *)
Definition as_TokenResponse (v : json) : option TokenResponse :=
  match v with
  | JObject o =>
      match required_string "access_token" o, optional_string "refresh_token" o,
            optional_string "id_token" o, required_string "token_type" o,
            required_number "expires_in" o with
      | Some a, Some r, Some i, Some ty, Some ein =>
          Some {| access_token := a; refresh_token := r; id_token := i;
                  token_type := ty; expires_in := ein |}
      | _, _, _, _, _ => None
      end
  | _ => None
  end.

(** ** The system: React state, secure store, network *)

Record Request : Type := {
  request_url : string;
  request_method : string;
  request_headers : list (string * string);
  request_body : list (string * string);
}.

Record Response : Type := {
  response_ok : bool;
  response_text : string;
}.

(** The second part of [`${authorization}?${urlParams.toString()}`] is kept
    as the record of parameters it serialises. *)
Record AuthorizationUrl : Type := {
  endpoint : string;
  searchParams : gmap string string;
}.

Record WebBrowserResult : Type := {
  result_type : string;
  result_url : option string;
}.

Record System : Type := {
  authState : ScalekitAuthState;
  secureStore : gmap string string;
  requests : list Request;
}.

Definition with_authState (a : ScalekitAuthState) (s : System) : System :=
  {| authState := a; secureStore := secureStore s; requests := requests s |}.

Definition with_secureStore (m : gmap string string) (s : System) : System :=
  {| authState := authState s; secureStore := m; requests := requests s |}.

Definition with_request (r : Request) (s : System) : System :=
  {| authState := authState s; secureStore := secureStore s; requests := r :: requests s |}.

(** The collaborators.  A [*_rejects] field says whether the secure store
    rejects an operation (the store is then left as it was); the other
    fields are the answers of the crypto provider, the browser session, the
    HTTP client and the URL parser. *)
Record Platform : Type := {
  getItem_rejects : string -> option exn;
  setItem_rejects : string -> string -> option exn;
  deleteItem_rejects : string -> option exn;
  getRandomBytesAsync : Z -> outcome (list Byte.byte);
  digestStringAsync : string -> outcome string;
  openAuthSessionAsync : AuthorizationUrl -> string -> outcome WebBrowserResult;
  fetch_response : Request -> outcome Response;
  URL_searchParams_get : string -> string -> outcome (option string);
}.

(** ** The monad of asynchronous methods *)

Definition M (A : Type) : Type := System -> outcome A * System.

Definition ret {A : Type} (a : A) : M A := fun s => (Ret a, s).

Definition throw {A : Type} (e : exn) : M A := fun s => (Throw e, s).

Definition lift {A : Type} (o : outcome A) : M A := fun s => (o, s).

Definition bind {A B : Type} (m : M A) (k : A -> M B) : M B :=
  fun s =>
    match m s with
    | (Ret a, s') => k a s'
    | (Throw e, s') => (Throw e, s')
    | (Unmodelled, s') => (Unmodelled, s')
    end.

(** [try { body } catch (error) { handler }] *)
Definition try_catch {A : Type} (body : M A) (handler : exn -> M A) : M A :=
  fun s =>
    match body s with
    | (Throw e, s') => handler e s'
    | r => r
    end.

Declare Scope async_scope.
Delimit Scope async_scope with async.
Notation "x <- m ;; k" := (bind m (fun x => k))
  (at level 100, m at next level, right associativity) : async_scope.
Notation "m ;;; k" := (bind m (fun _ => k))
  (at level 100, right associativity) : async_scope.
Open Scope async_scope.

(** The rejection that settles [Promise.all] when one of two settled
    promises rejected: the earlier in the array. *)
Definition first_rejection (a b : outcome unit) : outcome unit :=
  match a with
  | Ret _ => b
  | _ => a
  end.

(** [await Promise.all(ps)]: every call of the array has been started
    before the [await], so each one runs whether or not another rejects. *)
Fixpoint Promise_all (ps : list (M unit)) : M unit :=
  match ps with
  | [] => ret tt
  | p :: ps' =>
      fun s =>
        let '(r, s1) := p s in
        let '(r', s2) := Promise_all ps' s1 in
        (first_rejection r r', s2)
  end.

(** [setAuthState(prev => f prev)]; [setAuthState(a)] is
    [setAuthState (fun _ => a)]. *)
Definition setAuthState (f : ScalekitAuthState -> ScalekitAuthState) : M unit :=
  fun s => (Ret tt, with_authState (f (authState s)) s).

(** ** The service class ([ScalekitAuth] in [src/types/index.ts]) *)

Module STORAGE_KEYS.
Definition TOKENS : string := "scalekit_tokens".
Definition USER_INFO : string := "scalekit_user_info".
Definition CODE_VERIFIER : string := "pkce_code_verifier".
End STORAGE_KEYS.

Module ScalekitAuth.

Import STORAGE_KEYS.

(** [this.config] once the constructor has resolved the two defaults. *)
Record t : Type := {
  config_envUrl : string;
  config_clientId : string;
  config_clientSecret : option string;
  config_redirectUri : string;
  config_scopes : list string;
}.

Definition getDefaultRedirectUri : string := "exp://localhost:8081/--/auth/callback".

(** [new ScalekitAuth(config)] *)
Definition new (config : ScalekitConfig) : t :=
  {| config_envUrl := envUrl config;
     config_clientId := clientId config;
     config_clientSecret := clientSecret config;
     config_redirectUri :=
       match redirectUri config with
       | Some r => if Js.truthy r then r else getDefaultRedirectUri
       | None => getDefaultRedirectUri
       end;
     config_scopes :=
       match scopes config with
       | Some l => l
       | None => ["openid"; "profile"; "email"]
       end |}.

Definition is_str_whitespace (c : ascii) : bool :=
  let n := Js.code c in
  ((n =? 9) || (n =? 10) || (n =? 11) || (n =? 12) || (n =? 13) || (n =? 32) || (n =? 160))%N.

Fixpoint skip_str_whitespace (l : list ascii) : list ascii :=
  match l with
  | c :: r => if is_str_whitespace c then skip_str_whitespace r else l
  | [] => []
  end.

(** The value of the longest run of hexadecimal digits at the head of [l];
    [acc] is [None] until a digit has been read. *)
Fixpoint hex_prefix (l : list ascii) (acc : option Z) : option Z :=
  match l with
  | c :: r =>
      match Js.hex_value c with
      | Some v => hex_prefix r (Some (16 * default 0 acc + Z.of_N v))
      | None => acc
      end
  | [] => acc
  end.

(** [parseInt(s, 16)]; [None] is [NaN]. *)
Definition parseInt16 (s : string) : option Z :=
  let l := skip_str_whitespace (list_ascii_of_string s) in
  let '(sign, l) :=
    match l with
    | c :: r => if Ascii.eqb c "-" then (-1, r) else if Ascii.eqb c "+" then (1, r) else (1, l)
    | [] => (1, l)
    end in
  let l :=
    match l with
    | z :: x :: r =>
        if Ascii.eqb z "0" && (Ascii.eqb x "x" || Ascii.eqb x "X") then r else l
    | _ => l
    end in
  option_map (Z.mul sign) (hex_prefix l None).

(** What a [Uint8Array] keeps of a number stored into it. *)
Definition to_uint8 (v : option Z) : Byte.byte :=
  match v with
  | Some z => default Byte.x00 (Byte.of_N (Z.to_N (z mod 256)))
  | None => Byte.x00
  end.

Fixpoint hexToBytes_pairs (hex : list ascii) : list Byte.byte :=
  match hex with
  | a :: b :: r => to_uint8 (parseInt16 (String a (String b EmptyString))) :: hexToBytes_pairs r
  | _ => []
  end.

(** [hexToBytes(hex)]: one byte for each full pair of code units. *)
Definition hexToBytes (hex : string) : list Byte.byte :=
  hexToBytes_pairs (list_ascii_of_string hex).

(** [base64URLEncode(buffer)] *)
Definition base64URLEncode (bytes : list Byte.byte) : string :=
  let binary := string_of_list_byte bytes in
  Js.remove_all "=" (Js.replace_all "/" "_" (Js.replace_all "+" "-" (Base64.btoa binary))).

Definition rethrow {A : Type} (error : exn) : M A := throw error.

Section Methods.

Variable platform : Platform.
Variable this : t.

Definition SecureStore_getItemAsync (key : string) : M (option string) :=
  fun s =>
    match getItem_rejects platform key with
    | Some e => (Throw e, s)
    | None => (Ret (secureStore s !! key), s)
    end.

Definition SecureStore_setItemAsync (key value : string) : M unit :=
  fun s =>
    match setItem_rejects platform key value with
    | Some e => (Throw e, s)
    | None => (Ret tt, with_secureStore (<[key := value]> (secureStore s)) s)
    end.

Definition SecureStore_deleteItemAsync (key : string) : M unit :=
  fun s =>
    match deleteItem_rejects platform key with
    | Some e => (Throw e, s)
    | None => (Ret tt, with_secureStore (delete key (secureStore s)) s)
    end.

(** [await fetch(url, init)]: the request goes on the network log. *)
Definition fetch (r : Request) : M Response :=
  fun s => (fetch_response platform r, with_request r s).

Definition getEndpoints_authorization : string := config_envUrl this +:+ "/oauth/authorize".
Definition getEndpoints_token : string := config_envUrl this +:+ "/oauth/token".

Definition generateCodeVerifier : M string :=
  randomBytes <- lift (getRandomBytesAsync platform 32) ;;
  ret (base64URLEncode randomBytes).

Definition generateCodeChallenge (verifier : string) : M string :=
  digest <- lift (digestStringAsync platform verifier) ;;
  ret (base64URLEncode (hexToBytes digest)).

(** The [params] object of [login], with the optional parameters added. *)
Definition authorization_params (options : option ScalekitLoginOptions)
    (codeChallenge : string) : gmap string string :=
  let params : gmap string string :=
    list_to_map
      [("client_id", config_clientId this);
       ("redirect_uri", config_redirectUri this);
       ("response_type", "code");
       ("scope", Js.join " " (config_scopes this));
       ("code_challenge", codeChallenge);
       ("code_challenge_method", "S256")] in
  let params :=
    match options ≫= organizationId with
    | Some o => if Js.truthy o then <["organization_id" := o]> params else params
    | None => params
    end in
  let params :=
    match options ≫= connectionId with
    | Some c => if Js.truthy c then <["connection_id" := c]> params else params
    | None => params
    end in
  match options ≫= extraParams with
  | Some extra => extra ∪ params
  | None => params
  end.

(** [login(options)] *)
Definition login (options : option ScalekitLoginOptions) : M WebBrowserResult :=
  try_catch
    (codeVerifier <- generateCodeVerifier ;;
     codeChallenge <- generateCodeChallenge codeVerifier ;;
     SecureStore_setItemAsync CODE_VERIFIER codeVerifier ;;;
     let authUrl :=
       {| endpoint := getEndpoints_authorization;
          searchParams := authorization_params options codeChallenge |} in
     result <- lift (openAuthSessionAsync platform authUrl (config_redirectUri this)) ;;
     ret result)
    rethrow.

(** The POST of the exchange.  A client secret that is [undefined] is
    serialised by [URLSearchParams] as the text [undefined]. *)
Definition token_request (code codeVerifier : string) : Request :=
  {| request_url := getEndpoints_token;
     request_method := "POST";
     request_headers := [("Content-Type", "application/x-www-form-urlencoded")];
     request_body :=
       [("grant_type", "authorization_code");
        ("code", code);
        ("redirect_uri", config_redirectUri this);
        ("client_id", config_clientId this);
        ("client_secret", default "undefined" (config_clientSecret this));
        ("code_verifier", codeVerifier)] |}.

(** [await response.json()], read at the fields of the token answer. *)
Definition response_json (response : Response) : M TokenResponse :=
  v <- lift (Json.parse (response_text response)) ;;
  match as_TokenResponse v with
  | Some data => ret data
  | None => lift Unmodelled
  end.

(** The tokens built from the answer [data] received at time [now]. *)
Definition tokens_of_response (data : TokenResponse) (now : Z) : ScalekitTokens :=
  {| accessToken := access_token data;
     refreshToken := refresh_token data;
     idToken := id_token data;
     tokenType := token_type data;
     expiresIn := expires_in data;
     expiresAt := now + expires_in data * 1000 |}.

(** [exchangeCodeForTokens(code)]; [now] is the reading of [Date.now()].
    An absolute expiry that is not a safe integer would be rounded by the
    addition of doubles, and is left out of the embedding. *)
Definition exchangeCodeForTokens (code : string) (now : Z) : M ScalekitTokens :=
  try_catch
    (codeVerifier <- SecureStore_getItemAsync CODE_VERIFIER ;;
     match codeVerifier with
     | Some codeVerifier =>
         if negb (Js.truthy codeVerifier) then
           throw (Error "Code verifier not found. Please restart the login flow.")
         else
           response <- fetch (token_request code codeVerifier) ;;
           if negb (response_ok response) then
             let errorData := response_text response in
             throw (Error ("Token exchange failed: " +:+ errorData))
           else
             data <- response_json response ;;
             let tokens := tokens_of_response data now in
             if negb (Js.is_safe_integer (expiresAt tokens)) then lift Unmodelled
             else
               SecureStore_setItemAsync TOKENS (Json.stringify (tokens_to_json tokens)) ;;;
               SecureStore_deleteItemAsync CODE_VERIFIER ;;;
               ret tokens
     | None => throw (Error "Code verifier not found. Please restart the login flow.")
     end)
    rethrow.

(** [decodeIdToken(idToken)] *)
Definition decodeIdToken (idToken : string) : outcome ScalekitUser :=
  ocatch
    (let parts := Js.split "." idToken in
     if negb (List.length parts =? 3)%nat then Throw (Error "Invalid JWT format")
     else
       let payload := nth 1 parts EmptyString in
       let paddedPayload :=
         payload +:+ Js.repeat "=" (Z.to_nat ((4 - (Js.length payload mod 4)) mod 4)) in
       obind (Base64.atob (Js.replace_all "_" "/" (Js.replace_all "-" "+" paddedPayload)))
         (fun decodedPayload =>
            obind (Json.parse decodedPayload) (fun userInfo => Ret userInfo)))
    (fun _ => Throw (Error "Failed to decode user information from id_token")).

(** [getUserInfo(idToken)] *)
Definition getUserInfo (idToken : string) : M ScalekitUser :=
  try_catch
    (userInfo <- lift (decodeIdToken idToken) ;;
     SecureStore_setItemAsync USER_INFO (Json.stringify userInfo) ;;;
     ret userInfo)
    rethrow.

(** [getStoredTokens()] read at its declared type
    [Promise<ScalekitTokens | null>]; [None] is [null].  The code returns
    the value of [JSON.parse] unchecked: a value that is neither [null] nor
    a record of the interface leaves this reading, and is followed by
    [Untyped.getStoredTokens] below. *)
Definition getStoredTokens : M (option ScalekitTokens) :=
  try_catch
    (tokensJson <- SecureStore_getItemAsync TOKENS ;;
     if Js.truthy_opt tokensJson then
       v <- lift (Json.parse (default EmptyString tokensJson)) ;;
       match v with
       | JNull => ret None
       | _ =>
           match as_ScalekitTokens v with
           | Some t => ret (Some t)
           | None => lift Unmodelled
           end
       end
     else ret None)
    (fun _ => ret None).

(** [getStoredUserInfo()]; [JNull] is [null]. *)
Definition getStoredUserInfo : M ScalekitUser :=
  try_catch
    (userInfoJson <- SecureStore_getItemAsync USER_INFO ;;
     if Js.truthy_opt userInfoJson then
       lift (Json.parse (default EmptyString userInfoJson))
     else ret JNull)
    (fun _ => ret JNull).

(** [areTokensExpired(tokens)]; [now] is the reading of [Date.now()]. *)
Definition areTokensExpired (now : Z) (tokens : ScalekitTokens) : bool :=
  now >=? expiresAt tokens - 60000.

(** [logout()] *)
Definition logout : M unit :=
  try_catch
    (Promise_all
       [SecureStore_deleteItemAsync TOKENS;
        SecureStore_deleteItemAsync USER_INFO;
        SecureStore_deleteItemAsync CODE_VERIFIER])
    rethrow.

End Methods.

End ScalekitAuth.

(** ** The provider ([src/ScalekitProvider.tsx]) *)

Module ScalekitProvider.

Section Provider.

Variable platform : Platform.
Variable authService : ScalekitAuth.t.

(** The argument of [useState]. *)
Definition initialAuthState : ScalekitAuthState :=
  {| isLoading := true; isAuthenticated := false; user := JNull; tokens := None;
     error := None |}.

Definition authenticated (u : ScalekitUser) (t : ScalekitTokens) : ScalekitAuthState :=
  {| isLoading := false; isAuthenticated := true; user := u; tokens := Some t;
     error := None |}.

Definition unauthenticated (e : option string) : ScalekitAuthState :=
  {| isLoading := false; isAuthenticated := false; user := JNull; tokens := None;
     error := e |}.

(** [{ ...prev, isLoading: l, error: e }] *)
Definition with_loading_error (l : bool) (e : option string) (prev : ScalekitAuthState)
  : ScalekitAuthState :=
  {| isLoading := l; isAuthenticated := isAuthenticated prev; user := user prev;
     tokens := tokens prev; error := e |}.

(** [{ ...prev, isLoading: l }] *)
Definition with_loading (l : bool) (prev : ScalekitAuthState) : ScalekitAuthState :=
  with_loading_error l (error prev) prev.

(** [storedTokens && storedUser && !authService.areTokensExpired(storedTokens)] *)
Definition valid_session (now : Z) (storedTokens : option ScalekitTokens)
    (storedUser : ScalekitUser) : bool :=
  match storedTokens with
  | Some t => Json.truthy storedUser && negb (ScalekitAuth.areTokensExpired now t)
  | None => false
  end.

(** The body of the [try] of [initAuth]. *)
Definition initAuth_try (now : Z) : M unit :=
  storedTokens <- ScalekitAuth.getStoredTokens platform ;;
  storedUser <- ScalekitAuth.getStoredUserInfo platform ;;
  match storedTokens with
  | Some t =>
      if valid_session now storedTokens storedUser then
        setAuthState (fun _ => authenticated storedUser t)
      else
        ScalekitAuth.logout platform ;;;
        setAuthState (fun _ => unauthenticated None)
  | None => setAuthState (fun _ => unauthenticated None)
  end.

(** [initAuth()], run once when the provider mounts. *)
Definition initAuth (now : Z) : M unit :=
  try_catch (initAuth_try now)
    (fun _ => setAuthState (fun _ => unauthenticated (Some "Failed to initialize authentication"))).

(** [error instanceof Error ? error.message : 'Login failed'] *)
Definition login_error_message (e : exn) : string :=
  match e with
  | Error message => message
  | Thrown _ => "Login failed"
  end.

(** The body of the [try] of [login]. *)
Definition login_try (options : option ScalekitLoginOptions) (now : Z) : M unit :=
  setAuthState (with_loading_error true None) ;;;
  result <- ScalekitAuth.login platform authService options ;;
  if String.eqb (result_type result) "success" && Js.truthy_opt (result_url result) then
    code <- lift (URL_searchParams_get platform (default EmptyString (result_url result)) "code") ;;
    if negb (Js.truthy_opt code) then throw (Error "No authorization code received")
    else
      tokens <- ScalekitAuth.exchangeCodeForTokens platform authService
                  (default EmptyString code) now ;;
      if negb (Js.truthy_opt (idToken tokens)) then
        throw (Error "No id_token received from Scalekit")
      else
        user <- ScalekitAuth.getUserInfo platform (default EmptyString (idToken tokens)) ;;
        setAuthState (fun _ => authenticated user tokens)
  else if String.eqb (result_type result) "dismiss" || String.eqb (result_type result) "cancel"
  then setAuthState (with_loading_error false None)
  else throw (Error "Authentication was not successful").

(** [login(options)] *)
Definition login (options : option ScalekitLoginOptions) (now : Z) : M unit :=
  try_catch (login_try options now)
    (fun error => setAuthState (fun _ => unauthenticated (Some (login_error_message error)))).

(** The body of the [try] of [logout]. *)
Definition logout_try : M unit :=
  setAuthState (with_loading true) ;;;
  ScalekitAuth.logout platform ;;;
  setAuthState (fun _ => unauthenticated None).

(** [logout()] *)
Definition logout : M unit :=
  try_catch logout_try
    (fun _ => setAuthState (with_loading_error false (Some "Failed to logout"))).

(** [getAccessToken()]; [None] is [null]. *)
Definition getAccessToken (now : Z) : M (option string) :=
  tokens <- ScalekitAuth.getStoredTokens platform ;;
  match tokens with
  | Some t =>
      if ScalekitAuth.areTokensExpired now t then ret None else ret (Some (accessToken t))
  | None => ret None
  end.

(** [{ ...prev, user }] *)
Definition with_user (u : ScalekitUser) (prev : ScalekitAuthState) : ScalekitAuthState :=
  {| isLoading := isLoading prev; isAuthenticated := isAuthenticated prev; user := u;
     tokens := tokens prev; error := error prev |}.

(** [refreshUser()] as the callback of the current context value: the
    [authState.tokens] of its closure are the tokens of the state at the
    time of the call. *)
Definition refreshUser : M unit :=
  fun s =>
    match tokens (authState s) with
    | Some t =>
        if negb (Js.truthy_opt (idToken t)) then throw (Error "No active session") s
        else
          try_catch
            (user <- ScalekitAuth.getUserInfo platform (default EmptyString (idToken t)) ;;
             setAuthState (with_user user))
            ScalekitAuth.rethrow s
    | None => throw (Error "No active session") s
    end.

(** [refreshUser()] as the callback of any render: the guard and the ID
    token come from [captured], the [authState.tokens] of the render that
    created the callback, and the update [{ ...prev, user }] applies to the
    state at the time of the call. *)
Definition refreshUser_of (captured : option ScalekitTokens) : M unit :=
  match captured with
  | Some t =>
      if negb (Js.truthy_opt (idToken t)) then throw (Error "No active session")
      else
        try_catch
          (user <- ScalekitAuth.getUserInfo platform (default EmptyString (idToken t)) ;;
           setAuthState (with_user user))
          ScalekitAuth.rethrow
  | None => throw (Error "No active session")
  end.

End Provider.

End ScalekitProvider.

(** ** Vocabulary of the statements *)

Import STORAGE_KEYS.

(** The secure store after [logout] has asked for the deletion of [key]. *)
Definition delete_unless_rejected (p : Platform) (key : string) (m : gmap string string)
  : gmap string string :=
  match deleteItem_rejects p key with
  | None => delete key m
  | Some _ => m
  end.

(** The secure store after the three deletions of [logout]. *)
Definition cleanup (p : Platform) (m : gmap string string) : gmap string string :=
  delete_unless_rejected p CODE_VERIFIER
    (delete_unless_rejected p USER_INFO (delete_unless_rejected p TOKENS m)).

(** No deletion of [logout] is rejected. *)
Definition deletes_resolve (p : Platform) : bool :=
  forallb (fun key => bool_decide (deleteItem_rejects p key = None))
    [TOKENS; USER_INFO; CODE_VERIFIER].

(** The store holds, under [key], a blob that [JSON.parse] reads as [v]. *)
Definition holds (s : System) (key : string) (v : json) : Prop :=
  exists blob, secureStore s !! key = Some blob /\ Json.parse blob = Ret v.

(** The store holds the token record [t]. *)
Definition holds_tokens (s : System) (t : ScalekitTokens) : Prop :=
  exists v, holds s TOKENS v /\ as_ScalekitTokens v = Some t.

(** The one error that [exchangeCodeForTokens] throws when it finds no
    verifier. *)
Definition MissingVerifier : exn :=
  Error "Code verifier not found. Please restart the login flow.".

(** The one error that [decodeIdToken] lets out. *)
Definition MalformedToken : exn := Error "Failed to decode user information from id_token".

Fixpoint no_dot (s : string) : bool :=
  match s with
  | EmptyString => true
  | String c r => negb (Ascii.eqb c ".") && no_dot r
  end.

(** The work of [decodeIdToken] on the middle segment. *)
Definition decode_payload (payload : string) : outcome ScalekitUser :=
  let paddedPayload :=
    payload +:+ Js.repeat "=" (Z.to_nat ((4 - (Js.length payload mod 4)) mod 4)) in
  obind (Base64.atob (Js.replace_all "_" "/" (Js.replace_all "-" "+" paddedPayload)))
    Json.parse.

(** The state in which [login] of the provider calls the service. *)
Definition logging_in (s : System) : System :=
  with_authState (ScalekitProvider.with_loading_error true None (authState s)) s.

(** The authorization URL that [login] of the service opens. *)
Definition authUrl_of (svc : ScalekitAuth.t) (options : option ScalekitLoginOptions)
    (digest : string) : AuthorizationUrl :=
  {| endpoint := ScalekitAuth.getEndpoints_authorization svc;
     searchParams :=
       ScalekitAuth.authorization_params svc options
         (ScalekitAuth.base64URLEncode (ScalekitAuth.hexToBytes digest)) |}.

(** What a run that started at [s] and read the clock at [now] may have left
    under the tokens key at [s1]: the blob that was there, with the network
    log unchanged or one request longer, or else the record of a token
    answer, with the request of the exchange on the log. *)
Definition tokens_kept_or_renewed (now : Z) (s s1 : System) : Prop :=
  (secureStore s1 !! TOKENS = secureStore s !! TOKENS
   /\ (requests s1 = requests s \/ exists q, requests s1 = q :: requests s))
  \/ (exists data q,
        requests s1 = q :: requests s
        /\ secureStore s1 !! TOKENS
           = Some (Json.stringify (tokens_to_json (ScalekitAuth.tokens_of_response data now)))).

(** The state that the [catch] of [login] sets. *)
Definition login_failed (e : exn) (s1 : System) : System :=
  with_authState
    (ScalekitProvider.unauthenticated (Some (ScalekitProvider.login_error_message e))) s1.

(** The end of a number literal: nothing, or a code unit that neither
    continues the digits nor starts a fraction or an exponent. *)
Definition number_end (rest : list ascii) : bool :=
  match rest with
  | [] => true
  | c :: _ => negb (Js.is_digit c) && negb (Json.starts_fraction_or_exponent rest)
  end.

(** A member value that the token record serialises: a string or a safe
    integer. *)
Definition flat (v : json) : bool :=
  match v with
  | JString _ => true
  | JNumber n => Js.is_safe_integer n
  | _ => false
  end.

(** The text of one member in [JSON.stringify] of an object. *)
Definition member_text (kv : string * json) : string :=
  Json.quote kv.1 +:+ ":" +:+ Json.stringify kv.2.

(** *** The claims that the code does not satisfy, as stated *)

(** C1: whatever the secure store answers, [logout] leaves the state
    unauthenticated. *)
Definition logout_always_unauthenticates : Prop :=
  forall (p : Platform) (s : System),
    isAuthenticated (authState (ScalekitProvider.logout p s).2) = false.

(** C6: the decoder fails exactly when the token does not have three
    segments. *)
Definition decode_fails_iff_not_three_segments : Prop :=
  forall idToken : string,
    ScalekitAuth.decodeIdToken idToken = Throw MalformedToken
    <-> List.length (Js.split "." idToken) <> 3%nat.

(** C8, for the token record: a blob whose JSON parsing throws makes the
    read throw. *)
Definition corrupt_read_propagates : Prop :=
  forall (p : Platform) (s : System) (blob : string) (e : exn),
    getItem_rejects p TOKENS = None ->
    secureStore s !! TOKENS = Some blob ->
    Json.parse blob = Throw e ->
    exists e' s', ScalekitAuth.getStoredTokens p s = (Throw e', s').

(** C9: from every state, a login that the user cancels or dismisses ends
    unauthenticated, with no error and not loading. *)
Definition cancel_always_unauthenticates : Prop :=
  forall (p : Platform) (svc : ScalekitAuth.t) (options : option ScalekitLoginOptions)
         (now : Z) (s : System) (result : WebBrowserResult) (s1 : System),
    ScalekitAuth.login p svc options (logging_in s) = (Ret result, s1) ->
    result_type result = "cancel" \/ result_type result = "dismiss" ->
    isAuthenticated (authState (ScalekitProvider.login p svc options now s).2) = false
    /\ error (authState (ScalekitProvider.login p svc options now s).2) = None
    /\ isLoading (authState (ScalekitProvider.login p svc options now s).2) = false.

(** C10: after every login that threw, the token record of the previous
    session is still the stored one, so that [getAccessToken] returns its
    access token while it is not expired. *)
Definition failed_login_keeps_previous_tokens : Prop :=
  forall (p : Platform) (svc : ScalekitAuth.t) (options : option ScalekitLoginOptions)
         (now : Z) (s : System) (e : exn) (s1 : System) (t : ScalekitTokens)
         (p' : Platform) (now' : Z),
    ScalekitProvider.login_try p svc options now s = (Throw e, s1) ->
    holds_tokens s t ->
    getItem_rejects p' TOKENS = None ->
    now' < expiresAt t - 60000 ->
    secureStore s1 !! TOKENS = secureStore s !! TOKENS
    /\ (ScalekitProvider.getAccessToken p' now' (login_failed e s1)).1
       = Ret (Some (accessToken t)).

(** ** Concrete sessions *)

Module Scenario.

Definition now : Z := 1700000000000.

Definition service : ScalekitAuth.t :=
  ScalekitAuth.new
    {| envUrl := "https://auth.example.com"; clientId := "skc_1"; clientSecret := None;
       redirectUri := None; scopes := None |}.

(** A token of three segments whose payload is the base64url form of the
    claims [sub = u1] and [email = a@b.com]. *)
Definition payload : string := "eyJzdWIiOiJ1MSIsImVtYWlsIjoiYUBiLmNvbSJ9".
Definition jwt : string := "eyJhbGciOiJub25lIn0." +:+ payload +:+ ".sig".
Definition claims : ScalekitUser := JObject [("sub", JString "u1"); ("email", JString "a@b.com")].

Definition session (access : string) (expiry : Z) : ScalekitTokens :=
  {| accessToken := access; refreshToken := None; idToken := Some jwt;
     tokenType := "Bearer"; expiresIn := 3600; expiresAt := expiry |}.

Definition old_tokens : ScalekitTokens := session "old-access-token" (now + 120000).
Definition stale_tokens : ScalekitTokens := session "old-access-token" (now - 1).

Definition store_of (t : ScalekitTokens) (u : ScalekitUser) : gmap string string :=
  <[TOKENS := Json.stringify (tokens_to_json t)]> (<[USER_INFO := Json.stringify u]> ∅).

Definition system (a : ScalekitAuthState) (m : gmap string string) : System :=
  {| authState := a; secureStore := m; requests := [] |}.

Definition signed_in : System :=
  system (ScalekitProvider.authenticated claims old_tokens) (store_of old_tokens claims).

Definition mounting (m : gmap string string) : System :=
  system ScalekitProvider.initialAuthState m.

(** The verifier is the base64url form of 32 zero bytes and the digest is
    its SHA-256; the other collaborators answer as the arguments say. *)
Definition platform (rejected_delete : option string) (browser : WebBrowserResult)
    (code : option string) (response : Response) : Platform :=
  {| getItem_rejects := fun _ => None;
     setItem_rejects := fun _ _ => None;
     deleteItem_rejects := fun key =>
       if bool_decide (Some key = rejected_delete) then Some (Error "Could not delete item")
       else None;
     getRandomBytesAsync := fun n => Ret (replicate (Z.to_nat n) Byte.x00);
     digestStringAsync := fun _ =>
       Ret "0f007385b6f9d4b7eeb2748605afe1a984a0a3bfa3f014d09e2a784ce9e5cd1a";
     openAuthSessionAsync := fun _ _ => Ret browser;
     fetch_response := fun _ => Ret response;
     URL_searchParams_get := fun _ _ => Ret code |}.

Definition cancelled : WebBrowserResult := {| result_type := "cancel"; result_url := None |}.

Definition callback (query : string) : WebBrowserResult :=
  {| result_type := "success";
     result_url := Some ("exp://localhost:8081/--/auth/callback" +:+ query) |}.

Definition no_response : Response := {| response_ok := false; response_text := "" |}.

(** The answer of the token endpoint with the given members. *)
Definition token_response (members : list (string * json)) : Response :=
  {| response_ok := true; response_text := Json.stringify (JObject members) |}.

Definition quiet : Platform := platform None cancelled None no_response.

(** The verifier that [login] stores with the random bytes of [platform]. *)
Definition verifier : string := "AAAAAAAAAAAAAAAAAAAAAAAAAAAAAAAAAAAAAAAAAAA".

(** The system once the service has stored the verifier and the browser
    session has returned. *)
Definition after_browser (s : System) : System :=
  with_secureStore (<[CODE_VERIFIER := verifier]> (secureStore s)) (logging_in s).

(** A signed-out application whose browser session has just returned. *)
Definition awaiting_callback : System :=
  system (ScalekitProvider.with_loading_error true None ScalekitProvider.initialAuthState)
    (<[CODE_VERIFIER := verifier]> ∅).

Definition issued : TokenResponse :=
  {| access_token := "new-access-token"; refresh_token := Some "refresh-1";
     id_token := Some jwt; token_type := "Bearer"; expires_in := 3600 |}.

(** The answer of the token endpoint that carries [issued]. *)
Definition issued_response : Response :=
  token_response
    [("access_token", JString "new-access-token"); ("refresh_token", JString "refresh-1");
     ("id_token", JString jwt); ("token_type", JString "Bearer");
     ("expires_in", JNumber 3600)].

(** An answer of the token endpoint without an ID token. *)
Definition anonymous_response : Response :=
  token_response
    [("access_token", JString "new-access-token"); ("token_type", JString "Bearer");
     ("expires_in", JNumber 3600)].

(** The platform of a login whose callback carries the code [abc] and whose
    exchange is answered by [response]. *)
Definition answering (response : Response) : Platform :=
  platform None (callback "?code=abc") (Some "abc") response.

End Scenario.

(** ** Sessions over time *)

(** The authentication flag and the token record go together, and a state
    that is not authenticated has no user. *)
Definition session_consistent (a : ScalekitAuthState) : Prop :=
  if isAuthenticated a then is_Some (tokens a) else tokens a = None /\ user a = JNull.

(** One call of a method of the context value, run to its end before the
    next one starts, with the collaborators and the clock of that call; the
    call stays within the embedding. *)
Inductive provider_step (s s' : System) : Prop :=
| step_initAuth (p : Platform) (now : Z) (r : outcome unit) :
    ScalekitProvider.initAuth p now s = (r, s') -> r <> Unmodelled -> provider_step s s'
| step_login (p : Platform) (svc : ScalekitAuth.t) (options : option ScalekitLoginOptions)
    (now : Z) (r : outcome unit) :
    ScalekitProvider.login p svc options now s = (r, s') -> r <> Unmodelled ->
    provider_step s s'
| step_logout (p : Platform) (r : outcome unit) :
    ScalekitProvider.logout p s = (r, s') -> r <> Unmodelled -> provider_step s s'
| step_refreshUser (p : Platform) (r : outcome unit) :
    ScalekitProvider.refreshUser p s = (r, s') -> r <> Unmodelled -> provider_step s s'
| step_getAccessToken (p : Platform) (now : Z) (r : outcome (option string)) :
    ScalekitProvider.getAccessToken p now s = (r, s') -> r <> Unmodelled ->
    provider_step s s'.

(** What one call may have made of the state [a]: nothing, new flags, a
    session, no session, or a new user beside the tokens it has. *)
Definition state_update (a a' : ScalekitAuthState) : Prop :=
  a' = a
  \/ (exists l e, a' = ScalekitProvider.with_loading_error l e a)
  \/ (exists u t, a' = ScalekitProvider.authenticated u t)
  \/ (exists e, a' = ScalekitProvider.unauthenticated e)
  \/ (exists u, is_Some (tokens a) /\ a' = ScalekitProvider.with_user u a).

(** ** The parameters of the authorization URL *)

(** [options?.extraParams?.[k]] *)
Definition extra_param (options : option ScalekitLoginOptions) (k : string) : option string :=
  match options ≫= extraParams with
  | Some extra => extra !! k
  | None => None
  end.

(** [options?.organizationId] and [options?.connectionId] when they are
    truthy. *)
Definition truthy_option (o : option string) : option string :=
  match o with
  | Some v => if Js.truthy v then Some v else None
  | None => None
  end.

(** The parameter [k] of the authorization URL before [extraParams] is
    assigned over it. *)
Definition standard_param (svc : ScalekitAuth.t) (options : option ScalekitLoginOptions)
    (codeChallenge : string) (k : string) : option string :=
  if String.eqb k "client_id" then Some (ScalekitAuth.config_clientId svc)
  else if String.eqb k "redirect_uri" then Some (ScalekitAuth.config_redirectUri svc)
  else if String.eqb k "response_type" then Some "code"
  else if String.eqb k "scope" then Some (Js.join " " (ScalekitAuth.config_scopes svc))
  else if String.eqb k "code_challenge" then Some codeChallenge
  else if String.eqb k "code_challenge_method" then Some "S256"
  else if String.eqb k "organization_id" then truthy_option (options ≫= organizationId)
  else if String.eqb k "connection_id" then truthy_option (options ≫= connectionId)
  else None.

(** ** Base64 in detail *)

(** The sextets that [btoa] encodes for the code units [l], group by group,
    before the padding. *)
Fixpoint core_sextets (l : list N) : list N :=
  match l with
  | a :: b :: c :: r =>
      (a / 4 :: (a mod 4) * 16 + b / 16 :: (b mod 16) * 4 + c / 64 :: c mod 64
         :: core_sextets r)%N
  | [a; b] => [a / 4; (a mod 4) * 16 + b / 16; (b mod 16) * 4]%N
  | [a] => [a / 4; (a mod 4) * 16]%N
  | [] => []
  end.

(** The number of [=] that [btoa] appends. *)
Fixpoint padding (l : list N) : nat :=
  match l with
  | _ :: _ :: _ :: r => padding r
  | [_; _] => 1
  | [_] => 2
  | [] => 0
  end.

(** The code unit that [base64URLEncode] writes for the code unit [c] of
    [btoa]. *)
Definition url_char (c : ascii) : ascii :=
  if Ascii.eqb c "+" then "-"%char else if Ascii.eqb c "/" then "_"%char else c.

(** The unreserved characters of the base64url alphabet. *)
Definition is_url_safe (c : ascii) : bool :=
  Js.in_range 65 90 c || Js.in_range 97 122 c || Js.in_range 48 57 c
  || Ascii.eqb c "-" || Ascii.eqb c "_".

(** The code units of the binary string that [base64URLEncode] builds. *)
Definition byte_codes (bytes : list Byte.byte) : list N :=
  map Js.code (list_ascii_of_string (string_of_list_byte bytes)).

(** ** JSON values as [JSON.parse] returns them *)

(** The key [k] may come before the key [k'] among the own properties of
    an object: they differ, an array index comes before a larger one and
    before every other key. *)
Definition key_before (k k' : string) : bool :=
  negb (String.eqb k k')
  && match Json.array_index k, Json.array_index k' with
     | Some i, Some j => i <? j
     | Some _, None => true
     | None, Some _ => false
     | None, None => true
     end.

(** The members are in the order in which JavaScript enumerates them. *)
Fixpoint ordered (o : list (string * json)) : bool :=
  match o with
  | [] => true
  | kv :: o' => forallb (fun kv' => key_before (fst kv) (fst kv')) o' && ordered o'
  end.

(** A value within the embedding's reach in the form in which [JSON.parse]
    builds it: numbers are safe integers, and the members of every object
    are in enumeration order. *)
Fixpoint canonical (v : json) : bool :=
  match v with
  | JNull | JBool _ | JString _ => true
  | JNumber n => Js.is_safe_integer n
  | JArray l => forallb canonical l
  | JObject o => forallb (fun kv => canonical (snd kv)) o && ordered o
  end.

(** A bound on the fuel that parsing the serialised form of [v] needs. *)
Fixpoint size (v : json) : nat :=
  match v with
  | JArray l => S (S (fold_right (fun e n => size e + n) 0 l))
  | JObject o => S (S (fold_right (fun kv n => size (snd kv) + n) 0 o))
  | _ => 1
  end%nat.

(** ** Hexadecimal digests *)

(** The lower-case hexadecimal text of [bytes], two digits a byte, as the
    crypto provider prints a digest. *)
Definition hex_of_bytes (bytes : list Byte.byte) : string :=
  string_of_list_ascii
    (flat_map
       (fun b => [Json.hex_digit (Byte.to_N b / 16); Json.hex_digit (Byte.to_N b mod 16)])
       bytes).

(** ** The config plugin ([withScalekit]) *)

Module ConfigPlugin.

(** [ScalekitPluginProps] *)
Record ScalekitPluginProps : Type := {
  props_scheme : option string;
}.

(** What the plugin reads of the Expo config. *)
Record ExpoConfig : Type := {
  config_scheme : option string;
  config_slug : string;
  config_ios_bundleIdentifier : option string;
}.

(** An entry of [CFBundleURLTypes]. *)
Record URLType : Type := {
  CFBundleTypeRole : string;
  CFBundleURLSchemes : option (list string);
  CFBundleURLName : option string;
}.

(** The one key of [Info.plist] that the plugin reads and writes. *)
Record InfoPlist : Type := {
  CFBundleURLTypes : option (list URLType);
}.

(** The attributes [$] of an element of the parsed manifest. *)
Definition Attributes : Type := option (gmap string string).

(** [element.$?.[name]] *)
Definition attribute (element : Attributes) (name : string) : option string :=
  match element with
  | Some attributes => attributes !! name
  | None => None
  end.

Record IntentFilter : Type := {
  action : option (list Attributes);
  category : option (list Attributes);
  data : option (list Attributes);
}.

Record Activity : Type := {
  activity_attributes : Attributes;
  intent_filter : option (list IntentFilter);
}.

Record Application : Type := {
  activity : option (list Activity);
}.

(** [androidManifest.manifest] *)
Record AndroidManifest : Type := {
  application : option (list Application);
}.

(** [type.CFBundleURLSchemes?.includes(scheme)] *)
Definition includes_scheme (scheme : string) (type : URLType) : bool :=
  match CFBundleURLSchemes type with
  | Some schemes => existsb (String.eqb scheme) schemes
  | None => false
  end.

(** The callback given to [withInfoPlist]. *)
Definition withInfoPlist_mod (scheme : string) (config : ExpoConfig) (infoPlist : InfoPlist)
  : InfoPlist :=
  let urlTypes := default [] (CFBundleURLTypes infoPlist) in
  if existsb (includes_scheme scheme) urlTypes then {| CFBundleURLTypes := Some urlTypes |}
  else
    {| CFBundleURLTypes :=
         Some
           (urlTypes
            ++ [{| CFBundleTypeRole := "Editor";
                   CFBundleURLSchemes := Some [scheme];
                   CFBundleURLName :=
                     Some (if Js.truthy_opt (config_ios_bundleIdentifier config)
                           then default EmptyString (config_ios_bundleIdentifier config)
                           else config_slug config) |}]) |}.

(** [elements?.some((element) => element.$?.[name] === value)] *)
Definition some_attribute (name value : string) (elements : option (list Attributes)) : bool :=
  match elements with
  | Some l => existsb (fun element => bool_decide (attribute element name = Some value)) l
  | None => false
  end.

(** The predicate of the search for the main activity. *)
Definition is_main (a : Activity) : bool :=
  bool_decide (attribute (activity_attributes a) "android:name" = Some ".MainActivity")
  || match intent_filter a with
     | Some filters =>
         existsb
           (fun filter => some_attribute "android:name" "android.intent.action.MAIN" (action filter))
           filters
     | None => false
     end.

Definition named (value : string) : Attributes := Some {["android:name" := value]}.

(** The intent filter that the plugin adds. *)
Definition deep_link_filter (scheme : string) : IntentFilter :=
  {| action := Some [named "android.intent.action.VIEW"];
     category :=
       Some [named "android.intent.category.DEFAULT"; named "android.intent.category.BROWSABLE"];
     data := Some [Some {["android:scheme" := scheme]}] |}.

(** What the callback does to the main activity. *)
Definition add_deep_link (scheme : string) (mainActivity : Activity) : Activity :=
  let filters := default [] (intent_filter mainActivity) in
  {| activity_attributes := activity_attributes mainActivity;
     intent_filter :=
       Some
         (if existsb (fun filter => some_attribute "android:scheme" scheme (data filter)) filters
          then filters
          else filters ++ [deep_link_filter scheme]) |}.

(** The list in which the first element that satisfies [found], the one
    that [find] returns, has been changed in place. *)
Fixpoint update_found {A : Type} (found : A -> bool) (change : A -> A) (l : list A) : list A :=
  match l with
  | [] => []
  | x :: r => if found x then change x :: r else x :: update_found found change r
  end.

(** The callback given to [withAndroidManifest]. *)
Definition withAndroidManifest_mod (scheme : string) (manifest : AndroidManifest)
  : AndroidManifest :=
  match application manifest with
  | Some (mainApplication :: applications) =>
      match activity mainApplication with
      | Some activities =>
          if existsb is_main activities then
            {| application :=
                 Some
                   ({| activity := Some (update_found is_main (add_deep_link scheme) activities) |}
                    :: applications) |}
          else manifest
      | None => manifest
      end
  | _ => manifest
  end.

(** The two modifications that the plugin registers. *)
Record Mods : Type := {
  infoPlist : ExpoConfig -> InfoPlist -> InfoPlist;
  androidManifest : AndroidManifest -> AndroidManifest;
}.

Definition NoScheme : exn :=
  Error ("[Scalekit] No URL scheme found. Please set " +:+ String Js.DQUOTE "scheme"
         +:+ String Js.DQUOTE " in app.json or provide it in the plugin config.").

(** [props.scheme || config.scheme || config.slug] *)
Definition resolve_scheme (config : ExpoConfig) (props : option ScalekitPluginProps) : string :=
  if Js.truthy_opt (props ≫= props_scheme) then default EmptyString (props ≫= props_scheme)
  else if Js.truthy_opt (config_scheme config) then default EmptyString (config_scheme config)
  else config_slug config.

(** [withScalekit(config, props)]; [None] is a call without props. *)
Definition withScalekit (config : ExpoConfig) (props : option ScalekitPluginProps)
  : outcome Mods :=
  let scheme := resolve_scheme config props in
  if negb (Js.truthy scheme) then Throw NoScheme
  else
    Ret {| infoPlist := withInfoPlist_mod scheme;
           androidManifest := withAndroidManifest_mod scheme |}.

End ConfigPlugin.

(** ** Readings outside the interfaces *)

(** A value that a method hands out at run time: [undefined] or a JSON
    value ([JNull] is [null]). *)
Inductive any : Type :=
| undefined
| defined (value : json).

(** The methods that read the token blob, on every value that [JSON.parse]
    returns, whether or not it fits the interface [ScalekitTokens]. *)
Module Untyped.

(** [value.name] for a name that is no array index, not [length] and that
    no prototype defines, as [expiresAt] and [accessToken] are: the own
    member of an object, [undefined] on a boolean, a number, a string and
    an array, and a [TypeError] on [null]. *)
Definition property (value : json) (name : string) : outcome any :=
  match value with
  | JNull => Throw (Error "TypeError")
  | JObject o =>
      match Json.get name o with
      | Some x => Ret (defined x)
      | None => Ret undefined
      end
  | _ => Ret undefined
  end.

(** [ToNumber(x)] as the subtraction of [areTokensExpired] applies it;
    [None] is [NaN].  An object is converted by [valueOf], which returns
    the object, and then by [toString]: a member [toString] of the object,
    which is not callable, leaves no conversion and the subtraction throws;
    otherwise the text is [[object Object]], which is no number.  The
    number of a string or of an array is outside the embedding. *)
Definition ToNumber (x : any) : outcome (option Z) :=
  match x with
  | undefined => Ret None
  | defined JNull => Ret (Some 0)
  | defined (JBool b) => Ret (Some (if b then 1 else 0))
  | defined (JNumber n) => Ret (Some n)
  | defined (JObject o) =>
      match Json.get "toString" o with
      | Some _ => Throw (Error "TypeError")
      | None => Ret None
      end
  | defined (JString _) | defined (JArray _) => Unmodelled
  end.

(** [getStoredTokens()] *)
Definition getStoredTokens (platform : Platform) : M json :=
  try_catch
    (tokensJson <- ScalekitAuth.SecureStore_getItemAsync platform TOKENS ;;
     if Js.truthy_opt tokensJson then lift (Json.parse (default EmptyString tokensJson))
     else ret JNull)
    (fun _ => ret JNull).

(** [areTokensExpired(tokens)]; a comparison with [NaN] is false. *)
Definition areTokensExpired (now : Z) (tokens : json) : outcome bool :=
  obind (property tokens "expiresAt") (fun expiresAt =>
  obind (ToNumber expiresAt) (fun number =>
  Ret match number with
      | Some n => now >=? n - 60000
      | None => false
      end)).

(** [getAccessToken()] *)
Definition getAccessToken (platform : Platform) (now : Z) : M any :=
  tokens <- getStoredTokens platform ;;
  if negb (Json.truthy tokens) then ret (defined JNull)
  else
    expired <- lift (areTokensExpired now tokens) ;;
    if expired then ret (defined JNull) else lift (property tokens "accessToken").

End Untyped.

(** The value of the typed reading as a value at run time. *)
Definition any_of_token (o : option string) : any :=
  match o with
  | Some accessToken => defined (JString accessToken)
  | None => defined JNull
  end.

(** [o.name] on the members [o] of an object. *)
Definition member (o : list (string * json)) (name : string) : any :=
  match Json.get name o with
  | Some x => defined x
  | None => undefined
  end.

(** The blob that the exchange writes for an answer that has the members
    [token_type] and [expires_in] but no access token and no ID token:
    [JSON.stringify] leaves out the members that are [undefined]. *)
Definition anonymous_blob : string :=
  Json.stringify
    (JObject
       [("tokenType", JString "Bearer"); ("expiresIn", JNumber 3600);
        ("expiresAt", JNumber (Scenario.now + 3600000))]).

(** A platform whose secure store rejects every read. *)
Definition locked_store : Platform :=
  {| getItem_rejects := fun _ => Some (Error "Could not read item");
     setItem_rejects := fun _ _ => None;
     deleteItem_rejects := fun _ => None;
     getRandomBytesAsync := getRandomBytesAsync Scenario.quiet;
     digestStringAsync := digestStringAsync Scenario.quiet;
     openAuthSessionAsync := openAuthSessionAsync Scenario.quiet;
     fetch_response := fetch_response Scenario.quiet;
     URL_searchParams_get := URL_searchParams_get Scenario.quiet |}.

(** *** The restore and the access token, as stated *)

(** C2, its last clause: a restore during which a read of the store is
    rejected, or a stored blob does not parse, ends with the error field
    set. *)
Definition restore_failure_sets_error : Prop :=
  forall (p : Platform) (now : Z) (s : System),
    (exists key e, (key = TOKENS \/ key = USER_INFO) /\ getItem_rejects p key = Some e)
    \/ (exists key blob e,
          (key = TOKENS \/ key = USER_INFO)
          /\ secureStore s !! key = Some blob /\ Json.parse blob = Throw e) ->
    error (authState (ScalekitProvider.initAuth p now s).2) <> None.

(** C7: on every store, [getAccessToken] returns an access token string or
    [null]. *)
Definition access_token_or_null : Prop :=
  forall (p : Platform) (now : Z) (s : System) (result : any) (s' : System),
    Untyped.getAccessToken p now s = (Ret result, s') ->
    result = defined JNull \/ exists accessToken, result = defined (JString accessToken).

(** * Properties *)

(** ** The expiry policy *)

(** C3: a token record is judged expired exactly when the current time has
    reached its absolute expiry minus 60000 ms; a record expiring 120000 ms
    from now is not expired, one expiring 30000 ms from now is, and one that
    expired 1 ms ago is. *)
Theorem areTokensExpired_policy :
  forall (tokens : ScalekitTokens) (now : Z),
    (ScalekitAuth.areTokensExpired now tokens = true <-> now >= expiresAt tokens - 60000)
    /\ (expiresAt tokens = now + 120000 -> ScalekitAuth.areTokensExpired now tokens = false)
    /\ (expiresAt tokens = now + 30000 -> ScalekitAuth.areTokensExpired now tokens = true)
    /\ (expiresAt tokens = now - 1 -> ScalekitAuth.areTokensExpired now tokens = true).
Proof.
  intros tokens now. unfold ScalekitAuth.areTokensExpired.
  repeat split; intros H; lia.
Qed.

(** The PKCE values of the scenario: the verifier of 32 zero bytes, and the
    S256 challenge that [hexToBytes] and [base64URLEncode] derive from its
    SHA-256 digest. *)
Example scenario_pkce :
  ScalekitAuth.base64URLEncode (replicate 32 Byte.x00) = Scenario.verifier
  /\ ScalekitAuth.base64URLEncode
       (ScalekitAuth.hexToBytes
          "0f007385b6f9d4b7eeb2748605afe1a984a0a3bfa3f014d09e2a784ce9e5cd1a")
     = "DwBzhbb51LfusnSGBa_hqYSgo7-j8BTQnip4TOnlzRo".
Proof. split; reflexivity. Qed.

(** ** Running the secure store *)

Section StoreRuns.

Variable p : Platform.

Lemma getItem_resolves key s :
  getItem_rejects p key = None ->
  ScalekitAuth.SecureStore_getItemAsync p key s = (Ret (secureStore s !! key), s).
Proof. intros H. unfold ScalekitAuth.SecureStore_getItemAsync. by rewrite H. Qed.

(** [logout] of the service asks for the three deletions whatever each
    answers, and rejects when one of them was rejected. *)
Lemma service_logout_run s :
  exists r, ScalekitAuth.logout p s = (r, with_secureStore (cleanup p (secureStore s)) s)
    /\ (deletes_resolve p = true -> r = Ret tt)
    /\ (deletes_resolve p = false -> exists e, r = Throw e).
Proof.
  destruct s as [a m rs].
  unfold ScalekitAuth.logout, try_catch, ScalekitAuth.rethrow, throw, Promise_all,
    ScalekitAuth.SecureStore_deleteItemAsync, cleanup, delete_unless_rejected,
    deletes_resolve, ret, forallb.
  destruct (deleteItem_rejects p TOKENS) as [e1|];
    destruct (deleteItem_rejects p USER_INFO) as [e2|];
    destruct (deleteItem_rejects p CODE_VERIFIER) as [e3|]; simpl;
    eexists; (split; [reflexivity|]); split; intros H; try done; eauto.
Qed.

End StoreRuns.

(** ** [JSON.parse] after [JSON.stringify] *)

Lemma laos_app a b :
  list_ascii_of_string (a +:+ b) = list_ascii_of_string a ++ list_ascii_of_string b.
Proof. induction a as [|c r IH]; [reflexivity|]. simpl. by rewrite IH. Qed.

Lemma parse_string_quoted s : forall acc rest,
  Json.parse_string (list_ascii_of_string (Json.quote_chars s) ++ Js.DQUOTE :: rest) acc
  = Json.Parsed (string_of_list_ascii (rev acc ++ list_ascii_of_string s)) rest.
Proof.
  induction s as [|c r IH]; intros acc rest.
  - simpl. by rewrite List.app_nil_r.
  - assert (E : Json.parse_string
             (list_ascii_of_string (Json.quote_chars (String c r)) ++ Js.DQUOTE :: rest) acc
           = Json.parse_string
               (list_ascii_of_string (Json.quote_chars r) ++ Js.DQUOTE :: rest) (c :: acc)).
    { destruct c as [[] [] [] [] [] [] [] []]; reflexivity. }
    rewrite E, IH. simpl. by rewrite <- List.app_assoc.
Qed.

Lemma parse_digits_stop rest acc :
  number_end rest = true -> Json.parse_digits rest acc = (acc, rest).
Proof.
  destruct rest as [|c r]; [reflexivity|]. simpl.
  destruct (Js.is_digit c); [discriminate | reflexivity].
Qed.

Lemma parse_digits_uint d : forall (acc : positive) rest,
  number_end rest = true ->
  Json.parse_digits (list_ascii_of_string (NilEmpty.string_of_uint d) ++ rest) (Z.pos acc)
  = (Z.pos (Pos.of_uint_acc d acc), rest).
Proof.
  induction d as [|d IH|d IH|d IH|d IH|d IH|d IH|d IH|d IH|d IH|d IH]; intros acc rest Hend;
    [by apply parse_digits_stop | ..];
    cbn [NilEmpty.string_of_uint list_ascii_of_string app Json.parse_digits Pos.of_uint_acc];
    match goal with
    | |- context [Js.is_digit ?c] => change (Js.is_digit c) with true
    end; cbv iota;
    match goal with
    | |- Json.parse_digits _ ?a = (Z.pos (Pos.of_uint_acc _ ?b), _) =>
        replace a with (Z.pos b) by (unfold Js.digit_value; simpl; lia)
    end; by apply IH.
Qed.


Lemma to_uint_not_D0 p d : Pos.to_uint p <> Decimal.D0 d.
Proof.
  intros E.
  pose proof (DecimalPos.Unsigned.to_of (Pos.to_uint p)) as H.
  rewrite DecimalPos.Unsigned.of_to in H. change (N.to_uint (N.pos p)) with (Pos.to_uint p) in H.
  rewrite E in H. rewrite DecimalFacts.unorm_D0 in H. unfold Decimal.unorm in H.
  destruct (Decimal.nzhead d) eqn:Hn; try discriminate.
  - injection H as ->. by apply (DecimalPos.Unsigned.to_uint_nonzero p).
  - apply (DecimalFacts.nzhead_nonzero d d). by rewrite Hn, H.
Qed.

Lemma number_end_no_fraction rest :
  number_end rest = true -> Json.starts_fraction_or_exponent rest = false.
Proof.
  destruct rest as [|c r]; [reflexivity|]. unfold number_end.
  destruct (Json.starts_fraction_or_exponent (c :: r)); [|reflexivity].
  by rewrite andb_false_r.
Qed.

Lemma parse_unsigned_pos p rest :
  number_end rest = true -> Js.is_safe_integer (Z.pos p) = true ->
  Json.parse_unsigned (list_ascii_of_string (NilEmpty.string_of_uint (Pos.to_uint p)) ++ rest)
  = Json.Parsed (Z.pos p) rest.
Proof.
  intros Hend Hsafe.
  pose proof (DecimalPos.Unsigned.of_to p) as Hof.
  pose proof (to_uint_not_D0 p) as Hnz.
  pose proof (DecimalPos.Unsigned.to_uint_nonnil p) as Hnn.
  destruct (Pos.to_uint p) as [|d|d|d|d|d|d|d|d|d|d];
    [done | by destruct (Hnz d) | ..];
    injection Hof as Hof;
    cbn [NilEmpty.string_of_uint list_ascii_of_string app Json.parse_unsigned];
    match goal with
    | |- context [Js.is_digit ?c] => change (Js.is_digit c) with true
    end; cbv iota;
    match goal with
    | |- context [Ascii.eqb ?c "0"] => change (Ascii.eqb c "0") with false
    end; cbv iota;
    cbn [Json.parse_digits];
    match goal with
    | |- context [Js.is_digit ?c] => change (Js.is_digit c) with true
    end; cbv iota;
    match goal with
    | |- context [Json.parse_digits _ ?a] =>
        match type of Hof with
        | Pos.of_uint_acc _ ?b = _ => replace a with (Z.pos b) by reflexivity
        end
    end;
    rewrite (parse_digits_uint d _ rest Hend), Hof, (number_end_no_fraction rest Hend), Hsafe;
    reflexivity.
Qed.

Lemma safe_opp z : Js.is_safe_integer (- z) = Js.is_safe_integer z.
Proof. unfold Js.is_safe_integer, Js.MAX_SAFE_INTEGER. lia. Qed.

Lemma parse_number_printed z rest :
  number_end rest = true -> Js.is_safe_integer z = true ->
  Json.parse_number (list_ascii_of_string (Js.number_to_string z) ++ rest)
  = Json.Parsed (JNumber z) rest.
Proof.
  intros Hend Hsafe. unfold Js.number_to_string. destruct z as [|p|p].
  - cbn. by rewrite (number_end_no_fraction rest Hend).
  - cbn [Z.to_int NilZero.string_of_int NilZero.string_of_uint].
    pose proof (parse_unsigned_pos p rest Hend Hsafe) as H.
    pose proof (DecimalPos.Unsigned.to_uint_nonnil p) as Hnn.
    destruct (Pos.to_uint p) as [|d|d|d|d|d|d|d|d|d|d]; [done | ..];
      cbn [NilZero.string_of_uint NilEmpty.string_of_uint list_ascii_of_string app] in *;
      unfold Json.parse_number;
      match goal with
      | |- context [Ascii.eqb ?c "-"] => change (Ascii.eqb c "-") with false
      end; cbv iota; by rewrite H.
  - cbn [Z.to_int NilZero.string_of_int NilZero.string_of_uint].
    assert (Hsafe' : Js.is_safe_integer (Z.pos p) = true).
    { by rewrite <- (safe_opp (Z.pos p)). }
    pose proof (parse_unsigned_pos p rest Hend Hsafe') as H.
    pose proof (DecimalPos.Unsigned.to_uint_nonnil p) as Hnn.
    destruct (Pos.to_uint p) as [|d|d|d|d|d|d|d|d|d|d]; [done | ..];
      cbn [NilZero.string_of_uint NilEmpty.string_of_uint list_ascii_of_string app] in *;
      unfold Json.parse_number;
      change (Ascii.eqb "-" "-") with true; cbv iota; by rewrite H.
Qed.

Lemma number_head z :
  exists c r, list_ascii_of_string (Js.number_to_string z) = c :: r
              /\ (Js.is_digit c || Ascii.eqb c "-") = true.
Proof.
  unfold Js.number_to_string. destruct z as [|p|p].
  - by eexists _, _.
  - cbn [Z.to_int NilZero.string_of_int NilZero.string_of_uint].
    pose proof (DecimalPos.Unsigned.to_uint_nonnil p) as Hnn.
    destruct (Pos.to_uint p) as [|d|d|d|d|d|d|d|d|d|d]; [done | ..];
      cbn [NilZero.string_of_uint NilEmpty.string_of_uint list_ascii_of_string];
      by eexists _, _.
  - by eexists _, _.
Qed.

Lemma parse_value_number_head f c r :
  (Js.is_digit c || Ascii.eqb c "-") = true ->
  Json.parse_value (S f) (c :: r) = Json.parse_number (c :: r).
Proof.
  destruct c as [[] [] [] [] [] [] [] []]; try discriminate; reflexivity.
Qed.

Lemma parse_value_number f z rest :
  number_end rest = true -> Js.is_safe_integer z = true ->
  Json.parse_value (S f) (list_ascii_of_string (Js.number_to_string z) ++ rest)
  = Json.Parsed (JNumber z) rest.
Proof.
  intros Hend Hsafe. destruct (number_head z) as (c & r & E & Hc).
  rewrite <- (parse_number_printed z rest Hend Hsafe). rewrite E. simpl app.
  by apply parse_value_number_head.
Qed.

Lemma parse_value_string f s rest :
  Json.parse_value (S f) (list_ascii_of_string (Json.quote s) ++ rest)
  = Json.Parsed (JString s) rest.
Proof.
  unfold Json.quote. cbn [list_ascii_of_string app Json.parse_value Json.skip_ws].
  change (Json.is_ws Js.DQUOTE) with false. cbv iota.
  change (Ascii.eqb Js.DQUOTE Js.DQUOTE) with true. cbv iota.
  rewrite laos_app. cbn [list_ascii_of_string app]. rewrite <- List.app_assoc.
  cbn [app]. rewrite parse_string_quoted. cbn [rev app].
  by rewrite string_of_list_ascii_of_string.
Qed.

Lemma parse_value_flat f v rest :
  flat v = true -> number_end rest = true ->
  Json.parse_value (S f) (list_ascii_of_string (Json.stringify v) ++ rest)
  = Json.Parsed v rest.
Proof.
  destruct v; try discriminate; intros Hflat Hend.
  - by apply parse_value_number.
  - apply parse_value_string.
Qed.

Lemma member_text_chars k v tail :
  list_ascii_of_string (member_text (k, v)) ++ tail
  = Js.DQUOTE :: list_ascii_of_string (Json.quote_chars k)
      ++ Js.DQUOTE :: ":"%char :: list_ascii_of_string (Json.stringify v) ++ tail.
Proof.
  unfold member_text, Json.quote. cbn [fst snd].
  rewrite !laos_app. cbn [list_ascii_of_string app].
  rewrite !laos_app. cbn [list_ascii_of_string app].
  rewrite <- !List.app_assoc. reflexivity.
Qed.

(** One member and the separator after it. *)
Lemma parse_members_step f k v c tail acc :
  flat v = true -> number_end (c :: tail) = true -> Json.is_ws c = false ->
  Json.parse_members (S (S f)) (list_ascii_of_string (member_text (k, v)) ++ c :: tail) acc
  = if Ascii.eqb c "," then Json.parse_members (S f) tail (Json.set k v acc)
    else if Ascii.eqb c "}" then Json.Parsed (JObject (Json.set k v acc)) tail
    else Json.SyntaxError.
Proof.
  intros Hflat Hend Hws. rewrite member_text_chars.
  cbn [Json.parse_members Json.skip_ws].
  change (Json.is_ws Js.DQUOTE) with false. cbv iota.
  change (Ascii.eqb Js.DQUOTE Js.DQUOTE) with true. cbv iota.
  rewrite parse_string_quoted. cbn [rev app]. rewrite string_of_list_ascii_of_string.
  cbn [Json.skip_ws]. change (Json.is_ws ":") with false. cbv iota.
  change (Ascii.eqb ":" ":") with true. cbv iota.
  rewrite (parse_value_flat f v (c :: tail) Hflat Hend).
  cbn [Json.skip_ws]. rewrite Hws. reflexivity.
Qed.

Lemma join_cons (m m' : string) (l : list string) :
  Js.join "," (m :: m' :: l) = m +:+ "," +:+ Js.join "," (m' :: l).
Proof. reflexivity. Qed.

(** The members of an object of flat values, as [JSON.stringify] writes
    them, are read back in order. *)
Lemma parse_members_flat o : forall acc f rest,
  o <> [] -> forallb (fun kv => flat kv.2) o = true -> (List.length o < f)%nat ->
  Json.parse_members f
    (list_ascii_of_string (Js.join "," (map member_text o)) ++ "}"%char :: rest) acc
  = Json.Parsed (JObject (fold_left (fun a kv => Json.set kv.1 kv.2 a) o acc)) rest.
Proof.
  induction o as [|[k v] o IH]; intros acc f rest Hne Hflat Hlen; [done|].
  cbn [forallb snd] in Hflat. apply andb_prop in Hflat as [Hv Ho].
  destruct f as [|[|f]]; cbn [List.length] in Hlen; try lia.
  destruct o as [|kv' o'].
  - cbn [map Js.join String.concat]. rewrite (parse_members_step f k v "}" rest acc Hv); done.
  - cbn [map]. rewrite join_cons, laos_app, <- List.app_assoc, laos_app.
    cbn [list_ascii_of_string app].
    rewrite (parse_members_step f k v "," _ acc Hv); [|done|done].
    cbn [Ascii.eqb]. change (Ascii.eqb "," ",") with true. cbv iota.
    change (member_text kv' :: map member_text o') with (map member_text (kv' :: o')).
    rewrite (IH (Json.set k v acc) (S f) rest); [reflexivity | done | exact Ho |].
    cbn [List.length] in *. lia.
Qed.

Lemma length_append (a b : string) :
  String.length (a +:+ b) = (String.length a + String.length b)%nat.
Proof. induction a as [|c r IH]; [reflexivity|]. simpl. by rewrite IH. Qed.

Lemma member_text_length kv : (1 <= String.length (member_text kv))%nat.
Proof. unfold member_text, Json.quote. simpl. lia. Qed.

Lemma join_length o :
  (List.length o <= String.length (Js.join "," (map member_text o)))%nat.
Proof.
  induction o as [|kv [|kv' o'] IH]; [done | |].
  - cbn [map Js.join String.concat List.length]. apply member_text_length.
  - cbn [map]. rewrite join_cons. cbn [List.length] in *. rewrite !length_append.
    pose proof (member_text_length kv). cbn [map] in IH. simpl (String.length ","). lia.
Qed.

Lemma join_head o tail :
  o <> [] ->
  exists r, list_ascii_of_string (Js.join "," (map member_text o)) ++ tail = Js.DQUOTE :: r.
Proof.
  destruct o as [|[k v] [|kv' o']]; [done | |]; intros _.
  - cbn [map Js.join String.concat]. rewrite member_text_chars. by eexists.
  - cbn [map]. rewrite join_cons, laos_app, <- List.app_assoc, member_text_chars. by eexists.
Qed.

(** An object of flat values is read back from its serialised form. *)
Lemma parse_flat_object o :
  o <> [] -> forallb (fun kv => flat kv.2) o = true ->
  Json.parse (Json.stringify (JObject o))
  = Ret (JObject (fold_left (fun a kv => Json.set kv.1 kv.2 a) o [])).
Proof.
  intros Hne Hflat. unfold Json.parse.
  change (Json.stringify (JObject o))
    with ("{" +:+ Js.join "," (map member_text o) +:+ "}").
  rewrite !laos_app, !length_append.
  cbn [list_ascii_of_string String.length app Nat.add].
  destruct (join_head o ["}"%char] Hne) as (r & Hr).
  assert (Hobj : forall F,
             Json.parse_value (S F)
               ("{"%char :: list_ascii_of_string (Js.join "," (map member_text o)) ++ ["}"%char])
             = Json.parse_members F
                 (list_ascii_of_string (Js.join "," (map member_text o)) ++ ["}"%char]) []).
  { intros F. rewrite Hr. reflexivity. }
  rewrite Hobj, (parse_members_flat o [] _ [] Hne Hflat); [reflexivity|].
  pose proof (join_length o). lia.
Qed.

(** The serialised token record is read back as the same record. *)
Lemma tokens_roundtrip t :
  Js.is_safe_integer (expiresIn t) = true -> Js.is_safe_integer (expiresAt t) = true ->
  Json.parse (Json.stringify (tokens_to_json t)) = Ret (tokens_to_json t)
  /\ as_ScalekitTokens (tokens_to_json t) = Some t.
Proof.
  intros Hin Hat. destruct t as [a r i ty ein eat]. cbn [expiresIn expiresAt] in Hin, Hat.
  unfold tokens_to_json.
  cbn [accessToken refreshToken idToken tokenType expiresIn expiresAt].
  split.
  - rewrite parse_flat_object.
    + destruct r, i; reflexivity.
    + by destruct r.
    + destruct r, i; cbn [app forallb flat snd]; by rewrite Hin, Hat.
  - destruct r, i; cbn; by rewrite Hin, Hat.
Qed.

(** ** Reading the stored session *)

Lemma parse_empty : Json.parse EmptyString = Throw (Error "SyntaxError: JSON Parse error").
Proof. reflexivity. Qed.

Lemma parse_truthy blob v : Json.parse blob = Ret v -> Js.truthy blob = true.
Proof. destruct blob; [rewrite parse_empty; discriminate | reflexivity]. Qed.

Section Reads.

Variable p : Platform.

(** [getStoredTokens] as a function of the blob under the tokens key. *)
Lemma getStoredTokens_run s :
  ScalekitAuth.getStoredTokens p s =
    (match getItem_rejects p TOKENS with
     | Some _ => Ret None
     | None =>
         match secureStore s !! TOKENS with
         | None => Ret None
         | Some blob =>
             if Js.truthy blob then
               match Json.parse blob with
               | Ret JNull => Ret None
               | Ret v =>
                   match as_ScalekitTokens v with
                   | Some t => Ret (Some t)
                   | None => Unmodelled
                   end
               | Throw _ => Ret None
               | Unmodelled => Unmodelled
               end
             else Ret None
         end
     end, s).
Proof.
  unfold ScalekitAuth.getStoredTokens, try_catch, bind, ScalekitAuth.SecureStore_getItemAsync,
    lift, ret.
  destruct (getItem_rejects p TOKENS); [reflexivity|].
  destruct (secureStore s !! TOKENS) as [blob|]; simpl; [|reflexivity].
  destruct (Js.truthy blob); [|reflexivity].
  destruct (Json.parse blob) as [v| |]; try reflexivity.
  destruct v; try reflexivity.
  destruct (as_ScalekitTokens (JObject members)); reflexivity.
Qed.

(** [getStoredUserInfo] as a function of the blob under the user key. *)
Lemma getStoredUserInfo_run s :
  ScalekitAuth.getStoredUserInfo p s =
    (match getItem_rejects p USER_INFO with
     | Some _ => Ret JNull
     | None =>
         match secureStore s !! USER_INFO with
         | None => Ret JNull
         | Some blob =>
             if Js.truthy blob then
               match Json.parse blob with
               | Ret v => Ret v
               | Throw _ => Ret JNull
               | Unmodelled => Unmodelled
               end
             else Ret JNull
         end
     end, s).
Proof.
  unfold ScalekitAuth.getStoredUserInfo, try_catch, bind, ScalekitAuth.SecureStore_getItemAsync,
    lift, ret.
  destruct (getItem_rejects p USER_INFO); [reflexivity|].
  destruct (secureStore s !! USER_INFO) as [blob|]; simpl; [|reflexivity].
  destruct (Js.truthy blob); [|reflexivity].
  destruct (Json.parse blob) as [v| |]; reflexivity.
Qed.

Lemma getStoredTokens_holds s t :
  getItem_rejects p TOKENS = None -> holds_tokens s t ->
  ScalekitAuth.getStoredTokens p s = (Ret (Some t), s).
Proof.
  intros Hr (v & (blob & Hb & Hp) & Ht). rewrite getStoredTokens_run, Hr, Hb.
  rewrite (parse_truthy _ _ Hp), Hp, Ht.
  destruct v; try reflexivity. discriminate.
Qed.

Lemma getStoredUserInfo_holds s u :
  getItem_rejects p USER_INFO = None -> holds s USER_INFO u ->
  ScalekitAuth.getStoredUserInfo p s = (Ret u, s).
Proof.
  intros Hr (blob & Hb & Hp). rewrite getStoredUserInfo_run, Hr, Hb.
  by rewrite (parse_truthy _ _ Hp), Hp.
Qed.

Lemma getStoredTokens_absent s :
  secureStore s !! TOKENS = None -> ScalekitAuth.getStoredTokens p s = (Ret None, s).
Proof. intros H. rewrite getStoredTokens_run, H. by destruct (getItem_rejects p TOKENS). Qed.

Lemma getStoredUserInfo_absent s :
  secureStore s !! USER_INFO = None -> ScalekitAuth.getStoredUserInfo p s = (Ret JNull, s).
Proof. intros H. rewrite getStoredUserInfo_run, H. by destruct (getItem_rejects p USER_INFO). Qed.

Lemma getStoredTokens_never_throws s e s' : ScalekitAuth.getStoredTokens p s <> (Throw e, s').
Proof. rewrite getStoredTokens_run. repeat case_match; congruence. Qed.

Lemma getStoredUserInfo_never_throws s e s' :
  ScalekitAuth.getStoredUserInfo p s <> (Throw e, s').
Proof. rewrite getStoredUserInfo_run. repeat case_match; congruence. Qed.

Lemma getStoredTokens_corrupt s blob e :
  secureStore s !! TOKENS = Some blob -> Json.parse blob = Throw e ->
  ScalekitAuth.getStoredTokens p s = (Ret None, s).
Proof. intros Hb Hp. rewrite getStoredTokens_run, Hb, Hp. by repeat case_match. Qed.

Lemma getStoredTokens_rejected s e :
  getItem_rejects p TOKENS = Some e -> ScalekitAuth.getStoredTokens p s = (Ret None, s).
Proof. intros H. by rewrite getStoredTokens_run, H. Qed.

(** [getAccessToken] on a held record that is not expired. *)
Lemma getAccessToken_fresh now s t :
  getItem_rejects p TOKENS = None -> holds_tokens s t -> now < expiresAt t - 60000 ->
  ScalekitProvider.getAccessToken p now s = (Ret (Some (accessToken t)), s).
Proof.
  intros Hg Ht Hlt. unfold ScalekitProvider.getAccessToken, bind.
  rewrite (getStoredTokens_holds s t Hg Ht). unfold ScalekitAuth.areTokensExpired.
  destruct (Z.geb_spec now (expiresAt t - 60000)); [lia | reflexivity].
Qed.

End Reads.

(** A store that has the serialised record [t] under the tokens key holds
    [t]. *)
Lemma holds_serialised s t :
  Js.is_safe_integer (expiresIn t) = true -> Js.is_safe_integer (expiresAt t) = true ->
  secureStore s !! TOKENS = Some (Json.stringify (tokens_to_json t)) ->
  holds_tokens s t.
Proof.
  intros Hin Hat Hs. destruct (tokens_roundtrip t Hin Hat) as (Hp & Hc).
  exists (tokens_to_json t). split; [|exact Hc]. by eexists.
Qed.

(** ** Absent and corrupt blobs *)

(** C8 fails on the code: with the blob [{] under the tokens key, on which
    [JSON.parse] throws, [getStoredTokens] returns [null]; so the claim as
    stated ([corrupt_read_propagates]) is false. *)
Lemma corrupt_read_returns_absent :
  Json.parse "{" = Throw (Error "SyntaxError: JSON Parse error")
  /\ ScalekitAuth.getStoredTokens Scenario.quiet (Scenario.mounting (<[TOKENS := "{"]> ∅))
     = (Ret None, Scenario.mounting (<[TOKENS := "{"]> ∅))
  /\ ~ corrupt_read_propagates.
Proof.
  split; [reflexivity|]. split; [reflexivity|]. intros H.
  destruct (H Scenario.quiet (Scenario.mounting (<[TOKENS := "{"]> ∅)) "{"
              (Error "SyntaxError: JSON Parse error")) as (e' & s' & E);
    try reflexivity.
  vm_compute in E. discriminate.
Qed.

(** C8 as amended: the reads of the token record and of the user claims
    never throw; they return [null] when the blob is missing, when the store
    rejects the read, and also when [JSON.parse] throws on the blob. *)
Theorem stored_reads_never_throw :
  forall (p : Platform) (s : System),
    (forall e s', ScalekitAuth.getStoredTokens p s <> (Throw e, s'))
    /\ (forall e s', ScalekitAuth.getStoredUserInfo p s <> (Throw e, s'))
    /\ (secureStore s !! TOKENS = None -> ScalekitAuth.getStoredTokens p s = (Ret None, s))
    /\ (secureStore s !! USER_INFO = None -> ScalekitAuth.getStoredUserInfo p s = (Ret JNull, s))
    /\ (forall blob e, secureStore s !! TOKENS = Some blob -> Json.parse blob = Throw e ->
          ScalekitAuth.getStoredTokens p s = (Ret None, s))
    /\ (forall blob e, secureStore s !! USER_INFO = Some blob -> Json.parse blob = Throw e ->
          ScalekitAuth.getStoredUserInfo p s = (Ret JNull, s))
    /\ (forall e, getItem_rejects p TOKENS = Some e ->
          ScalekitAuth.getStoredTokens p s = (Ret None, s))
    /\ (forall e, getItem_rejects p USER_INFO = Some e ->
          ScalekitAuth.getStoredUserInfo p s = (Ret JNull, s)).
Proof.
  intros p s. repeat split.
  - apply getStoredTokens_never_throws.
  - apply getStoredUserInfo_never_throws.
  - apply getStoredTokens_absent.
  - apply getStoredUserInfo_absent.
  - intros blob e. apply getStoredTokens_corrupt.
  - intros blob e Hb Hp. rewrite getStoredUserInfo_run, Hb, Hp. by repeat case_match.
  - intros e. apply getStoredTokens_rejected.
  - intros e H. by rewrite getStoredUserInfo_run, H.
Qed.

(** The reads on a store with an unparsable token blob and no user blob. *)
Lemma stored_reads_never_throw_witness :
  ScalekitAuth.getStoredTokens Scenario.quiet (Scenario.mounting (<[TOKENS := "{"]> ∅))
    = (Ret None, Scenario.mounting (<[TOKENS := "{"]> ∅))
  /\ ScalekitAuth.getStoredUserInfo Scenario.quiet (Scenario.mounting (<[TOKENS := "{"]> ∅))
    = (Ret JNull, Scenario.mounting (<[TOKENS := "{"]> ∅)).
Proof.
  pose proof (stored_reads_never_throw Scenario.quiet
                (Scenario.mounting (<[TOKENS := "{"]> ∅))) as (_ & _ & _ & Hu & Ht & _).
  split.
  - apply (Ht "{" (Error "SyntaxError: JSON Parse error")); reflexivity.
  - apply Hu. reflexivity.
Defined.

(** ** The access token *)

Section AccessToken.

Variable p : Platform.

(** The untyped read of the token blob, step by step. *)
Lemma untyped_getStoredTokens_run s :
  Untyped.getStoredTokens p s =
    (match getItem_rejects p TOKENS with
     | Some _ => Ret JNull
     | None =>
         match secureStore s !! TOKENS with
         | None => Ret JNull
         | Some blob =>
             if Js.truthy blob then
               match Json.parse blob with
               | Ret v => Ret v
               | Throw _ => Ret JNull
               | Unmodelled => Unmodelled
               end
             else Ret JNull
         end
     end, s).
Proof.
  unfold Untyped.getStoredTokens, try_catch, bind, ScalekitAuth.SecureStore_getItemAsync,
    lift, ret.
  destruct (getItem_rejects p TOKENS); [reflexivity|].
  destruct (secureStore s !! TOKENS) as [blob|]; simpl; [|reflexivity].
  destruct (Js.truthy blob); [|reflexivity].
  by destruct (Json.parse blob) as [v| |].
Qed.

Lemma untyped_getStoredTokens_state s r s' :
  Untyped.getStoredTokens p s = (r, s') -> s' = s /\ forall e, r <> Throw e.
Proof.
  rewrite untyped_getStoredTokens_run. intros [= <- <-]. split; [reflexivity|].
  intros e. by repeat case_match.
Qed.

Lemma untyped_getStoredTokens_holds s v :
  getItem_rejects p TOKENS = None -> holds s TOKENS v ->
  Untyped.getStoredTokens p s = (Ret v, s).
Proof.
  intros Hr (blob & Hb & Hp). rewrite untyped_getStoredTokens_run, Hr, Hb.
  by rewrite (parse_truthy _ _ Hp), Hp.
Qed.

(** What the untyped read returns is [null] or the value that the store
    holds. *)
Lemma untyped_getStoredTokens_returned s v s' :
  Untyped.getStoredTokens p s = (Ret v, s') ->
  v = JNull \/ (getItem_rejects p TOKENS = None /\ holds s TOKENS v).
Proof.
  rewrite untyped_getStoredTokens_run. intros [= H _].
  destruct (getItem_rejects p TOKENS); [left; congruence|].
  destruct (secureStore s !! TOKENS) as [blob|] eqn:Hb; [|left; congruence].
  destruct (Js.truthy blob); [|left; congruence].
  destruct (Json.parse blob) as [w| |] eqn:Hp; [|left; congruence|discriminate].
  injection H as <-. right. split; [reflexivity|]. by exists blob.
Qed.

(** The untyped read leaves the embedding only when [JSON.parse] does. *)
Lemma untyped_getStoredTokens_unmodelled s s' :
  Untyped.getStoredTokens p s = (Unmodelled, s') ->
  exists blob, secureStore s !! TOKENS = Some blob /\ Json.parse blob = Unmodelled.
Proof.
  rewrite untyped_getStoredTokens_run. intros [= H _].
  destruct (getItem_rejects p TOKENS); [discriminate|].
  destruct (secureStore s !! TOKENS) as [blob|] eqn:Hb; [|discriminate].
  destruct (Js.truthy blob); [|discriminate].
  destruct (Json.parse blob) as [w| |] eqn:Hp; [discriminate..|]. by exists blob.
Qed.

(** [getAccessToken] once the blob has been read as [v]. *)
Lemma untyped_getAccessToken_read now s v :
  Untyped.getStoredTokens p s = (Ret v, s) ->
  Untyped.getAccessToken p now s =
    (if negb (Json.truthy v) then Ret (defined JNull)
     else
       obind (Untyped.areTokensExpired now v) (fun expired =>
         if expired then Ret (defined JNull) else Untyped.property v "accessToken"), s).
Proof.
  intros H. unfold Untyped.getAccessToken, bind at 1. rewrite H.
  destruct (negb (Json.truthy v)); [reflexivity|].
  unfold bind, lift, ret, obind.
  destruct (Untyped.areTokensExpired now v) as [[]| |]; reflexivity.
Qed.

Lemma untyped_getAccessToken_null now s :
  Untyped.getStoredTokens p s = (Ret JNull, s) ->
  Untyped.getAccessToken p now s = (Ret (defined JNull), s).
Proof. intros H. by rewrite (untyped_getAccessToken_read now s JNull H). Qed.

(** [getAccessToken] on a stored object. *)
Lemma untyped_getAccessToken_object now s o number :
  Untyped.getStoredTokens p s = (Ret (JObject o), s) ->
  Untyped.ToNumber (member o "expiresAt") = Ret number ->
  Untyped.getAccessToken p now s =
    (Ret (if match number with Some n => now >=? n - 60000 | None => false end
          then defined JNull else member o "accessToken"), s).
Proof.
  intros H Hn. rewrite (untyped_getAccessToken_read now s _ H). cbn [Json.truthy negb].
  unfold Untyped.areTokensExpired, Untyped.property, member in *.
  destruct (Json.get "expiresAt" o) as [x|]; cbn [obind]; rewrite Hn; cbn [obind];
    destruct (match number with Some n => now >=? n - 60000 | None => false end);
    try reflexivity; by destruct (Json.get "accessToken" o).
Qed.

(** The members that a value of the interface [ScalekitTokens] has. *)
Lemma as_ScalekitTokens_members v t :
  as_ScalekitTokens v = Some t ->
  exists o, v = JObject o
            /\ Json.get "accessToken" o = Some (JString (accessToken t))
            /\ Json.get "expiresAt" o = Some (JNumber (expiresAt t)).
Proof.
  destruct v as [| | | | |o]; try discriminate. intros H. exists o.
  split; [reflexivity|]. revert H. unfold as_ScalekitTokens.
  destruct (forallb _ o); [|discriminate].
  unfold required_string, required_number.
  destruct (Json.get "accessToken" o) as [[| | |a| |]|]; try discriminate.
  destruct (optional_string "refreshToken" o); [|discriminate].
  destruct (optional_string "idToken" o); [|discriminate].
  destruct (Json.get "tokenType" o) as [[| | |ty| |]|]; try discriminate.
  destruct (Json.get "expiresIn" o) as [[| |ein| | |]|]; try discriminate.
  destruct (Js.is_safe_integer ein); [|discriminate].
  destruct (Json.get "expiresAt" o) as [[| |eat| | |]|]; try discriminate.
  destruct (Js.is_safe_integer eat); [|discriminate].
  by intros [= <-].
Qed.

(** The typed read returns what the untyped one returns. *)
Lemma getStoredTokens_agrees s (stored : option ScalekitTokens) s' :
  ScalekitAuth.getStoredTokens p s = (Ret stored, s') ->
  s' = s
  /\ exists v,
       Untyped.getStoredTokens p s = (Ret v, s)
       /\ match stored with
          | Some t => as_ScalekitTokens v = Some t
          | None => v = JNull
          end.
Proof.
  rewrite getStoredTokens_run, untyped_getStoredTokens_run. intros [= H <-].
  split; [reflexivity|].
  destruct (getItem_rejects p TOKENS); [injection H as <-; by exists JNull|].
  destruct (secureStore s !! TOKENS) as [blob|]; [|injection H as <-; by exists JNull].
  destruct (Js.truthy blob); [|injection H as <-; by exists JNull].
  destruct (Json.parse blob) as [v| |]; [| injection H as <-; by exists JNull | discriminate].
  destruct v as [| | | | |o]; try discriminate; [injection H as <-; by exists JNull|].
  destruct (as_ScalekitTokens (JObject o)) as [t|] eqn:E; [|discriminate].
  injection H as <-. by exists (JObject o).
Qed.

Lemma getAccessToken_agrees now s (token : option string) s' :
  ScalekitProvider.getAccessToken p now s = (Ret token, s') ->
  Untyped.getAccessToken p now s = (Ret (any_of_token token), s').
Proof.
  unfold ScalekitProvider.getAccessToken, bind at 1.
  destruct (ScalekitAuth.getStoredTokens p s) as [[stored| |] s1] eqn:E; [|discriminate..].
  destruct (getStoredTokens_agrees s stored s1 E) as (-> & v & Hv & Hst).
  destruct stored as [t|].
  - destruct (as_ScalekitTokens_members v t Hst) as (o & -> & Ha & He).
    rewrite (untyped_getAccessToken_object now s o (Some (expiresAt t)) Hv)
      by (unfold member; by rewrite He).
    unfold ScalekitAuth.areTokensExpired, member. rewrite Ha.
    destruct (now >=? expiresAt t - 60000); by intros [= <- <-].
  - subst v. rewrite (untyped_getAccessToken_null now s Hv). by intros [= <- <-].
Qed.

End AccessToken.

(** C7 fails on the code: on the blob that the exchange writes for an
    answer without an access token, [getAccessToken] returns [undefined],
    which is neither a string nor [null]; and on a blob whose [expiresAt] is
    an object with a member [toString] it throws.  So the claim as stated
    ([access_token_or_null]) is false. *)
Lemma getAccessToken_returns_undefined :
  Untyped.getAccessToken Scenario.quiet Scenario.now
      (Scenario.mounting (<[TOKENS := anonymous_blob]> ∅))
    = (Ret undefined, Scenario.mounting (<[TOKENS := anonymous_blob]> ∅))
  /\ Untyped.getAccessToken Scenario.quiet Scenario.now
       (Scenario.mounting (<[TOKENS := "{}"]> ∅))
     = (Ret undefined, Scenario.mounting (<[TOKENS := "{}"]> ∅))
  /\ Untyped.getAccessToken Scenario.quiet Scenario.now
       (Scenario.mounting
          (<[TOKENS := Json.stringify
                         (JObject [("expiresAt", JObject [("toString", JNumber 0)])])]> ∅))
     = (Throw (Error "TypeError"),
        Scenario.mounting
          (<[TOKENS := Json.stringify
                         (JObject [("expiresAt", JObject [("toString", JNumber 0)])])]> ∅))
  /\ ~ access_token_or_null.
Proof.
  split; [by vm_compute|]. split; [by vm_compute|]. split; [by vm_compute|].
  intros H.
  destruct (H Scenario.quiet Scenario.now (Scenario.mounting (<[TOKENS := "{}"]> ∅))
              undefined (Scenario.mounting (<[TOKENS := "{}"]> ∅)))
    as [E | (a & E)]; [by vm_compute | discriminate E | discriminate E].
Qed.

(** C7 as amended: [getAccessToken] leaves the system as it was.  It
    returns [null] when no blob is stored, when the store rejects the read,
    when the blob does not parse and when it parses to a falsy value.  On a
    stored object it returns [null] when the member [expiresAt] is a number
    that the clock has reached up to 60000 ms, and otherwise the member
    [accessToken] as it is, [undefined] when the object has none; an object
    without a member [expiresAt] never expires, and a member [expiresAt]
    that is no number counts as the number that the subtraction makes of
    it.  On any other truthy value it returns [undefined].  It throws only
    a [TypeError], when [expiresAt] is an object with a member [toString].
    For a record of the interface [ScalekitTokens] the result is the access
    token string while the record is not expired and [null] afterwards, and
    wherever the reading at the interface returns, this one returns the
    same.  The embedding is left only when [JSON.parse] leaves it or when
    [expiresAt] is a string or an array. *)
Theorem getAccessToken_outcome :
  forall (p : Platform) (now : Z) (s : System),
    (forall r s', Untyped.getAccessToken p now s = (r, s') -> s' = s)
    /\ (secureStore s !! TOKENS = None
        \/ (exists e, getItem_rejects p TOKENS = Some e)
        \/ (exists blob e, secureStore s !! TOKENS = Some blob /\ Json.parse blob = Throw e) ->
        Untyped.getAccessToken p now s = (Ret (defined JNull), s))
    /\ (forall v,
          getItem_rejects p TOKENS = None -> holds s TOKENS v ->
          (Json.truthy v = false ->
           Untyped.getAccessToken p now s = (Ret (defined JNull), s))
          /\ (Json.truthy v = true -> (forall o, v <> JObject o) ->
              Untyped.getAccessToken p now s = (Ret undefined, s))
          /\ (forall o n,
                v = JObject o -> Json.get "expiresAt" o = Some (JNumber n) ->
                Untyped.getAccessToken p now s
                = (Ret (if now >=? n - 60000 then defined JNull else member o "accessToken"),
                   s))
          /\ (forall o,
                v = JObject o -> Json.get "expiresAt" o = None ->
                Untyped.getAccessToken p now s = (Ret (member o "accessToken"), s))
          /\ (forall o number,
                v = JObject o -> Untyped.ToNumber (member o "expiresAt") = Ret number ->
                Untyped.getAccessToken p now s
                = (Ret (if match number with
                           | Some n => now >=? n - 60000
                           | None => false
                           end
                        then defined JNull else member o "accessToken"), s)))
    /\ (forall e s',
          Untyped.getAccessToken p now s = (Throw e, s') ->
          e = Error "TypeError"
          /\ getItem_rejects p TOKENS = None
          /\ exists o o',
               holds s TOKENS (JObject o)
               /\ Json.get "expiresAt" o = Some (JObject o')
               /\ is_Some (Json.get "toString" o'))
    /\ (forall s',
          Untyped.getAccessToken p now s = (Unmodelled, s') ->
          (exists blob, secureStore s !! TOKENS = Some blob /\ Json.parse blob = Unmodelled)
          \/ exists o x,
               holds s TOKENS (JObject o)
               /\ Json.get "expiresAt" o = Some x
               /\ ((exists text, x = JString text) \/ (exists items, x = JArray items)))
    /\ (forall t,
          getItem_rejects p TOKENS = None -> holds_tokens s t ->
          Untyped.getAccessToken p now s
          = (Ret (if now >=? expiresAt t - 60000 then defined JNull
                  else defined (JString (accessToken t))), s))
    /\ (forall token s',
          ScalekitProvider.getAccessToken p now s = (Ret token, s') ->
          Untyped.getAccessToken p now s = (Ret (any_of_token token), s')).
Proof.
  intros p now s.
  split; [|split; [|split; [|split; [|split; [|split]]]]].
  - intros r s'. unfold Untyped.getAccessToken, bind at 1.
    destruct (Untyped.getStoredTokens p s) as [r1 s1] eqn:E.
    destruct (untyped_getStoredTokens_state p s r1 s1 E) as [-> _].
    destruct r1 as [v| |]; [|by intros [= _ <-]..].
    destruct (negb (Json.truthy v)); [by intros [= _ <-]|].
    unfold bind, lift, ret.
    destruct (Untyped.areTokensExpired now v) as [[]| |]; by intros [= _ <-].
  - intros H. apply untyped_getAccessToken_null.
    rewrite untyped_getStoredTokens_run.
    destruct H as [H | [(e & H) | (blob & e & H & Hp)]]; rewrite H; [by case_match|done|].
    case_match; [done|]. rewrite Hp. by case_match.
  - intros v Hr Hv.
    pose proof (untyped_getStoredTokens_holds p s v Hr Hv) as Hread.
    split; [|split; [|split; [|split]]].
    + intros Hf. rewrite (untyped_getAccessToken_read p now s v Hread). by rewrite Hf.
    + intros Ht Hno. rewrite (untyped_getAccessToken_read p now s v Hread), Ht.
      cbn [negb]. destruct v as [| | | | |o]; try reflexivity; [discriminate|].
      by destruct (Hno o).
    + intros o n -> He.
      rewrite (untyped_getAccessToken_object p now s o (Some n) Hread); [reflexivity|].
      unfold member. by rewrite He.
    + intros o -> He.
      rewrite (untyped_getAccessToken_object p now s o None Hread); [reflexivity|].
      unfold member. by rewrite He.
    + intros o number -> Hn.
      apply (untyped_getAccessToken_object p now s o number Hread Hn).
  - intros e s'. unfold Untyped.getAccessToken, bind at 1.
    destruct (Untyped.getStoredTokens p s) as [r1 s1] eqn:E.
    destruct (untyped_getStoredTokens_state p s r1 s1 E) as [-> Hne].
    destruct r1 as [v|e0|]; [|by destruct (Hne e0)|discriminate].
    destruct (negb (Json.truthy v)) eqn:Ht; [discriminate|].
    destruct v as [|b|n|str|l|o]; try discriminate.
    destruct (untyped_getStoredTokens_returned p s _ _ E) as [|[Hr Hh]]; [discriminate|].
    unfold bind, lift, ret, Untyped.areTokensExpired, Untyped.property.
    destruct (Json.get "expiresAt" o) as [x|] eqn:He; cbn [obind].
    + destruct x as [|b|n|str|l|o']; cbn [Untyped.ToNumber obind];
        try discriminate; try by repeat case_match.
      destruct (Json.get "toString" o') eqn:Hs; cbn [obind]; [|by repeat case_match].
      intros [= <- _]. split; [reflexivity|]. split; [exact Hr|]. by exists o, o'.
    + cbn [Untyped.ToNumber obind]. by repeat case_match.
  - intros s'. unfold Untyped.getAccessToken, bind at 1.
    destruct (Untyped.getStoredTokens p s) as [r1 s1] eqn:E.
    destruct (untyped_getStoredTokens_state p s r1 s1 E) as [-> Hne].
    destruct r1 as [v|e0|]; [|discriminate|].
    2:{ intros _. left. apply (untyped_getStoredTokens_unmodelled p s s E). }
    destruct (negb (Json.truthy v)) eqn:Ht; [discriminate|].
    destruct v as [|b|n|str|l|o]; try discriminate.
    destruct (untyped_getStoredTokens_returned p s _ _ E) as [|[Hr Hh]]; [discriminate|].
    unfold bind, lift, ret, Untyped.areTokensExpired, Untyped.property.
    destruct (Json.get "expiresAt" o) as [x|] eqn:He; cbn [obind].
    + destruct x as [|b|n|str|l|o']; cbn [Untyped.ToNumber obind];
        try by repeat case_match.
      * intros _. right. exists o, (JString str). split; [exact Hh|]. split; [exact He|].
        left. by exists str.
      * intros _. right. exists o, (JArray l). split; [exact Hh|]. split; [exact He|].
        right. by exists l.
    + cbn [Untyped.ToNumber obind]. by repeat case_match.
  - intros t Hget (v & Hh & Ht).
    destruct (as_ScalekitTokens_members v t Ht) as (o & -> & Ha & He).
    rewrite (untyped_getAccessToken_object p now s o (Some (expiresAt t))
               (untyped_getStoredTokens_holds p s _ Hget Hh))
      by (unfold member; by rewrite He).
    unfold member. by rewrite Ha.
  - intros token s'. apply getAccessToken_agrees.
Qed.

(** The stored session of the scenario, two minutes before its expiry and
    one millisecond after, and a store without a token blob. *)
Lemma getAccessToken_outcome_witness :
  Untyped.getAccessToken Scenario.quiet Scenario.now Scenario.signed_in
    = (Ret (defined (JString "old-access-token")), Scenario.signed_in)
  /\ Untyped.getAccessToken Scenario.quiet (Scenario.now + 120001) Scenario.signed_in
     = (Ret (defined JNull), Scenario.signed_in)
  /\ Untyped.getAccessToken Scenario.quiet Scenario.now (Scenario.mounting ∅)
     = (Ret (defined JNull), Scenario.mounting ∅).
Proof.
  assert (Hh : holds_tokens Scenario.signed_in Scenario.old_tokens).
  { apply holds_serialised; reflexivity. }
  destruct (getAccessToken_outcome Scenario.quiet Scenario.now Scenario.signed_in)
    as (_ & _ & _ & _ & _ & H1 & _).
  destruct (getAccessToken_outcome Scenario.quiet (Scenario.now + 120001) Scenario.signed_in)
    as (_ & _ & _ & _ & _ & H2 & _).
  destruct (getAccessToken_outcome Scenario.quiet Scenario.now (Scenario.mounting ∅))
    as (_ & H3 & _).
  split; [exact (H1 Scenario.old_tokens eq_refl Hh)|].
  split; [exact (H2 Scenario.old_tokens eq_refl Hh)|].
  apply H3. by left.
Defined.

(** ** Logout *)

(** C1 fails on the code: when the store rejects the deletion of the tokens
    key, the [catch] of [logout] keeps the previous state, so the signed-in
    user of the scenario stays authenticated, with the error set; the claim
    as stated ([logout_always_unauthenticates]) is false. *)
Lemma logout_keeps_session_when_cleanup_fails :
  authState
    (ScalekitProvider.logout
       (Scenario.platform (Some TOKENS) Scenario.cancelled None Scenario.no_response)
       Scenario.signed_in).2
  = {| isLoading := false; isAuthenticated := true; user := Scenario.claims;
       tokens := Some Scenario.old_tokens; error := Some "Failed to logout" |}
  /\ ~ logout_always_unauthenticates.
Proof.
  split; [reflexivity|]. intros H.
  specialize (H (Scenario.platform (Some TOKENS) Scenario.cancelled None Scenario.no_response)
                Scenario.signed_in).
  vm_compute in H. discriminate.
Qed.

(** C1 as amended: [logout] never throws and asks for the three deletions.
    When none is rejected the state becomes unauthenticated with no error;
    when one is rejected the error is [Failed to logout], the loading flag is
    cleared, and [isAuthenticated], [user] and [tokens] keep their previous
    values. *)
Theorem logout_outcome :
  forall (p : Platform) (s : System),
    exists s',
      ScalekitProvider.logout p s = (Ret tt, s')
      /\ secureStore s' = cleanup p (secureStore s)
      /\ requests s' = requests s
      /\ authState s' =
           (if deletes_resolve p then ScalekitProvider.unauthenticated None
            else ScalekitProvider.with_loading_error false (Some "Failed to logout")
                   (authState s)).
Proof.
  intros p s.
  unfold ScalekitProvider.logout, ScalekitProvider.logout_try, try_catch, bind, setAuthState.
  destruct (service_logout_run p (with_authState (ScalekitProvider.with_loading true (authState s)) s))
    as (r & -> & Hok & Hko).
  destruct (deletes_resolve p).
  - rewrite (Hok eq_refl). eexists; repeat split; reflexivity.
  - destruct (Hko eq_refl) as (e & ->). eexists; repeat split; reflexivity.
Qed.

(** ** Startup restore *)

Section Restore.

Variable p : Platform.
Variable now : Z.

(** [initAuth] after the two reads have returned. *)
Lemma initAuth_try_after_reads s (storedTokens : option ScalekitTokens) (storedUser : ScalekitUser) :
  ScalekitAuth.getStoredTokens p s = (Ret storedTokens, s) ->
  ScalekitAuth.getStoredUserInfo p s = (Ret storedUser, s) ->
  ScalekitProvider.initAuth_try p now s =
    match storedTokens with
    | Some t =>
        if ScalekitProvider.valid_session now storedTokens storedUser then
          (Ret tt, with_authState (ScalekitProvider.authenticated storedUser t) s)
        else
          (ScalekitAuth.logout p ;;;
           setAuthState (fun _ => ScalekitProvider.unauthenticated None)) s
    | None => (Ret tt, with_authState (ScalekitProvider.unauthenticated None) s)
    end.
Proof.
  intros Ht Hu. unfold ScalekitProvider.initAuth_try, bind at 1. rewrite Ht.
  unfold bind at 1. rewrite Hu.
  destruct storedTokens as [t|]; [|reflexivity].
  destruct (ScalekitProvider.valid_session now (Some t) storedUser); reflexivity.
Qed.

Lemma initAuth_never_throws s e s' : ScalekitProvider.initAuth p now s <> (Throw e, s').
Proof.
  unfold ScalekitProvider.initAuth, try_catch, setAuthState.
  destruct (ScalekitProvider.initAuth_try p now s) as [[[]| |] s1]; congruence.
Qed.

Lemma initAuth_failure s e s1 :
  ScalekitProvider.initAuth_try p now s = (Throw e, s1) ->
  ScalekitProvider.initAuth p now s =
    (Ret tt,
     with_authState
       (ScalekitProvider.unauthenticated (Some "Failed to initialize authentication")) s1).
Proof. intros H. unfold ScalekitProvider.initAuth, try_catch. by rewrite H. Qed.

(** The clean-up of an unusable stored session. *)
Lemma initAuth_cleanup s t (storedUser : ScalekitUser) :
  ScalekitAuth.getStoredTokens p s = (Ret (Some t), s) ->
  ScalekitAuth.getStoredUserInfo p s = (Ret storedUser, s) ->
  ScalekitProvider.valid_session now (Some t) storedUser = false ->
  ScalekitProvider.initAuth p now s =
    (Ret tt,
     with_authState
       (ScalekitProvider.unauthenticated
          (if deletes_resolve p then None else Some "Failed to initialize authentication"))
       (with_secureStore (cleanup p (secureStore s)) s)).
Proof.
  intros Ht Hu Hv. unfold ScalekitProvider.initAuth, try_catch.
  rewrite (initAuth_try_after_reads s _ _ Ht Hu), Hv. unfold bind.
  destruct (service_logout_run p s) as (r & -> & Hok & Hko).
  destruct (deletes_resolve p).
  - by rewrite (Hok eq_refl).
  - by destruct (Hko eq_refl) as (e & ->).
Qed.

End Restore.

Lemma cleanup_resolved p m :
  deletes_resolve p = true ->
  cleanup p m = delete CODE_VERIFIER (delete USER_INFO (delete TOKENS m)).
Proof.
  unfold deletes_resolve, cleanup, delete_unless_rejected, forallb.
  destruct (deleteItem_rejects p TOKENS), (deleteItem_rejects p USER_INFO),
    (deleteItem_rejects p CODE_VERIFIER); simpl; done.
Qed.

Lemma cleared_tokens_lookup (m : gmap string string) :
  delete CODE_VERIFIER (delete USER_INFO (delete TOKENS m)) !! TOKENS = None.
Proof.
  rewrite lookup_delete_ne by done. rewrite lookup_delete_ne by done.
  apply lookup_delete_eq.
Qed.

Section RestoreRuns.

Variable p : Platform.
Variable now : Z.

(** [initAuth] after the two reads have returned: the whole run. *)
Lemma initAuth_run s (storedTokens : option ScalekitTokens) (storedUser : ScalekitUser) :
  ScalekitAuth.getStoredTokens p s = (Ret storedTokens, s) ->
  ScalekitAuth.getStoredUserInfo p s = (Ret storedUser, s) ->
  ScalekitProvider.initAuth p now s =
    (Ret tt,
     match storedTokens with
     | Some t =>
         if ScalekitProvider.valid_session now storedTokens storedUser then
           with_authState (ScalekitProvider.authenticated storedUser t) s
         else
           with_authState
             (ScalekitProvider.unauthenticated
                (if deletes_resolve p then None
                 else Some "Failed to initialize authentication"))
             (with_secureStore (cleanup p (secureStore s)) s)
     | None => with_authState (ScalekitProvider.unauthenticated None) s
     end).
Proof.
  intros Ht Hu. destruct storedTokens as [t|].
  - destruct (ScalekitProvider.valid_session now (Some t) storedUser) eqn:Hv.
    + unfold ScalekitProvider.initAuth, try_catch.
      by rewrite (initAuth_try_after_reads p now s _ _ Ht Hu), Hv.
    + apply (initAuth_cleanup p now s t storedUser Ht Hu Hv).
  - unfold ScalekitProvider.initAuth, try_catch.
    by rewrite (initAuth_try_after_reads p now s _ _ Ht Hu).
Qed.

(** A read of the user blob that fails is a read of [null]. *)
Lemma getStoredUserInfo_failed s :
  (exists e, getItem_rejects p USER_INFO = Some e)
  \/ (exists blob e, secureStore s !! USER_INFO = Some blob /\ Json.parse blob = Throw e) ->
  ScalekitAuth.getStoredUserInfo p s = (Ret JNull, s).
Proof.
  rewrite getStoredUserInfo_run. intros [(e & ->) | (blob & e & -> & Hp)]; [reflexivity|].
  rewrite Hp. by repeat case_match.
Qed.

Lemma getStoredTokens_failed s :
  (exists e, getItem_rejects p TOKENS = Some e)
  \/ (exists blob e, secureStore s !! TOKENS = Some blob /\ Json.parse blob = Throw e) ->
  ScalekitAuth.getStoredTokens p s = (Ret None, s).
Proof.
  intros [(e & H) | (blob & e & Hb & Hp)].
  - by apply (getStoredTokens_rejected p s e).
  - by apply (getStoredTokens_corrupt p s blob e).
Qed.

Lemma expired_invalid t (u : ScalekitUser) :
  now >= expiresAt t - 60000 -> ScalekitProvider.valid_session now (Some t) u = false.
Proof.
  intros Hge. unfold ScalekitProvider.valid_session, ScalekitAuth.areTokensExpired.
  destruct (Z.geb_spec now (expiresAt t - 60000)); [|lia].
  by rewrite andb_false_r.
Qed.

End RestoreRuns.

(** C2 fails on the code: a failure of the reads of the restore does not
    reach the error field.  On a store that rejects every read, and on a
    store whose token blob is [{], on which [JSON.parse] throws, [initAuth]
    ends unauthenticated with [error: null]; so the claim's last clause, as
    stated ([restore_failure_sets_error]), is false. *)
Lemma restore_failure_leaves_error_null :
  ScalekitProvider.initAuth locked_store Scenario.now
      (Scenario.mounting (Scenario.store_of Scenario.old_tokens Scenario.claims))
    = (Ret tt,
       with_authState
         {| isLoading := false; isAuthenticated := false; user := JNull; tokens := None;
            error := None |}
         (Scenario.mounting (Scenario.store_of Scenario.old_tokens Scenario.claims)))
  /\ ScalekitProvider.initAuth Scenario.quiet Scenario.now
       (Scenario.mounting (<[TOKENS := "{"]> ∅))
     = (Ret tt,
        with_authState
          {| isLoading := false; isAuthenticated := false; user := JNull; tokens := None;
             error := None |}
          (Scenario.mounting (<[TOKENS := "{"]> ∅)))
  /\ ~ restore_failure_sets_error.
Proof.
  split; [by vm_compute|]. split; [by vm_compute|]. intros H.
  apply (H locked_store Scenario.now
           (Scenario.mounting (Scenario.store_of Scenario.old_tokens Scenario.claims))).
  - left. exists TOKENS, (Error "Could not read item"). split; [by left | reflexivity].
  - by vm_compute.
Qed.

(** C2 as amended, for a store whose token blob is missing, unreadable or a
    record of the interface.  [initAuth] never throws and always ends with
    [isLoading: false].  A stored record that is not expired, with stored
    user claims that are truthy, is restored: the state is
    [isAuthenticated: true] with exactly that user and that record and
    [error: null], and the store is untouched.  A stored record that is
    expired is cleaned up: when the store accepts the three deletions, the
    state is unauthenticated with [error: null], the three keys are gone and
    a later load of the tokens returns [null]; when it rejects one, the
    state is unauthenticated with the error
    ['Failed to initialize authentication'] and only the accepted deletions
    are done.  A record without usable user claims is cleaned up in the same
    way.  With nothing stored, and when the read of the token blob is
    rejected or the blob does not parse, the state is unauthenticated with
    [error: null] and the store is untouched: a failure of a read never
    reaches the error field.  The error field is set exactly when a record
    was read, is not restored, and a deletion of its clean-up is rejected. *)
Theorem initAuth_restore :
  forall (p : Platform) (now : Z) (s : System),
    (forall t u,
        getItem_rejects p TOKENS = None -> getItem_rejects p USER_INFO = None ->
        holds_tokens s t -> holds s USER_INFO u -> Json.truthy u = true ->
        now < expiresAt t - 60000 ->
        ScalekitProvider.initAuth p now s
          = (Ret tt,
             with_authState
               {| isLoading := false; isAuthenticated := true; user := u; tokens := Some t;
                  error := None |} s))
    /\ (forall t u,
        getItem_rejects p TOKENS = None -> holds_tokens s t ->
        ScalekitAuth.getStoredUserInfo p s = (Ret u, s) ->
        now >= expiresAt t - 60000 ->
        deletes_resolve p = true ->
        exists s',
          ScalekitProvider.initAuth p now s = (Ret tt, s')
          /\ authState s'
             = {| isLoading := false; isAuthenticated := false; user := JNull; tokens := None;
                  error := None |}
          /\ secureStore s' = delete CODE_VERIFIER (delete USER_INFO (delete TOKENS (secureStore s)))
          /\ forall p', ScalekitAuth.getStoredTokens p' s' = (Ret None, s'))
    /\ (forall t u,
        getItem_rejects p TOKENS = None -> holds_tokens s t ->
        ScalekitAuth.getStoredUserInfo p s = (Ret u, s) ->
        now >= expiresAt t - 60000 ->
        deletes_resolve p = false ->
        ScalekitProvider.initAuth p now s
          = (Ret tt,
             with_authState
               {| isLoading := false; isAuthenticated := false; user := JNull; tokens := None;
                  error := Some "Failed to initialize authentication" |}
               (with_secureStore (cleanup p (secureStore s)) s)))
    /\ (forall t,
        getItem_rejects p TOKENS = None -> holds_tokens s t ->
        secureStore s !! USER_INFO = None
        \/ (exists e, getItem_rejects p USER_INFO = Some e)
        \/ (exists blob e, secureStore s !! USER_INFO = Some blob /\ Json.parse blob = Throw e) ->
        ScalekitProvider.initAuth p now s
          = (Ret tt,
             with_authState
               {| isLoading := false; isAuthenticated := false; user := JNull; tokens := None;
                  error := if deletes_resolve p then None
                           else Some "Failed to initialize authentication" |}
               (with_secureStore (cleanup p (secureStore s)) s)))
    /\ (forall u,
        secureStore s !! TOKENS = None
        \/ (exists e, getItem_rejects p TOKENS = Some e)
        \/ (exists blob e, secureStore s !! TOKENS = Some blob /\ Json.parse blob = Throw e) ->
        ScalekitAuth.getStoredUserInfo p s = (Ret u, s) ->
        ScalekitProvider.initAuth p now s
          = (Ret tt,
             with_authState
               {| isLoading := false; isAuthenticated := false; user := JNull; tokens := None;
                  error := None |} s))
    /\ (forall e s', ScalekitProvider.initAuth p now s <> (Throw e, s'))
    /\ (forall stored u,
        ScalekitAuth.getStoredTokens p s = (Ret stored, s) ->
        ScalekitAuth.getStoredUserInfo p s = (Ret u, s) ->
        exists s',
          ScalekitProvider.initAuth p now s = (Ret tt, s')
          /\ isLoading (authState s') = false
          /\ isAuthenticated (authState s') = ScalekitProvider.valid_session now stored u
          /\ (isAuthenticated (authState s') = false ->
              user (authState s') = JNull /\ tokens (authState s') = None)
          /\ error (authState s')
             = match stored with
               | Some _ =>
                   if ScalekitProvider.valid_session now stored u || deletes_resolve p
                   then None
                   else Some "Failed to initialize authentication"
               | None => None
               end).
Proof.
  intros p now s.
  split; [|split; [|split; [|split; [|split; [|split]]]]].
  - intros t u Hrt Hru Ht Hu Htruthy Hlt.
    rewrite (initAuth_run p now s (Some t) u
               (getStoredTokens_holds p s t Hrt Ht) (getStoredUserInfo_holds p s u Hru Hu)).
    unfold ScalekitProvider.valid_session, ScalekitAuth.areTokensExpired. rewrite Htruthy.
    destruct (Z.geb_spec now (expiresAt t - 60000)); [lia | reflexivity].
  - intros t u Hrt Ht Hu Hge Hdel.
    rewrite (initAuth_run p now s (Some t) u (getStoredTokens_holds p s t Hrt Ht) Hu),
      (expired_invalid now t u Hge), Hdel.
    eexists. split; [reflexivity|]. simpl. rewrite (cleanup_resolved p _ Hdel).
    split; [reflexivity|]. split; [reflexivity|].
    intros p'. apply getStoredTokens_absent. simpl. apply cleared_tokens_lookup.
  - intros t u Hrt Ht Hu Hge Hdel.
    by rewrite (initAuth_run p now s (Some t) u (getStoredTokens_holds p s t Hrt Ht) Hu),
      (expired_invalid now t u Hge), Hdel.
  - intros t Hrt Ht Hu.
    assert (Hread : ScalekitAuth.getStoredUserInfo p s = (Ret JNull, s)).
    { destruct Hu as [Hu | Hu]; [by apply getStoredUserInfo_absent|].
      by apply getStoredUserInfo_failed. }
    by rewrite (initAuth_run p now s (Some t) JNull (getStoredTokens_holds p s t Hrt Ht) Hread).
  - intros u Ht Hu.
    assert (Hread : ScalekitAuth.getStoredTokens p s = (Ret None, s)).
    { destruct Ht as [Ht | Ht]; [by apply getStoredTokens_absent|].
      by apply getStoredTokens_failed. }
    by rewrite (initAuth_run p now s None u Hread Hu).
  - apply initAuth_never_throws.
  - intros stored u Ht Hu. rewrite (initAuth_run p now s stored u Ht Hu).
    eexists. split; [reflexivity|].
    destruct stored as [t|]; [|by cbn].
    destruct (ScalekitProvider.valid_session now (Some t) u); cbn; [done|].
    by destruct (deletes_resolve p).
Qed.

(** The startup cases on the stored sessions of the scenario: a fresh
    session, an expired one, an expired one on a store that rejects the
    deletion of the tokens key, a session without user claims, and a token
    blob that does not parse. *)
Lemma initAuth_restore_witness :
  ScalekitProvider.initAuth Scenario.quiet Scenario.now
      (Scenario.mounting (Scenario.store_of Scenario.old_tokens Scenario.claims))
    = (Ret tt,
       with_authState
         {| isLoading := false; isAuthenticated := true; user := Scenario.claims;
            tokens := Some Scenario.old_tokens; error := None |}
         (Scenario.mounting (Scenario.store_of Scenario.old_tokens Scenario.claims)))
  /\ (exists s',
        ScalekitProvider.initAuth Scenario.quiet Scenario.now
            (Scenario.mounting (Scenario.store_of Scenario.stale_tokens Scenario.claims))
          = (Ret tt, s')
        /\ authState s'
           = {| isLoading := false; isAuthenticated := false; user := JNull; tokens := None;
                error := None |}
        /\ secureStore s'
           = delete CODE_VERIFIER (delete USER_INFO (delete TOKENS
               (Scenario.store_of Scenario.stale_tokens Scenario.claims)))
        /\ forall p', ScalekitAuth.getStoredTokens p' s' = (Ret None, s'))
  /\ authState
       (ScalekitProvider.initAuth
          (Scenario.platform (Some TOKENS) Scenario.cancelled None Scenario.no_response)
          Scenario.now
          (Scenario.mounting (Scenario.store_of Scenario.stale_tokens Scenario.claims))).2
     = {| isLoading := false; isAuthenticated := false; user := JNull; tokens := None;
          error := Some "Failed to initialize authentication" |}
  /\ authState
       (ScalekitProvider.initAuth Scenario.quiet Scenario.now
          (Scenario.mounting
             (<[TOKENS := Json.stringify (tokens_to_json Scenario.old_tokens)]> ∅))).2
     = {| isLoading := false; isAuthenticated := false; user := JNull; tokens := None;
          error := None |}
  /\ ScalekitProvider.initAuth Scenario.quiet Scenario.now
       (Scenario.mounting (<[TOKENS := "{"]> ∅))
     = (Ret tt,
        with_authState
          {| isLoading := false; isAuthenticated := false; user := JNull; tokens := None;
             error := None |}
          (Scenario.mounting (<[TOKENS := "{"]> ∅))).
Proof.
  assert (Hold : forall m,
             m !! TOKENS = Some (Json.stringify (tokens_to_json Scenario.old_tokens)) ->
             holds_tokens (Scenario.mounting m) Scenario.old_tokens).
  { intros m Hm. apply holds_serialised; [reflexivity | reflexivity | exact Hm]. }
  assert (Hstale : holds_tokens
                     (Scenario.mounting (Scenario.store_of Scenario.stale_tokens Scenario.claims))
                     Scenario.stale_tokens).
  { apply holds_serialised; reflexivity. }
  destruct (initAuth_restore Scenario.quiet Scenario.now
              (Scenario.mounting (Scenario.store_of Scenario.old_tokens Scenario.claims)))
    as (H1 & _).
  destruct (initAuth_restore Scenario.quiet Scenario.now
              (Scenario.mounting (Scenario.store_of Scenario.stale_tokens Scenario.claims)))
    as (_ & H2 & _).
  destruct (initAuth_restore
              (Scenario.platform (Some TOKENS) Scenario.cancelled None Scenario.no_response)
              Scenario.now
              (Scenario.mounting (Scenario.store_of Scenario.stale_tokens Scenario.claims)))
    as (_ & _ & H3 & _).
  destruct (initAuth_restore Scenario.quiet Scenario.now
              (Scenario.mounting
                 (<[TOKENS := Json.stringify (tokens_to_json Scenario.old_tokens)]> ∅)))
    as (_ & _ & _ & H4 & _).
  destruct (initAuth_restore Scenario.quiet Scenario.now
              (Scenario.mounting (<[TOKENS := "{"]> ∅)))
    as (_ & _ & _ & _ & H5 & _).
  split; [|split; [|split; [|split]]].
  - apply (H1 Scenario.old_tokens Scenario.claims); try reflexivity.
    + apply Hold. reflexivity.
    + eexists. split; reflexivity.
  - apply (H2 Scenario.stale_tokens Scenario.claims); try reflexivity; [exact Hstale|].
    discriminate.
  - rewrite (H3 Scenario.stale_tokens Scenario.claims); try reflexivity; [exact Hstale|].
    discriminate.
  - rewrite (H4 Scenario.old_tokens); try reflexivity; [by apply Hold | by left].
  - apply (H5 JNull); [|reflexivity].
    right. right. exists "{", (Error "SyntaxError: JSON Parse error"). by split.
Defined.

(** ** The token exchange *)

Lemma try_rethrow {A : Type} (body : M A) s :
  try_catch body ScalekitAuth.rethrow s = body s.
Proof.
  unfold try_catch, ScalekitAuth.rethrow, throw.
  destruct (body s) as [[a| |] s1]; reflexivity.
Qed.

Section Exchange.

Variable p : Platform.
Variable svc : ScalekitAuth.t.


Lemma exchange_missing_verifier code now s :
  getItem_rejects p CODE_VERIFIER = None ->
  Js.truthy_opt (secureStore s !! CODE_VERIFIER) = false ->
  ScalekitAuth.exchangeCodeForTokens p svc code now s = (Throw MissingVerifier, s).
Proof.
  intros Hr Hv. unfold ScalekitAuth.exchangeCodeForTokens. rewrite try_rethrow.
  unfold bind. rewrite (getItem_resolves p _ s Hr).
  destruct (secureStore s !! CODE_VERIFIER) as [v|]; [|reflexivity].
  simpl in Hv. by rewrite Hv.
Qed.

End Exchange.

(** C4: with no PKCE verifier in the secure store (the read resolves to
    [null], or to the empty string), [exchangeCodeForTokens] rejects with the
    missing-verifier error for every authorization code, and the system is
    left as it was: no request has been issued. *)
Theorem exchange_without_verifier :
  forall (p : Platform) (svc : ScalekitAuth.t) (code : string) (now : Z) (s : System),
    getItem_rejects p CODE_VERIFIER = None ->
    Js.truthy_opt (secureStore s !! CODE_VERIFIER) = false ->
    ScalekitAuth.exchangeCodeForTokens p svc code now s = (Throw MissingVerifier, s)
    /\ requests (ScalekitAuth.exchangeCodeForTokens p svc code now s).2 = requests s.
Proof.
  intros p svc code now s Hr Hv.
  rewrite (exchange_missing_verifier p svc code now s Hr Hv). split; reflexivity.
Qed.

(** An exchange on a store that has a session but no verifier. *)
Lemma exchange_without_verifier_witness :
  ScalekitAuth.exchangeCodeForTokens Scenario.quiet Scenario.service "auth-code" Scenario.now
      Scenario.signed_in
    = (Throw MissingVerifier, Scenario.signed_in)
  /\ requests
       (ScalekitAuth.exchangeCodeForTokens Scenario.quiet Scenario.service "auth-code"
          Scenario.now Scenario.signed_in).2
     = requests Scenario.signed_in.
Proof.
  apply (exchange_without_verifier Scenario.quiet Scenario.service "auth-code" Scenario.now
           Scenario.signed_in); reflexivity.
Defined.

(** ** Decoding the identity token *)

Lemma split_no_dot s : no_dot s = true -> Js.split "." s = [s].
Proof.
  induction s as [|c r IH]; [reflexivity|]. simpl.
  destruct (Ascii.eqb c "."); [discriminate|]. simpl. intros H. by rewrite (IH H).
Qed.

Lemma split_segment a b :
  no_dot a = true -> Js.split "." (a +:+ "." +:+ b) = a :: Js.split "." b.
Proof.
  induction a as [|c r IH]; [reflexivity|]. simpl.
  destruct (Ascii.eqb c "."); [discriminate|]. simpl. intros H. by rewrite (IH H).
Qed.

Lemma decodeIdToken_run idToken :
  ScalekitAuth.decodeIdToken idToken =
    match Js.split "." idToken with
    | [_; payload; _] =>
        match decode_payload payload with
        | Throw _ => Throw MalformedToken
        | r => r
        end
    | _ => Throw MalformedToken
    end.
Proof.
  unfold ScalekitAuth.decodeIdToken, decode_payload.
  destruct (Js.split "." idToken) as [|a [|b [|c [|d l]]]]; try reflexivity.
  simpl. destruct (Base64.atob _) as [decoded| |]; try reflexivity.
  simpl. destruct (Json.parse decoded); reflexivity.
Qed.

Lemma decodeIdToken_error tok e :
  ScalekitAuth.decodeIdToken tok = Throw e -> e = MalformedToken.
Proof.
  rewrite decodeIdToken_run.
  destruct (Js.split "." tok) as [|a [|b [|c [|d l]]]]; try congruence.
  destruct (decode_payload b); congruence.
Qed.

(** C6 fails on the code: a token of three segments whose middle segment is
    valid base64 ([YWJj] encodes [abc]) but not JSON fails with the same
    error as a token of two segments; the claim as stated
    ([decode_fails_iff_not_three_segments]) is false. *)
Lemma three_segments_may_fail :
  Js.split "." "a.YWJj.c" = ["a"; "YWJj"; "c"]
  /\ Base64.atob "YWJj" = Ret "abc"
  /\ ScalekitAuth.decodeIdToken "a.YWJj.c" = Throw MalformedToken
  /\ ~ decode_fails_iff_not_three_segments.
Proof.
  split; [reflexivity|]. split; [reflexivity|]. split; [reflexivity|].
  intros H. destruct (H "a.YWJj.c") as [H1 _].
  assert (E : ScalekitAuth.decodeIdToken "a.YWJj.c" = Throw MalformedToken) by reflexivity.
  specialize (H1 E). apply H1. reflexivity.
Qed.

(** C6 as amended: the decoder fails, always with the one error
    [Failed to decode user information from id_token], exactly when the token
    does not have three segments or its middle segment is not the base64 form
    of a JSON text; a token of three segments whose middle segment is the
    base64url form of the claims [sub = u1], [email = a@b.com] decodes to
    these claims, and a token of two segments fails. *)
Theorem decodeIdToken_outcome :
  (forall idToken,
      List.length (Js.split "." idToken) <> 3%nat ->
      ScalekitAuth.decodeIdToken idToken = Throw MalformedToken)
  /\ (forall idToken e, ScalekitAuth.decodeIdToken idToken = Throw e -> e = MalformedToken)
  /\ (forall idToken,
        ScalekitAuth.decodeIdToken idToken = Throw MalformedToken
        <-> (List.length (Js.split "." idToken) <> 3%nat
             \/ exists header payload signature e,
                  Js.split "." idToken = [header; payload; signature]
                  /\ decode_payload payload = Throw e))
  /\ (forall header signature,
        no_dot header = true -> no_dot signature = true ->
        ScalekitAuth.decodeIdToken (header +:+ "." +:+ Scenario.payload +:+ "." +:+ signature)
          = Ret (JObject [("sub", JString "u1"); ("email", JString "a@b.com")]))
  /\ (forall header payload,
        no_dot header = true -> no_dot payload = true ->
        ScalekitAuth.decodeIdToken (header +:+ "." +:+ payload) = Throw MalformedToken).
Proof.
  split; [|split; [|split; [|split]]].
  - intros tok H. rewrite decodeIdToken_run.
    destruct (Js.split "." tok) as [|a [|b [|c [|d l]]]]; try reflexivity.
    by destruct H.
  - apply decodeIdToken_error.
  - intros tok. rewrite decodeIdToken_run. split.
    + destruct (Js.split "." tok) as [|a [|b [|c [|d l]]]] eqn:E; simpl;
        try (intros _; left; lia).
      destruct (decode_payload b) as [v|e|] eqn:D; try discriminate.
      intros _. right. by exists a, b, c, e.
    + intros [H | (h & pl & sg & e & -> & ->)]; [|reflexivity].
      destruct (Js.split "." tok) as [|a [|b [|c [|d l]]]]; try reflexivity.
      by destruct H.
  - intros header signature Hh Hs. rewrite decodeIdToken_run.
    rewrite (split_segment header _ Hh), (split_segment Scenario.payload signature eq_refl),
      (split_no_dot _ Hs).
    reflexivity.
  - intros header payload Hh Hp. rewrite decodeIdToken_run.
    by rewrite (split_segment header _ Hh), (split_no_dot _ Hp).
Qed.

(** The payload of the scenario is the base64url form of the serialised
    claims, and the token around it decodes back to them. *)
Lemma decodeIdToken_outcome_witness :
  ScalekitAuth.base64URLEncode (list_byte_of_string (Json.stringify Scenario.claims))
    = Scenario.payload
  /\ ScalekitAuth.decodeIdToken Scenario.jwt = Ret Scenario.claims
  /\ ScalekitAuth.decodeIdToken "eyJhbGciOiJub25lIn0.eyJzdWIiOiJ1MSIsImVtYWlsIjoiYUBiLmNvbSJ9"
     = Throw MalformedToken.
Proof.
  split; [reflexivity|]. split.
  - apply (proj1 (proj2 (proj2 (proj2 decodeIdToken_outcome)))
             "eyJhbGciOiJub25lIn0" "sig"); reflexivity.
  - apply (proj1 decodeIdToken_outcome). vm_compute. lia.
Defined.

(** ** A successful exchange *)

Lemma as_TokenResponse_safe v data :
  as_TokenResponse v = Some data -> Js.is_safe_integer (expires_in data) = true.
Proof.
  destruct v as [| | | | |o]; try discriminate. unfold as_TokenResponse, required_number.
  repeat case_match; try discriminate. intros [= <-]. by simplify_eq.
Qed.

(** C5: when the stored verifier is present, the token endpoint answers
    with success and a body that reads as a token answer [data], and the
    secure store accepts the write and the deletion, [exchangeCodeForTokens]
    returns the record built from [data] whose absolute expiry is the time of
    receipt plus [expires_in * 1000] ms, has stored its serialised form under
    the tokens key, so that a later [getStoredTokens] returns this record,
    has issued exactly the one request, and has deleted the verifier: a
    second exchange on the resulting store finds no verifier. *)
Theorem exchange_success :
  forall (p : Platform) (svc : ScalekitAuth.t) (code : string) (now : Z) (s : System)
         (verifier : string) (response : Response) (v : json) (data : TokenResponse),
    getItem_rejects p CODE_VERIFIER = None ->
    secureStore s !! CODE_VERIFIER = Some verifier ->
    Js.truthy verifier = true ->
    fetch_response p (ScalekitAuth.token_request svc code verifier) = Ret response ->
    response_ok response = true ->
    Json.parse (response_text response) = Ret v ->
    as_TokenResponse v = Some data ->
    Js.is_safe_integer (now + expires_in data * 1000) = true ->
    setItem_rejects p TOKENS
      (Json.stringify (tokens_to_json (ScalekitAuth.tokens_of_response data now))) = None ->
    deleteItem_rejects p CODE_VERIFIER = None ->
    exists s',
      ScalekitAuth.exchangeCodeForTokens p svc code now s
        = (Ret (ScalekitAuth.tokens_of_response data now), s')
      /\ expiresAt (ScalekitAuth.tokens_of_response data now) = now + expires_in data * 1000
      /\ accessToken (ScalekitAuth.tokens_of_response data now) = access_token data
      /\ secureStore s' !! TOKENS
         = Some (Json.stringify (tokens_to_json (ScalekitAuth.tokens_of_response data now)))
      /\ (forall p', getItem_rejects p' TOKENS = None ->
            ScalekitAuth.getStoredTokens p' s'
              = (Ret (Some (ScalekitAuth.tokens_of_response data now)), s'))
      /\ secureStore s' !! CODE_VERIFIER = None
      /\ (forall key, key <> TOKENS -> key <> CODE_VERIFIER ->
            secureStore s' !! key = secureStore s !! key)
      /\ requests s' = ScalekitAuth.token_request svc code verifier :: requests s
      /\ authState s' = authState s
      /\ (forall p' code' now',
            getItem_rejects p' CODE_VERIFIER = None ->
            ScalekitAuth.exchangeCodeForTokens p' svc code' now' s' = (Throw MissingVerifier, s')).
Proof.
  intros p svc code now s verifier response v data Hget Hv Htruthy Hfetch Hok Hparse Hdata
    Hsafe Hset Hdel.
  eexists. split.
  - unfold ScalekitAuth.exchangeCodeForTokens. rewrite try_rethrow.
    unfold bind at 1. rewrite (getItem_resolves p _ s Hget), Hv, Htruthy. simpl negb. cbv iota.
    unfold bind at 1, ScalekitAuth.fetch. rewrite Hfetch, Hok. simpl negb. cbv iota.
    unfold bind at 1, ScalekitAuth.response_json, bind at 1, lift. rewrite Hparse, Hdata.
    unfold ret at 1.
    change (expiresAt (ScalekitAuth.tokens_of_response data now))
      with (now + expires_in data * 1000).
    rewrite Hsafe. simpl negb. cbv iota.
    unfold bind, ScalekitAuth.SecureStore_setItemAsync, ScalekitAuth.SecureStore_deleteItemAsync.
    rewrite Hset, Hdel. reflexivity.
  - assert (Hstored :
      delete CODE_VERIFIER
        (<[TOKENS := Json.stringify (tokens_to_json (ScalekitAuth.tokens_of_response data now))]>
           (secureStore s)) !! TOKENS
      = Some (Json.stringify (tokens_to_json (ScalekitAuth.tokens_of_response data now)))).
    { rewrite lookup_delete_ne by done. apply lookup_insert_eq. }
    cbn [secureStore requests authState with_secureStore with_request].
    split; [reflexivity|]. split; [reflexivity|]. split; [exact Hstored|].
    split; [|split; [|split; [|split; [|split]]]]; try reflexivity.
    + intros p' Hget'. apply getStoredTokens_holds; [done|].
      apply holds_serialised; [exact (as_TokenResponse_safe v data Hdata) | exact Hsafe | exact Hstored].
    + apply lookup_delete_eq.
    + intros key H1 H2. rewrite lookup_delete_ne by done. by rewrite lookup_insert_ne.
    + intros p' code' now' Hget'. apply exchange_missing_verifier; [done|].
      cbn [secureStore with_secureStore]. by rewrite lookup_delete_eq.
Qed.

(** The exchange of the code [abc] after the callback of the scenario. *)
Lemma exchange_success_witness :
  exists s',
    ScalekitAuth.exchangeCodeForTokens (Scenario.answering Scenario.issued_response)
        Scenario.service "abc" Scenario.now Scenario.awaiting_callback
      = (Ret (ScalekitAuth.tokens_of_response Scenario.issued Scenario.now), s')
    /\ expiresAt (ScalekitAuth.tokens_of_response Scenario.issued Scenario.now)
       = Scenario.now + 3600 * 1000
    /\ ScalekitAuth.getStoredTokens Scenario.quiet s'
       = (Ret (Some (ScalekitAuth.tokens_of_response Scenario.issued Scenario.now)), s')
    /\ secureStore s' !! CODE_VERIFIER = None.
Proof.
  destruct (exchange_success (Scenario.answering Scenario.issued_response) Scenario.service
              "abc" Scenario.now Scenario.awaiting_callback Scenario.verifier
              Scenario.issued_response
              (JObject
                 [("access_token", JString "new-access-token");
                  ("refresh_token", JString "refresh-1");
                  ("id_token", JString Scenario.jwt); ("token_type", JString "Bearer");
                  ("expires_in", JNumber 3600)])
              Scenario.issued)
    as (s' & H1 & H2 & _ & _ & H5 & H6 & _); try reflexivity.
  exists s'. split; [exact H1|]. split; [exact H2|]. split; [by apply H5 | exact H6].
Defined.

(** ** Login *)

Section LoginRuns.

Variable p : Platform.
Variable svc : ScalekitAuth.t.

(** [login] of the service, step by step. *)
Lemma service_login_run options s :
  ScalekitAuth.login p svc options s =
    match getRandomBytesAsync p 32 with
    | Ret randomBytes =>
        match digestStringAsync p (ScalekitAuth.base64URLEncode randomBytes) with
        | Ret digest =>
            match setItem_rejects p CODE_VERIFIER (ScalekitAuth.base64URLEncode randomBytes) with
            | None =>
                (openAuthSessionAsync p (authUrl_of svc options digest)
                   (ScalekitAuth.config_redirectUri svc),
                 with_secureStore
                   (<[CODE_VERIFIER := ScalekitAuth.base64URLEncode randomBytes]> (secureStore s)) s)
            | Some e => (Throw e, s)
            end
        | Throw e => (Throw e, s)
        | Unmodelled => (Unmodelled, s)
        end
    | Throw e => (Throw e, s)
    | Unmodelled => (Unmodelled, s)
    end.
Proof.
  unfold ScalekitAuth.login. rewrite try_rethrow.
  unfold bind, ScalekitAuth.generateCodeVerifier, ScalekitAuth.generateCodeChallenge, bind,
    lift, ret, ScalekitAuth.SecureStore_setItemAsync, authUrl_of.
  destruct (getRandomBytesAsync p 32) as [randomBytes| |]; try reflexivity.
  destruct (digestStringAsync p _) as [digest| |]; try reflexivity.
  destruct (setItem_rejects p CODE_VERIFIER _); try reflexivity.
  destruct (openAuthSessionAsync p _ _); reflexivity.
Qed.

(** [login] of the service touches nothing but the verifier. *)
Lemma service_login_frame options s r s1 :
  ScalekitAuth.login p svc options s = (r, s1) ->
  authState s1 = authState s /\ requests s1 = requests s
  /\ forall key, key <> CODE_VERIFIER -> secureStore s1 !! key = secureStore s !! key.
Proof.
  rewrite service_login_run. intros H.
  repeat case_match; simplify_eq; repeat split; try done.
  intros key Hk. simpl. by rewrite lookup_insert_ne.
Qed.

End LoginRuns.

Lemma cons_neq {A : Type} (x : A) (l : list A) : x :: l <> l.
Proof.
  intros E. apply (f_equal (@List.length A)) in E. simpl in E. lia.
Qed.

Lemma kept_when_no_request now s s1 :
  tokens_kept_or_renewed now s s1 -> requests s1 = requests s ->
  secureStore s1 !! TOKENS = secureStore s !! TOKENS.
Proof.
  intros [[H _] | (data & q & Hq & _)] Hr; [done|].
  rewrite Hq in Hr. by destruct (cons_neq q (requests s)).
Qed.

Lemma kept_or_renewed_present now s s1 :
  tokens_kept_or_renewed now s s1 ->
  is_Some (secureStore s !! TOKENS) -> is_Some (secureStore s1 !! TOKENS).
Proof.
  intros [[H _] | (data & q & _ & H)] Hs; rewrite H; [done | by eexists].
Qed.

Section Frames.

Variable p : Platform.
Variable svc : ScalekitAuth.t.

Lemma exchange_frame code now s r s1 :
  ScalekitAuth.exchangeCodeForTokens p svc code now s = (r, s1) ->
  authState s1 = authState s /\ tokens_kept_or_renewed now s s1.
Proof.
  unfold ScalekitAuth.exchangeCodeForTokens. rewrite try_rethrow.
  unfold bind, ScalekitAuth.SecureStore_getItemAsync, ScalekitAuth.fetch,
    ScalekitAuth.response_json, bind, lift, ret, throw, ScalekitAuth.SecureStore_setItemAsync,
    ScalekitAuth.SecureStore_deleteItemAsync, tokens_kept_or_renewed.
  intros H.
  repeat case_match; simplify_eq;
    cbn [authState secureStore requests with_secureStore with_request with_authState];
    (split; [done|]);
    try (left; split; [done | by eauto]);
    right; eexists _, _; (split; [done|]);
    first [ apply lookup_insert_eq
          | rewrite lookup_delete_ne by done; apply lookup_insert_eq ].
Qed.

(** An exchange that returns has stored the record it returns. *)
Lemma exchange_stored code now s t s1 :
  ScalekitAuth.exchangeCodeForTokens p svc code now s = (Ret t, s1) ->
  secureStore s1 !! TOKENS = Some (Json.stringify (tokens_to_json t)).
Proof.
  unfold ScalekitAuth.exchangeCodeForTokens. rewrite try_rethrow.
  unfold bind, ScalekitAuth.SecureStore_getItemAsync, ScalekitAuth.fetch,
    ScalekitAuth.response_json, bind, lift, ret, throw, ScalekitAuth.SecureStore_setItemAsync,
    ScalekitAuth.SecureStore_deleteItemAsync.
  intros H. repeat case_match; simplify_eq.
  cbn [secureStore with_secureStore].
  rewrite lookup_delete_ne by done. apply lookup_insert_eq.
Qed.

(** An answer of the token endpoint that is not a success makes the
    exchange throw with the body of the answer, the store untouched. *)
Lemma exchange_refused code now s verifier response :
  getItem_rejects p CODE_VERIFIER = None ->
  secureStore s !! CODE_VERIFIER = Some verifier -> Js.truthy verifier = true ->
  fetch_response p (ScalekitAuth.token_request svc code verifier) = Ret response ->
  response_ok response = false ->
  ScalekitAuth.exchangeCodeForTokens p svc code now s
  = (Throw (Error ("Token exchange failed: " +:+ response_text response)),
     with_request (ScalekitAuth.token_request svc code verifier) s).
Proof.
  intros Hget Hv Htruthy Hfetch Hok.
  unfold ScalekitAuth.exchangeCodeForTokens. rewrite try_rethrow.
  unfold bind at 1. rewrite (getItem_resolves p _ s Hget), Hv, Htruthy. simpl negb. cbv iota.
  unfold bind at 1, ScalekitAuth.fetch. by rewrite Hfetch, Hok.
Qed.

Lemma getUserInfo_frame tok s r s1 :
  ScalekitAuth.getUserInfo p tok s = (r, s1) ->
  authState s1 = authState s /\ requests s1 = requests s
  /\ forall key, key <> USER_INFO -> secureStore s1 !! key = secureStore s !! key.
Proof.
  unfold ScalekitAuth.getUserInfo. rewrite try_rethrow.
  unfold bind, lift, ret, ScalekitAuth.SecureStore_setItemAsync. intros H.
  repeat case_match; simplify_eq; repeat split; try done.
  intros key Hk. cbn [secureStore with_secureStore]. by rewrite lookup_insert_ne.
Qed.

End Frames.

Lemma kept_or_renewed_refl now s s1 :
  secureStore s1 !! TOKENS = secureStore s !! TOKENS -> requests s1 = requests s ->
  tokens_kept_or_renewed now s s1.
Proof. intros Ht Hr. left. split; [done | by left]. Qed.

Lemma kept_or_renewed_from now s s' s1 :
  secureStore s' !! TOKENS = secureStore s !! TOKENS -> requests s' = requests s ->
  tokens_kept_or_renewed now s' s1 -> tokens_kept_or_renewed now s s1.
Proof. unfold tokens_kept_or_renewed. by intros -> ->. Qed.

Lemma kept_or_renewed_to now s s1 s1' :
  secureStore s1' !! TOKENS = secureStore s1 !! TOKENS -> requests s1' = requests s1 ->
  tokens_kept_or_renewed now s s1 -> tokens_kept_or_renewed now s s1'.
Proof. unfold tokens_kept_or_renewed. by intros -> ->. Qed.

Section LoginFrames.

Variable p : Platform.
Variable svc : ScalekitAuth.t.

(** The body of [login], after the service has returned the browser's
    result. *)
Lemma login_try_after_browser options now s result s1 :
  ScalekitAuth.login p svc options (logging_in s) = (Ret result, s1) ->
  ScalekitProvider.login_try p svc options now s =
    if String.eqb (result_type result) "success" && Js.truthy_opt (result_url result) then
      match URL_searchParams_get p (default EmptyString (result_url result)) "code" with
      | Ret code =>
          if negb (Js.truthy_opt code) then (Throw (Error "No authorization code received"), s1)
          else
            match ScalekitAuth.exchangeCodeForTokens p svc (default EmptyString code) now s1 with
            | (Ret tokens, s2) =>
                if negb (Js.truthy_opt (idToken tokens)) then
                  (Throw (Error "No id_token received from Scalekit"), s2)
                else
                  match ScalekitAuth.getUserInfo p (default EmptyString (idToken tokens)) s2 with
                  | (Ret user, s3) =>
                      (Ret tt, with_authState (ScalekitProvider.authenticated user tokens) s3)
                  | (Throw e, s3) => (Throw e, s3)
                  | (Unmodelled, s3) => (Unmodelled, s3)
                  end
            | (Throw e, s2) => (Throw e, s2)
            | (Unmodelled, s2) => (Unmodelled, s2)
            end
      | Throw e => (Throw e, s1)
      | Unmodelled => (Unmodelled, s1)
      end
    else if String.eqb (result_type result) "dismiss" || String.eqb (result_type result) "cancel"
    then (Ret tt, with_authState (ScalekitProvider.with_loading_error false None (authState s1)) s1)
    else (Throw (Error "Authentication was not successful"), s1).
Proof.
  intros H. unfold ScalekitProvider.login_try, bind at 1, setAuthState at 1.
  fold (logging_in s). unfold bind at 1. rewrite H.
  destruct (String.eqb (result_type result) "success" && Js.truthy_opt (result_url result)).
  - unfold bind at 1, lift.
    destruct (URL_searchParams_get p _ "code") as [code| |]; try reflexivity.
    destruct (negb (Js.truthy_opt code)); [reflexivity|].
    unfold bind at 1.
    destruct (ScalekitAuth.exchangeCodeForTokens p svc _ now s1) as [[tokens| |] s2];
      try reflexivity.
    destruct (negb (Js.truthy_opt (idToken tokens))); [reflexivity|].
    unfold bind.
    destruct (ScalekitAuth.getUserInfo p _ s2) as [[user| |] s3]; reflexivity.
  - destruct (String.eqb (result_type result) "dismiss" || String.eqb (result_type result) "cancel");
      reflexivity.
Qed.

(** When the service rejects, so does the body of [login]. *)
Lemma login_try_service_failure options now s r s1 :
  ScalekitAuth.login p svc options (logging_in s) = (r, s1) ->
  (forall result, r <> Ret result) ->
  ScalekitProvider.login_try p svc options now s
  = (match r with Ret _ => Unmodelled | Throw e => Throw e | Unmodelled => Unmodelled end, s1).
Proof.
  intros H Hr. unfold ScalekitProvider.login_try, bind at 1, setAuthState at 1.
  fold (logging_in s). unfold bind at 1. rewrite H.
  destruct r as [result| |]; [by destruct (Hr result) | reflexivity | reflexivity].
Qed.

(** The body of [login] deletes nothing under the tokens key. *)
Lemma login_try_frame options now s r s1 :
  ScalekitProvider.login_try p svc options now s = (r, s1) ->
  tokens_kept_or_renewed now s s1.
Proof.
  destruct (ScalekitAuth.login p svc options (logging_in s)) as [r0 s0] eqn:EL.
  destruct (service_login_frame p svc options _ _ _ EL) as (_ & Hr0 & Hk0).
  assert (Ht0 : secureStore s0 !! TOKENS = secureStore s !! TOKENS) by (by apply Hk0).
  assert (Hq0 : requests s0 = requests s) by exact Hr0.
  destruct r0 as [result| |].
  - rewrite (login_try_after_browser options now s result s0 EL).
    destruct (String.eqb (result_type result) "success" && Js.truthy_opt (result_url result)).
    + destruct (URL_searchParams_get p _ "code") as [code| |];
        try (intros [= <- <-]; by apply kept_or_renewed_refl).
      destruct (negb (Js.truthy_opt code));
        [intros [= <- <-]; by apply kept_or_renewed_refl|].
      destruct (ScalekitAuth.exchangeCodeForTokens p svc _ now s0) as [r2 s2] eqn:EX.
      destruct (exchange_frame p svc _ now s0 r2 s2 EX) as (_ & Hkr).
      apply (kept_or_renewed_from now s s0 s2 Ht0 Hq0) in Hkr.
      destruct r2 as [tokens| |]; try (intros [= <- <-]; exact Hkr).
      destruct (negb (Js.truthy_opt (idToken tokens))); [intros [= <- <-]; exact Hkr|].
      destruct (ScalekitAuth.getUserInfo p _ s2) as [r3 s3] eqn:EU.
      destruct (getUserInfo_frame p _ s2 r3 s3 EU) as (_ & Hr3 & Hk3).
      assert (Hkr3 : tokens_kept_or_renewed now s s3).
      { apply (kept_or_renewed_to now s s2 s3); [by apply Hk3 | exact Hr3 | exact Hkr]. }
      destruct r3 as [user| |]; intros [= <- <-]; exact Hkr3.
    + destruct (String.eqb (result_type result) "dismiss" || String.eqb (result_type result) "cancel");
        intros [= <- <-]; by apply kept_or_renewed_refl.
  - rewrite (login_try_service_failure options now s _ s0 EL) by done.
    intros [= <- <-]. by apply kept_or_renewed_refl.
  - rewrite (login_try_service_failure options now s _ s0 EL) by done.
    intros [= <- <-]. by apply kept_or_renewed_refl.
Qed.

End LoginFrames.

(** C9 fails on the code: [login] may be called in the authenticated state,
    and the branch for a cancelled session keeps [isAuthenticated] as it
    was; the claim as stated ([cancel_always_unauthenticates]) is false. *)
Lemma cancelled_login_keeps_session :
  authState
    (ScalekitProvider.login Scenario.quiet Scenario.service None Scenario.now
       Scenario.signed_in).2
  = {| isLoading := false; isAuthenticated := true; user := Scenario.claims;
       tokens := Some Scenario.old_tokens; error := None |}
  /\ ~ cancel_always_unauthenticates.
Proof.
  split; [reflexivity|]. intros H.
  destruct (H Scenario.quiet Scenario.service None Scenario.now Scenario.signed_in
              Scenario.cancelled
              (ScalekitAuth.login Scenario.quiet Scenario.service None
                 (logging_in Scenario.signed_in)).2) as (Ha & _).
  - vm_compute. reflexivity.
  - by left.
  - vm_compute in Ha. discriminate.
Qed.

(** C9 as amended: when the browser session of a login resolves as
    cancelled or dismissed, [login] ends with [isLoading = false] and
    [error = null], and leaves [isAuthenticated], [user] and [tokens] as they
    were before the call; so a login started in an unauthenticated state ends
    unauthenticated.  Only the PKCE verifier has changed in the store. *)
Theorem login_cancelled :
  forall (p : Platform) (svc : ScalekitAuth.t) (options : option ScalekitLoginOptions)
         (now : Z) (s : System) (result : WebBrowserResult) (s1 : System),
    ScalekitAuth.login p svc options (logging_in s) = (Ret result, s1) ->
    result_type result = "cancel" \/ result_type result = "dismiss" ->
    exists s',
      ScalekitProvider.login p svc options now s = (Ret tt, s')
      /\ isLoading (authState s') = false
      /\ error (authState s') = None
      /\ isAuthenticated (authState s') = isAuthenticated (authState s)
      /\ user (authState s') = user (authState s)
      /\ tokens (authState s') = tokens (authState s)
      /\ (isAuthenticated (authState s) = false -> isAuthenticated (authState s') = false)
      /\ requests s' = requests s
      /\ (forall key, key <> CODE_VERIFIER -> secureStore s' !! key = secureStore s !! key).
Proof.
  intros p svc options now s result s1 Hlogin Htype.
  destruct (service_login_frame p svc options _ _ _ Hlogin) as (Ha & Hr & Hk).
  exists (with_authState (ScalekitProvider.with_loading_error false None (authState s1)) s1).
  split.
  - unfold ScalekitProvider.login, try_catch.
    rewrite (login_try_after_browser p svc options now s result s1 Hlogin).
    destruct Htype as [-> | ->]; reflexivity.
  - cbn [authState secureStore requests with_authState ScalekitProvider.with_loading_error
           isLoading error isAuthenticated user tokens].
    rewrite Ha. cbn. repeat split; try done.
Qed.

(** A cancelled login right after the provider has mounted on an empty
    store. *)
Lemma login_cancelled_witness :
  exists s',
    ScalekitProvider.login Scenario.quiet Scenario.service None Scenario.now
        (Scenario.system (ScalekitProvider.unauthenticated None) ∅)
      = (Ret tt, s')
    /\ isLoading (authState s') = false
    /\ error (authState s') = None
    /\ isAuthenticated (authState s') = false.
Proof.
  destruct (login_cancelled Scenario.quiet Scenario.service None Scenario.now
              (Scenario.system (ScalekitProvider.unauthenticated None) ∅)
              Scenario.cancelled
              (ScalekitAuth.login Scenario.quiet Scenario.service None
                 (logging_in (Scenario.system (ScalekitProvider.unauthenticated None) ∅))).2)
    as (s' & H1 & H2 & H3 & H4 & _).
  - vm_compute. reflexivity.
  - by left.
  - exists s'. repeat split; try done.
Defined.


(** ** A login that fails *)

(** C10 fails on the code: when the token endpoint answers without an ID
    token, the exchange has already written the new record over the one of
    the previous session before [login] throws, and [getAccessToken] returns
    the new access token; the claim as stated
    ([failed_login_keeps_previous_tokens]) is false. *)
Lemma failed_login_may_replace_tokens :
  authState
    (ScalekitProvider.login (Scenario.answering Scenario.anonymous_response)
       Scenario.service None Scenario.now Scenario.signed_in).2
  = {| isLoading := false; isAuthenticated := false; user := JNull; tokens := None;
       error := Some "No id_token received from Scalekit" |}
  /\ (ScalekitProvider.getAccessToken Scenario.quiet Scenario.now
        (ScalekitProvider.login (Scenario.answering Scenario.anonymous_response)
           Scenario.service None Scenario.now Scenario.signed_in).2).1
     = Ret (Some "new-access-token")
  /\ ~ failed_login_keeps_previous_tokens.
Proof.
  split; [reflexivity|]. split; [vm_compute; reflexivity|]. intros H.
  destruct (H (Scenario.answering Scenario.anonymous_response) Scenario.service None
              Scenario.now Scenario.signed_in
              (Error "No id_token received from Scalekit")
              (ScalekitProvider.login_try (Scenario.answering Scenario.anonymous_response)
                 Scenario.service None Scenario.now Scenario.signed_in).2
              Scenario.old_tokens Scenario.quiet Scenario.now) as (_ & Ha).
  - vm_compute. reflexivity.
  - apply holds_serialised; reflexivity.
  - reflexivity.
  - reflexivity.
  - vm_compute in Ha. discriminate.
Qed.

(** C10 as amended: whenever the body of [login] throws, the state in
    memory is reset to unauthenticated with [user = null], [tokens = null]
    and the message of the failure in the error field, and the failure
    handling deletes nothing from the secure store: a blob under the tokens
    key is still there, the previous one or, if the token endpoint had
    already answered, its newly issued record.  While the previous blob is
    unchanged, which is the case when no request was issued,
    [getAccessToken] still returns the old access token although
    [isAuthenticated] is false.  Of the failures of the flow, a missing code
    throws [No authorization code received] and a refused exchange throws
    [Token exchange failed] with the body, both with the previous blob
    unchanged; a failing exchange throws its own error; a missing ID token
    throws [No id_token received from Scalekit] and an undecodable one
    [Failed to decode user information from id_token], both after the
    exchange has stored its record. *)
Theorem login_failure_store :
  forall (p : Platform) (svc : ScalekitAuth.t) (options : option ScalekitLoginOptions)
         (now : Z) (s : System),
    (forall e s1,
        ScalekitProvider.login_try p svc options now s = (Throw e, s1) ->
        ScalekitProvider.login p svc options now s = (Ret tt, login_failed e s1)
        /\ authState (login_failed e s1)
           = {| isLoading := false; isAuthenticated := false; user := JNull; tokens := None;
                error := Some (ScalekitProvider.login_error_message e) |}
        /\ (is_Some (secureStore s !! TOKENS) ->
            is_Some (secureStore (login_failed e s1) !! TOKENS))
        /\ tokens_kept_or_renewed now s (login_failed e s1)
        /\ (requests s1 = requests s -> secureStore s1 !! TOKENS = secureStore s !! TOKENS)
        /\ (secureStore s1 !! TOKENS = secureStore s !! TOKENS ->
            forall p' now' t,
              getItem_rejects p' TOKENS = None -> holds_tokens s t ->
              now' < expiresAt t - 60000 ->
              ScalekitProvider.getAccessToken p' now' (login_failed e s1)
                = (Ret (Some (accessToken t)), login_failed e s1)))
    /\ (forall result s1,
          ScalekitAuth.login p svc options (logging_in s) = (Ret result, s1) ->
          result_type result = "success" -> Js.truthy_opt (result_url result) = true ->
          (forall code,
              URL_searchParams_get p (default EmptyString (result_url result)) "code" = Ret code ->
              Js.truthy_opt code = false ->
              ScalekitProvider.login_try p svc options now s
                = (Throw (Error "No authorization code received"), s1)
              /\ secureStore s1 !! TOKENS = secureStore s !! TOKENS)
          /\ (forall code verifier response,
              URL_searchParams_get p (default EmptyString (result_url result)) "code"
                = Ret (Some code) ->
              Js.truthy code = true ->
              getItem_rejects p CODE_VERIFIER = None ->
              secureStore s1 !! CODE_VERIFIER = Some verifier -> Js.truthy verifier = true ->
              fetch_response p (ScalekitAuth.token_request svc code verifier) = Ret response ->
              response_ok response = false ->
              ScalekitProvider.login_try p svc options now s
                = (Throw (Error ("Token exchange failed: " +:+ response_text response)),
                   with_request (ScalekitAuth.token_request svc code verifier) s1)
              /\ secureStore s1 !! TOKENS = secureStore s !! TOKENS)
          /\ (forall code e s2,
              URL_searchParams_get p (default EmptyString (result_url result)) "code"
                = Ret (Some code) ->
              Js.truthy code = true ->
              ScalekitAuth.exchangeCodeForTokens p svc code now s1 = (Throw e, s2) ->
              ScalekitProvider.login_try p svc options now s = (Throw e, s2))
          /\ (forall code t s2,
              URL_searchParams_get p (default EmptyString (result_url result)) "code"
                = Ret (Some code) ->
              Js.truthy code = true ->
              ScalekitAuth.exchangeCodeForTokens p svc code now s1 = (Ret t, s2) ->
              Js.truthy_opt (idToken t) = false ->
              ScalekitProvider.login_try p svc options now s
                = (Throw (Error "No id_token received from Scalekit"), s2)
              /\ secureStore s2 !! TOKENS = Some (Json.stringify (tokens_to_json t)))
          /\ (forall code t s2 idt e,
              URL_searchParams_get p (default EmptyString (result_url result)) "code"
                = Ret (Some code) ->
              Js.truthy code = true ->
              ScalekitAuth.exchangeCodeForTokens p svc code now s1 = (Ret t, s2) ->
              idToken t = Some idt -> Js.truthy idt = true ->
              ScalekitAuth.decodeIdToken idt = Throw e ->
              ScalekitProvider.login_try p svc options now s = (Throw MalformedToken, s2)
              /\ secureStore s2 !! TOKENS = Some (Json.stringify (tokens_to_json t)))).
Proof.
  intros p svc options now s. split.
  - intros e s1 Htry.
    pose proof (login_try_frame p svc options now s _ _ Htry) as Hkr.
    split; [|split; [|split; [|split; [|split]]]].
    + unfold ScalekitProvider.login, try_catch. by rewrite Htry.
    + reflexivity.
    + by apply (kept_or_renewed_present now).
    + exact Hkr.
    + by apply (kept_when_no_request now).
    + intros Hsame p' now' t Hget (v & (blob & Hb & Hp) & Hv) Hlt.
      apply getAccessToken_fresh; try done.
      exists v. split; [|done]. exists blob. split; [|done].
      cbn [secureStore with_authState login_failed]. by rewrite Hsame.
  - intros result s1 Hlogin Htype Hurl.
    pose proof (login_try_after_browser p svc options now s result s1 Hlogin) as Hrun.
    rewrite Htype, Hurl in Hrun.
    change (("success" =? "success")%string && true) with true in Hrun. cbv iota in Hrun.
    destruct (service_login_frame p svc options _ _ _ Hlogin) as (_ & Hr & Hk).
    assert (Ht1 : secureStore s1 !! TOKENS = secureStore s !! TOKENS) by (by apply Hk).
    split; [|split; [|split; [|split]]].
    + intros code Hcode Hfalsy. rewrite Hrun, Hcode, Hfalsy. by split.
    + intros code verifier response Hcode Htruthy Hget Hv Hvt Hfetch Hok.
      rewrite Hrun, Hcode.
      change (default EmptyString (Some code)) with code.
      change (Js.truthy_opt (Some code)) with (Js.truthy code).
      rewrite Htruthy.
      by rewrite (exchange_refused p svc code now s1 verifier response Hget Hv Hvt Hfetch Hok).
    + intros code e s2 Hcode Htruthy Hex. rewrite Hrun, Hcode.
      change (default EmptyString (Some code)) with code.
      change (Js.truthy_opt (Some code)) with (Js.truthy code).
      by rewrite Htruthy, Hex.
    + intros code t s2 Hcode Htruthy Hex Hid. rewrite Hrun, Hcode.
      change (default EmptyString (Some code)) with code.
      change (Js.truthy_opt (Some code)) with (Js.truthy code).
      rewrite Htruthy, Hex, Hid. split; [reflexivity|].
      by apply (exchange_stored p svc code now s1 t s2).
    + intros code t s2 idt e Hcode Htruthy Hex Hid Hidt Hdec. rewrite Hrun, Hcode.
      change (default EmptyString (Some code)) with code.
      change (Js.truthy_opt (Some code)) with (Js.truthy code).
      rewrite Htruthy, Hex, Hid.
      change (default EmptyString (Some idt)) with idt.
      change (Js.truthy_opt (Some idt)) with (Js.truthy idt).
      rewrite Hidt. cbn [negb].
      unfold ScalekitAuth.getUserInfo. rewrite try_rethrow. unfold bind, lift.
      rewrite Hdec.
      destruct (decodeIdToken_error idt e Hdec).
      split; [reflexivity|]. by apply (exchange_stored p svc code now s1 t s2).
Qed.

(** A callback without a code while the session of the scenario is stored:
    the state is reset, and the old access token is still returned. *)
Lemma login_failure_store_witness :
  ScalekitProvider.login
      (Scenario.platform None (Scenario.callback "") None Scenario.no_response)
      Scenario.service None Scenario.now Scenario.signed_in
    = (Ret tt,
       login_failed (Error "No authorization code received")
         (Scenario.after_browser Scenario.signed_in))
  /\ isAuthenticated
       (authState
          (login_failed (Error "No authorization code received")
             (Scenario.after_browser Scenario.signed_in))) = false
  /\ ScalekitProvider.getAccessToken Scenario.quiet Scenario.now
       (login_failed (Error "No authorization code received")
          (Scenario.after_browser Scenario.signed_in))
     = (Ret (Some "old-access-token"),
        login_failed (Error "No authorization code received")
          (Scenario.after_browser Scenario.signed_in)).
Proof.
  destruct (login_failure_store
              (Scenario.platform None (Scenario.callback "") None Scenario.no_response)
              Scenario.service None Scenario.now Scenario.signed_in) as [HA HB].
  destruct (HB (Scenario.callback "") (Scenario.after_browser Scenario.signed_in))
    as (Hcode & _); [vm_compute; reflexivity | reflexivity | reflexivity |].
  destruct (Hcode None) as (Htry & Hsame); [reflexivity | reflexivity |].
  destruct (HA _ _ Htry) as (Hlogin & _ & _ & _ & _ & Hacc).
  split; [exact Hlogin|]. split; [reflexivity|].
  apply (Hacc Hsame Scenario.quiet Scenario.now Scenario.old_tokens);
    [reflexivity | apply holds_serialised; reflexivity | reflexivity].
Defined.

(** ** The state of the provider over a sequence of calls *)

Lemma state_update_consistent a a' :
  state_update a a' -> session_consistent a -> session_consistent a'.
Proof.
  unfold session_consistent.
  intros [-> | [(l & e & ->) | [(u & t & ->) | [(e & ->) | (u & Ht & ->)]]]] H; simpl; try done.
  destruct (isAuthenticated a); [done|]. destruct H as [H _]. rewrite H in Ht.
  by destruct Ht.
Qed.

Lemma getAccessToken_state p now s :
  authState (ScalekitProvider.getAccessToken p now s).2 = authState s.
Proof.
  unfold ScalekitProvider.getAccessToken, bind. rewrite getStoredTokens_run.
  repeat case_match; reflexivity.
Qed.

Lemma logout_state p s :
  authState (ScalekitProvider.logout p s).2
  = if deletes_resolve p then ScalekitProvider.unauthenticated None
    else ScalekitProvider.with_loading_error false (Some "Failed to logout") (authState s).
Proof.
  unfold ScalekitProvider.logout, ScalekitProvider.logout_try, try_catch, bind, setAuthState.
  destruct (service_logout_run p (with_authState (ScalekitProvider.with_loading true (authState s)) s))
    as (r & -> & Hok & Hko).
  destruct (deletes_resolve p).
  - by rewrite (Hok eq_refl).
  - by destruct (Hko eq_refl) as (e & ->).
Qed.

Lemma service_logout_state p s : authState (ScalekitAuth.logout p s).2 = authState s.
Proof. by destruct (service_logout_run p s) as (r & -> & _). Qed.

Lemma initAuth_state p now s :
  state_update (authState s) (authState (ScalekitProvider.initAuth p now s).2).
Proof.
  unfold ScalekitProvider.initAuth, try_catch, ScalekitProvider.initAuth_try, bind at 1.
  rewrite getStoredTokens_run.
  destruct (match getItem_rejects p TOKENS with Some _ => _ | None => _ end)
    as [storedTokens| |]; [| right; right; right; left; by eexists | by left].
  unfold bind at 1. rewrite getStoredUserInfo_run.
  destruct (match getItem_rejects p USER_INFO with Some _ => _ | None => _ end)
    as [storedUser| |]; [| right; right; right; left; by eexists | by left].
  destruct storedTokens as [t|]; [|right; right; right; left; by eexists].
  destruct (ScalekitProvider.valid_session now (Some t) storedUser).
  { right; right; left. by do 2 eexists. }
  unfold bind. pose proof (service_logout_state p s) as Hs.
  destruct (ScalekitAuth.logout p s) as [[[]| |] s1]; simpl in *.
  - right; right; right; left; by eexists.
  - right; right; right; left; by eexists.
  - by left.
Qed.

Lemma login_state p svc options now s :
  state_update (authState s) (authState (ScalekitProvider.login p svc options now s).2).
Proof.
  assert (Hl : forall s1, authState s1 = authState (logging_in s) ->
            state_update (authState s) (authState s1)).
  { intros s1 ->. right; left. by do 2 eexists. }
  assert (Hu : forall e s1,
            state_update (authState s)
              (authState (with_authState (ScalekitProvider.unauthenticated e) s1))).
  { intros e s1. right; right; right; left. by eexists. }
  unfold ScalekitProvider.login, try_catch, setAuthState.
  destruct (ScalekitAuth.login p svc options (logging_in s)) as [r s1] eqn:E.
  destruct (service_login_frame p svc options _ r s1 E) as (Ha & _ & _).
  destruct r as [result|e|]; cycle 1.
  { rewrite (login_try_service_failure p svc options now s _ s1 E) by done. apply Hu. }
  { rewrite (login_try_service_failure p svc options now s _ s1 E) by done. by apply Hl. }
  rewrite (login_try_after_browser p svc options now s result s1 E).
  destruct (String.eqb (result_type result) "success" && Js.truthy_opt (result_url result)).
  - destruct (URL_searchParams_get p _ "code") as [code|e|]; [|apply Hu|by apply Hl].
    destruct (negb (Js.truthy_opt code)); [apply Hu|].
    destruct (ScalekitAuth.exchangeCodeForTokens p svc _ now s1) as [r2 s2] eqn:E2.
    destruct (exchange_frame p svc _ now s1 r2 s2 E2) as [Ha2 _].
    destruct r2 as [t|e|]; [|apply Hu|apply Hl; cbn [snd]; congruence].
    destruct (negb (Js.truthy_opt (idToken t))); [apply Hu|].
    destruct (ScalekitAuth.getUserInfo p _ s2) as [r3 s3] eqn:E3.
    destruct (getUserInfo_frame p _ s2 r3 s3 E3) as (Ha3 & _ & _).
    destruct r3 as [u|e|]; [|apply Hu|apply Hl; cbn [snd]; congruence].
    right; right; left. by do 2 eexists.
  - destruct (String.eqb (result_type result) "dismiss" || String.eqb (result_type result) "cancel");
      [|apply Hu].
    right; left. exists false, None. cbn [authState with_authState]. by rewrite Ha.
Qed.

Lemma getUserInfo_run p tok s :
  ScalekitAuth.getUserInfo p tok s =
    match ScalekitAuth.decodeIdToken tok with
    | Ret u =>
        match setItem_rejects p USER_INFO (Json.stringify u) with
        | None => (Ret u, with_secureStore (<[USER_INFO := Json.stringify u]> (secureStore s)) s)
        | Some e => (Throw e, s)
        end
    | Throw e => (Throw e, s)
    | Unmodelled => (Unmodelled, s)
    end.
Proof.
  unfold ScalekitAuth.getUserInfo. rewrite try_rethrow.
  unfold bind, lift, ret, ScalekitAuth.SecureStore_setItemAsync.
  destruct (ScalekitAuth.decodeIdToken tok) as [u| |]; try reflexivity.
  by destruct (setItem_rejects p USER_INFO _).
Qed.

(** [refreshUser], step by step. *)
Lemma refreshUser_run p s :
  ScalekitProvider.refreshUser p s =
    match tokens (authState s) ≫= idToken with
    | Some tok =>
        if Js.truthy tok then
          match ScalekitAuth.decodeIdToken tok with
          | Ret u =>
              match setItem_rejects p USER_INFO (Json.stringify u) with
              | None =>
                  (Ret tt,
                   with_authState (ScalekitProvider.with_user u (authState s))
                     (with_secureStore (<[USER_INFO := Json.stringify u]> (secureStore s)) s))
              | Some e => (Throw e, s)
              end
          | Throw e => (Throw e, s)
          | Unmodelled => (Unmodelled, s)
          end
        else (Throw (Error "No active session"), s)
    | None => (Throw (Error "No active session"), s)
    end.
Proof.
  unfold ScalekitProvider.refreshUser.
  destruct (tokens (authState s)) as [t|]; [|reflexivity]. simpl.
  destruct (idToken t) as [tok|]; [|reflexivity]. simpl.
  destruct (Js.truthy tok); [|reflexivity]. simpl.
  rewrite try_rethrow. unfold bind. rewrite getUserInfo_run.
  destruct (ScalekitAuth.decodeIdToken tok) as [u| |]; try reflexivity.
  by destruct (setItem_rejects p USER_INFO _).
Qed.

Lemma refreshUser_state p s :
  state_update (authState s) (authState (ScalekitProvider.refreshUser p s).2).
Proof.
  rewrite refreshUser_run.
  destruct (tokens (authState s)) as [t|] eqn:Ht; [|by left]. simpl.
  destruct (idToken t) as [tok|]; [|by left].
  destruct (Js.truthy tok); [|by left].
  destruct (ScalekitAuth.decodeIdToken tok) as [u| |]; [|by left..].
  destruct (setItem_rejects p USER_INFO _); [by left|].
  do 4 right. exists u. split; [by rewrite Ht|reflexivity].
Qed.

Lemma provider_step_state s s' :
  provider_step s s' -> state_update (authState s) (authState s').
Proof.
  intros [p now r H _|p svc options now r H _|p r H _|p r H _|p now r H _];
    apply (f_equal snd) in H; cbn [snd] in H; rewrite <- H.
  - apply initAuth_state.
  - apply login_state.
  - rewrite logout_state. destruct (deletes_resolve p).
    + right; right; right; left. by eexists.
    + right; left. by do 2 eexists.
  - apply refreshUser_state.
  - left. apply getAccessToken_state.
Qed.

(** X1: in every state that the provider reaches from a consistent one by
    any sequence of calls of [initAuth], [login], [logout], [refreshUser]
    and [getAccessToken] within the embedding, whatever the collaborators
    answer at each call, [isAuthenticated] is true exactly when the state
    has tokens, and a state that is not authenticated has no user.  The
    state in which the provider mounts is consistent. *)
Theorem session_consistent_invariant :
  forall s0 s : System,
    session_consistent (authState s0) -> rtc provider_step s0 s ->
    session_consistent (authState s)
    /\ (isAuthenticated (authState s) = true <-> is_Some (tokens (authState s)))
    /\ (isAuthenticated (authState s) = false -> user (authState s) = JNull).
Proof.
  intros s0 s H0 Hsteps.
  assert (H : session_consistent (authState s)).
  { induction Hsteps as [|s0 s1 s Hstep _ IH]; [done|].
    apply IH. eapply state_update_consistent; [by apply provider_step_state | done]. }
  split; [done|]. unfold session_consistent in H.
  destruct (isAuthenticated (authState s)).
  - split; [done|]. intros [=].
  - destruct H as [Ht Hu]. rewrite Ht. split; [|done].
    split; [intros [=] | by intros [x [=]]].
Qed.

(** A mount on an empty store, the restore and a logout. *)
Lemma session_consistent_invariant_witness :
  session_consistent ScalekitProvider.initialAuthState
  /\ session_consistent
       (authState
          (ScalekitProvider.logout Scenario.quiet
             (ScalekitProvider.initAuth Scenario.quiet Scenario.now (Scenario.mounting ∅)).2).2).
Proof.
  split; [by split|].
  apply (session_consistent_invariant (Scenario.mounting ∅)); [by split|].
  eapply rtc_l.
  - by apply (step_initAuth _ _ Scenario.quiet Scenario.now (Ret tt)).
  - apply rtc_once. by apply (step_logout _ _ Scenario.quiet (Ret tt)).
Defined.

(** X2: [refreshUser] throws [No active session], and touches nothing, when
    the state has no tokens or its tokens have no ID token.  Whatever it
    does, it leaves the flags, the tokens and the error of the state, the
    network log and every key of the store but the user's as they were; a
    call that throws leaves the whole system as it was; a call
    that returns has decoded the ID token of the state into the new user
    and stored its serialised form; and the only errors it throws are this
    one, that of the decoder, and a rejection of the store's write. *)
Theorem refreshUser_outcome :
  forall (p : Platform) (s : System),
    (Js.truthy_opt (tokens (authState s) ≫= idToken) = false ->
       ScalekitProvider.refreshUser p s = (Throw (Error "No active session"), s))
    /\ (forall r s1,
          ScalekitProvider.refreshUser p s = (r, s1) -> r <> Unmodelled ->
          isLoading (authState s1) = isLoading (authState s)
          /\ isAuthenticated (authState s1) = isAuthenticated (authState s)
          /\ tokens (authState s1) = tokens (authState s)
          /\ error (authState s1) = error (authState s)
          /\ requests s1 = requests s
          /\ (forall key, key <> USER_INFO -> secureStore s1 !! key = secureStore s !! key)
          /\ (r <> Ret tt -> s1 = s)
          /\ (r = Ret tt ->
              exists tok,
                tokens (authState s) ≫= idToken = Some tok
                /\ ScalekitAuth.decodeIdToken tok = Ret (user (authState s1))
                /\ secureStore s1 !! USER_INFO = Some (Json.stringify (user (authState s1))))
          /\ (forall e, r = Throw e ->
                e = Error "No active session" \/ e = MalformedToken
                \/ exists blob, setItem_rejects p USER_INFO blob = Some e)).
Proof.
  intros p s. split.
  - intros H. rewrite refreshUser_run.
    destruct (tokens (authState s) ≫= idToken) as [tok|]; [|reflexivity].
    simpl in H. by rewrite H.
  - intros r s1. rewrite refreshUser_run.
    destruct (tokens (authState s) ≫= idToken) as [tok|];
      [|intros [= <- <-] _; repeat split; try done; intros e [= <-]; by left].
    destruct (Js.truthy tok);
      [|intros [= <- <-] _; repeat split; try done; intros e [= <-]; by left].
    destruct (ScalekitAuth.decodeIdToken tok) as [u|e|] eqn:D; cycle 1.
    { intros [= <- <-] _; repeat split; try done. intros e' [= <-]. right; left.
      by apply (decodeIdToken_error tok). }
    { intros [= <- <-] Hr. by destruct Hr. }
    destruct (setItem_rejects p USER_INFO (Json.stringify u)) as [e|] eqn:W.
    { intros [= <- <-] _; repeat split; try done. intros e' [= <-]. right; right. by eexists. }
    intros [= <- <-] _. cbn [authState secureStore requests with_authState with_secureStore].
    split; [done|]. split; [done|]. split; [done|]. split; [done|]. split; [done|].
    split; [intros key Hk; by rewrite lookup_insert_ne|]. split; [done|].
    split; [|done]. intros _. exists tok. split; [done|]. split; [done|].
    apply lookup_insert_eq.
Qed.

(** The signed-in provider of the scenario refreshes its user; a signed-out
    one is refused. *)
Lemma refreshUser_outcome_witness :
  ScalekitProvider.refreshUser Scenario.quiet (Scenario.mounting ∅)
    = (Throw (Error "No active session"), Scenario.mounting ∅)
  /\ exists s1,
       ScalekitProvider.refreshUser Scenario.quiet Scenario.signed_in = (Ret tt, s1)
       /\ tokens (authState s1) = Some Scenario.old_tokens
       /\ ScalekitAuth.decodeIdToken Scenario.jwt = Ret (user (authState s1)).
Proof.
  destruct (refreshUser_outcome Scenario.quiet (Scenario.mounting ∅)) as [Hnone _].
  split; [by apply Hnone|].
  destruct (refreshUser_outcome Scenario.quiet Scenario.signed_in) as [_ Hrun].
  eexists. split; [reflexivity|].
  destruct (Hrun _ _ eq_refl) as (_ & _ & Ht & _ & _ & _ & _ & Hret & _); [done|].
  split; [exact Ht|]. destruct (Hret eq_refl) as (tok & [= <-] & Hd & _). exact Hd.
Defined.

(** ** The authorization URL *)

Lemma optional_param_lookup (k name : string) (o : option string) (params : gmap string string) :
  match o with
  | Some v => if Js.truthy v then <[name := v]> params else params
  | None => params
  end !! k
  = if String.eqb k name then
      match truthy_option o with Some v => Some v | None => params !! k end
    else params !! k.
Proof.
  unfold truthy_option.
  destruct (String.eqb_spec k name) as [->|Hk].
  - destruct o as [v|]; [|done]. destruct (Js.truthy v); [|done]. apply lookup_insert_eq.
  - destruct o as [v|]; [|done]. destruct (Js.truthy v); [|done]. by rewrite lookup_insert_ne.
Qed.

Lemma standard_param_lookup svc options codeChallenge k :
  extra_param options k = None ->
  ScalekitAuth.authorization_params svc options codeChallenge !! k
  = standard_param svc options codeChallenge k.
Proof.
  intros Hextra. unfold ScalekitAuth.authorization_params. unfold extra_param in Hextra.
  set (base := list_to_map _).
  assert (Hstd :
    match options ≫= connectionId with
    | Some c =>
        if Js.truthy c
        then <["connection_id" := c]>
               match options ≫= organizationId with
               | Some o => if Js.truthy o then <["organization_id" := o]> base else base
               | None => base
               end
        else match options ≫= organizationId with
             | Some o => if Js.truthy o then <["organization_id" := o]> base else base
             | None => base
             end
    | None => match options ≫= organizationId with
              | Some o => if Js.truthy o then <["organization_id" := o]> base else base
              | None => base
              end
    end !! k = standard_param svc options codeChallenge k).
  { rewrite optional_param_lookup, optional_param_lookup. unfold standard_param, base.
    simpl list_to_map.
    repeat match goal with
           | |- context [String.eqb k ?c] =>
               destruct (String.eqb_spec k c) as [->|?]; [vm_compute; by repeat case_match|]
           end.
    cbv iota. rewrite !lookup_insert_ne by done. apply lookup_empty. }
  destruct (options ≫= extraParams) as [extra|]; [|exact Hstd].
  rewrite lookup_union_r by done. exact Hstd.
Qed.

(** X3: every parameter of the authorization URL is the one that
    [extraParams] gives for its name, when it gives one, and otherwise the
    standard one: the client, the redirect URI, the response type [code],
    the scopes joined by spaces, the PKCE challenge and its method [S256],
    the organization and the connection when the options carry a truthy
    one, and nothing under any other name.  So [extraParams] replaces any
    standard parameter of the same name, the challenge included. *)
Theorem authorization_params_lookup :
  forall (svc : ScalekitAuth.t) (options : option ScalekitLoginOptions)
         (codeChallenge k : string),
    ScalekitAuth.authorization_params svc options codeChallenge !! k
    = match extra_param options k with
      | Some v => Some v
      | None => standard_param svc options codeChallenge k
      end.
Proof.
  intros svc options codeChallenge k.
  destruct (extra_param options k) as [v|] eqn:E; [|by apply standard_param_lookup].
  unfold ScalekitAuth.authorization_params. unfold extra_param in E.
  destruct (options ≫= extraParams) as [extra|]; [|discriminate].
  by apply lookup_union_Some_l.
Qed.

(** ** Base64 *)

Ltac lia_div := zify; Z.to_euclidean_division_equations; lia.

Lemma list_ind3 {A : Type} (P : list A -> Prop) :
  P [] -> (forall a, P [a]) -> (forall a b, P [a; b]) ->
  (forall a b c r, P r -> P (a :: b :: c :: r)) ->
  forall l, P l.
Proof.
  intros H0 H1 H2 H3 l.
  assert (H : P l /\ (forall a, P (a :: l)) /\ (forall a b, P (a :: b :: l))).
  { induction l as [|x l (IH0 & IH1 & IH2)]; [by repeat split|].
    split; [apply IH1|]. split; [intros a; apply IH2|]. intros a b. by apply H3. }
  apply H.
Qed.

Lemma encode_shape (l : list N) :
  Base64.encode l = map Base64.alphabet_char (core_sextets l) ++ replicate (padding l) "="%char.
Proof.
  induction l as [|a|a b|a b c r IH] using list_ind3; try reflexivity.
  cbn [Base64.encode core_sextets padding map app]. by rewrite IH.
Qed.

(** The code unit that the decoder of [decodeIdToken] reads for [c]. *)
Lemma alphabet_char_facts n :
  (n < 64)%N ->
  Base64.alphabet_value (Base64.alphabet_char n) = Some n
  /\ Base64.is_ascii_whitespace (Base64.alphabet_char n) = false
  /\ Ascii.eqb (Base64.alphabet_char n) "=" = false
  /\ is_url_safe (url_char (Base64.alphabet_char n)) = true
  /\ Ascii.eqb (url_char (Base64.alphabet_char n)) "=" = false
  /\ (let c1 := if Ascii.eqb (url_char (Base64.alphabet_char n)) "-" then "+"%char
                else url_char (Base64.alphabet_char n) in
      if Ascii.eqb c1 "_" then "/"%char else c1) = Base64.alphabet_char n.
Proof.
  intros H. destruct n as [|p]; [by vm_compute|].
  do 6 (try destruct p as [p|p|]); first [lia | by vm_compute].
Qed.

Lemma core_sextets_bound (l : list N) :
  Forall (fun a => (a < 256)%N) l -> Forall (fun v => (v < 64)%N) (core_sextets l).
Proof.
  induction l as [|a|a b|a b c r IH] using list_ind3; intros H; cbn [core_sextets].
  - constructor.
  - inversion_clear H. repeat constructor; lia_div.
  - inversion_clear H as [|? ? Ha H']. inversion_clear H' as [|? ? Hb _].
    repeat constructor; lia_div.
  - inversion_clear H as [|? ? Ha H']. inversion_clear H' as [|? ? Hb H''].
    inversion_clear H'' as [|? ? Hc Hr].
    repeat (constructor; [lia_div|]). by apply IH.
Qed.

Lemma decode_core_sextets (l : list N) :
  Forall (fun a => (a < 256)%N) l -> Base64.decode (core_sextets l) = map ascii_of_N l.
Proof.
  induction l as [|a|a b|a b c r IH] using list_ind3; intros H;
    cbn [core_sextets Base64.decode map].
  - reflexivity.
  - inversion_clear H. do 2 f_equal. lia_div.
  - inversion_clear H as [|? ? Ha H']. inversion_clear H' as [|? ? Hb _].
    f_equal; [f_equal; lia_div|]. f_equal. f_equal. lia_div.
  - inversion_clear H as [|? ? Ha H']. inversion_clear H' as [|? ? Hb H''].
    inversion_clear H'' as [|? ? Hc Hr]. rewrite (IH Hr).
    f_equal; [f_equal; lia_div|]. f_equal; [f_equal; lia_div|]. f_equal. f_equal. lia_div.
Qed.

Lemma sextets_alphabet (vs : list N) :
  Forall (fun v => (v < 64)%N) vs -> Base64.sextets (map Base64.alphabet_char vs) = Some vs.
Proof.
  induction 1 as [|v vs Hv _ IH]; [reflexivity|].
  cbn [map Base64.sextets]. destruct (alphabet_char_facts v Hv) as [-> _]. by rewrite IH.
Qed.

Lemma code_bound (c : ascii) : (Js.code c < 256)%N.
Proof. apply N_ascii_bounded. Qed.

Lemma codes_bound (s : list ascii) : Forall (fun a => (a < 256)%N) (map Js.code s).
Proof. induction s; constructor; [apply code_bound | done]. Qed.

Lemma codes_chars (s : list ascii) : map ascii_of_N (map Js.code s) = s.
Proof.
  induction s as [|c s IH]; [reflexivity|]. cbn [map]. rewrite IH. f_equal.
  apply ascii_N_embedding.
Qed.

Lemma length_core_sextets (l : list N) :
  (List.length (core_sextets l) = (4 * List.length l + 2) / 3)%nat.
Proof.
  induction l as [|a|a b|a b c r IH] using list_ind3; try reflexivity.
  cbn [core_sextets List.length]. rewrite IH. lia_div.
Qed.

Lemma padding_of_length (l : list N) :
  Z.to_nat ((4 - Z.of_nat (List.length (core_sextets l)) mod 4) mod 4) = padding l.
Proof.
  induction l as [|a|a b|a b c r IH] using list_ind3; try reflexivity.
  cbn [core_sextets padding List.length]. rewrite <- IH. lia_div.
Qed.

Lemma padding_le (l : list N) : (padding l <= 2)%nat.
Proof. induction l using list_ind3; simpl; lia. Qed.

Lemma length_encode_mod (l : list N) :
  (List.length (Base64.encode l) mod 4 = 0)%nat
  /\ (List.length (core_sextets l) mod 4 <> 1)%nat.
Proof.
  induction l as [|a|a b|a b c r [IH1 IH2]] using list_ind3; try (by split).
  cbn [Base64.encode core_sextets List.length]. split; lia_div.
Qed.

Lemma sola_app (a b : list ascii) :
  string_of_list_ascii (a ++ b) = string_of_list_ascii a +:+ string_of_list_ascii b.
Proof. induction a as [|c a IH]; [reflexivity|]. simpl. by rewrite IH. Qed.

Lemma replace_all_chars (a b : ascii) (l : list ascii) :
  Js.replace_all a b (string_of_list_ascii l)
  = string_of_list_ascii (map (fun c => if Ascii.eqb c a then b else c) l).
Proof. induction l as [|c l IH]; [reflexivity|]. simpl. by rewrite IH. Qed.

Lemma repeat_chars (c : ascii) (n : nat) : Js.repeat c n = string_of_list_ascii (replicate n c).
Proof. induction n as [|n IH]; [reflexivity|]. simpl. by rewrite IH. Qed.

Lemma remove_padding (cs : list ascii) (k : nat) :
  Forall (fun c => Ascii.eqb c "=" = false) cs ->
  Js.remove_all "=" (string_of_list_ascii (cs ++ replicate k "="%char)) = string_of_list_ascii cs.
Proof.
  induction 1 as [|c cs Hc _ IH].
  - induction k as [|k IH]; [reflexivity|]. exact IH.
  - cbn [app string_of_list_ascii Js.remove_all]. by rewrite Hc, IH.
Qed.

Lemma js_length_chars (l : list ascii) :
  Js.length (string_of_list_ascii l) = Z.of_nat (List.length l).
Proof.
  unfold Js.length. f_equal. induction l as [|c l IH]; [reflexivity|]. simpl. by rewrite IH.
Qed.

(** The code units of [base64URLEncode(bytes)]. *)
Lemma base64URLEncode_chars (bytes : list Byte.byte) :
  ScalekitAuth.base64URLEncode bytes
  = string_of_list_ascii
      (map url_char (map Base64.alphabet_char (core_sextets (byte_codes bytes)))).
Proof.
  unfold ScalekitAuth.base64URLEncode, Base64.btoa. fold (byte_codes bytes).
  rewrite encode_shape, !replace_all_chars, !map_app.
  pose proof (core_sextets_bound (byte_codes bytes) (codes_bound _)) as Hb.
  set (vs := core_sextets (byte_codes bytes)) in *.
  replace (map (fun c => if Ascii.eqb c "/" then "_"%char else c)
             (map (fun c => if Ascii.eqb c "+" then "-"%char else c)
                (replicate (padding (byte_codes bytes)) "="%char)))
    with (replicate (padding (byte_codes bytes)) "="%char)
    by (induction (padding _) as [|k IH]; [reflexivity | simpl; by rewrite <- IH]).
  replace (map (fun c => if Ascii.eqb c "/" then "_"%char else c)
             (map (fun c => if Ascii.eqb c "+" then "-"%char else c)
                (map Base64.alphabet_char vs)))
    with (map url_char (map Base64.alphabet_char vs)).
  - apply remove_padding. induction Hb as [|v vs' Hv _ IH]; constructor; [|exact IH].
    by destruct (alphabet_char_facts v Hv) as (_ & _ & _ & _ & H & _).
  - rewrite !List.map_map. apply List.map_ext. intros v. unfold url_char.
    by destruct (Ascii.eqb (Base64.alphabet_char v) "+").
Qed.

Lemma filter_all {A : Type} (P : A -> Prop) `{forall x, Decision (P x)} (l : list A) :
  Forall P l -> filter P l = l.
Proof.
  induction 1 as [|x l Hx _ IH]; [reflexivity|]. rewrite filter_cons_True by done. by rewrite IH.
Qed.

Lemma strip_padding_encoded (cs : list ascii) (k : nat) :
  Forall (fun c => Ascii.eqb c "=" = false) cs -> (k <= 2)%nat ->
  Base64.strip_padding (cs ++ replicate k "="%char) = cs.
Proof.
  intros Hcs Hk. unfold Base64.strip_padding. rewrite rev_app_distr.
  assert (Hlast : forall p r, rev cs = p :: r -> Ascii.eqb p "=" = false).
  { intros p r E. rewrite List.Forall_forall in Hcs. apply Hcs, (proj2 (in_rev cs p)).
    rewrite E. by left. }
  destruct k as [|[|[|k]]]; [| | |lia]; cbn [replicate rev app].
  - rewrite List.app_nil_r. destruct (rev cs) as [|p [|q r]] eqn:E; [done| |].
    + by rewrite (Hlast p [] eq_refl).
    + by rewrite (Hlast p (q :: r) eq_refl).
  - destruct (rev cs) as [|q r] eqn:E.
    + apply (f_equal (@rev ascii)) in E. rewrite rev_involutive in E. by rewrite E.
    + cbn [Ascii.eqb Bool.eqb]. rewrite (Hlast q r eq_refl).
      change (rev (q :: r) = cs). rewrite <- E. apply rev_involutive.
  - cbn [Ascii.eqb Bool.eqb]. apply rev_involutive.
Qed.

Lemma alphabet_not_padding (vs : list N) :
  Forall (fun v => (v < 64)%N) vs ->
  Forall (fun c => Ascii.eqb c "=" = false) (map Base64.alphabet_char vs).
Proof.
  induction 1 as [|v vs Hv _ IH]; constructor; [|exact IH].
  by destruct (alphabet_char_facts v Hv) as (_ & _ & H & _).
Qed.

Lemma encoded_no_whitespace (l : list N) :
  Forall (fun a => (a < 256)%N) l ->
  Forall (fun c => negb (Base64.is_ascii_whitespace c)) (Base64.encode l).
Proof.
  intros Hl. rewrite encode_shape. apply Forall_app. split.
  - pose proof (core_sextets_bound l Hl) as Hb.
    induction Hb as [|v vs Hv _ IH]; constructor; [|exact IH].
    destruct (alphabet_char_facts v Hv) as (_ & H & _). by rewrite H.
  - induction (padding l) as [|k IH]; constructor; [done | exact IH].
Qed.

(** [atob] reads back what [btoa] wrote. *)
Lemma atob_btoa (binary : string) : Base64.atob (Base64.btoa binary) = Ret binary.
Proof.
  unfold Base64.atob, Base64.btoa. rewrite list_ascii_of_string_of_list_ascii.
  set (l := map Js.code (list_ascii_of_string binary)).
  assert (Hl : Forall (fun a => (a < 256)%N) l) by apply codes_bound.
  rewrite (filter_all _ _ (encoded_no_whitespace l Hl)).
  destruct (length_encode_mod l) as [H0 H1]. rewrite H0. cbn [Nat.eqb].
  rewrite encode_shape,
    (strip_padding_encoded _ _ (alphabet_not_padding _ (core_sextets_bound l Hl)) (padding_le l)).
  rewrite length_map. destruct (Nat.eqb_spec (List.length (core_sextets l) mod 4) 1); [done|].
  rewrite (sextets_alphabet _ (core_sextets_bound l Hl)), (decode_core_sextets l Hl).
  unfold l. by rewrite codes_chars, string_of_list_ascii_of_string.
Qed.

(** The padding and the two replacements of [decodeIdToken] turn the
    base64url form back into what [btoa] wrote. *)
Lemma repadded_payload (bytes : list Byte.byte) :
  let payload := ScalekitAuth.base64URLEncode bytes in
  Js.replace_all "_" "/"
    (Js.replace_all "-" "+"
       (payload +:+ Js.repeat "=" (Z.to_nat ((4 - (Js.length payload mod 4)) mod 4))))
  = Base64.btoa (string_of_list_byte bytes).
Proof.
  cbv zeta. rewrite base64URLEncode_chars, js_length_chars, !length_map, padding_of_length.
  rewrite repeat_chars, <- sola_app, !replace_all_chars, !map_app.
  unfold Base64.btoa. fold (byte_codes bytes). rewrite encode_shape. f_equal. f_equal.
  - pose proof (core_sextets_bound (byte_codes bytes) (codes_bound _)) as Hb.
    induction Hb as [|v vs Hv _ IH]; [reflexivity|]. cbn [map]. rewrite IH. f_equal.
    by destruct (alphabet_char_facts v Hv) as (_ & _ & _ & _ & _ & H).
  - induction (padding _) as [|k IH]; [reflexivity|]. cbn [replicate map]. by rewrite IH.
Qed.

Lemma decode_payload_encoded (bytes : list Byte.byte) :
  decode_payload (ScalekitAuth.base64URLEncode bytes) = Json.parse (string_of_list_byte bytes).
Proof.
  unfold decode_payload. by rewrite (repadded_payload bytes), atob_btoa.
Qed.

Lemma url_safe_no_dot (l : list ascii) :
  forallb is_url_safe l = true -> no_dot (string_of_list_ascii l) = true.
Proof.
  induction l as [|c l IH]; [done|]. cbn [forallb string_of_list_ascii no_dot].
  intros [Hc Hl]%andb_prop. rewrite (IH Hl), andb_true_r.
  destruct (Ascii.eqb_spec c ".") as [->|]; [discriminate Hc | reflexivity].
Qed.

Lemma base64URLEncode_safe (bytes : list Byte.byte) :
  forallb is_url_safe (list_ascii_of_string (ScalekitAuth.base64URLEncode bytes)) = true.
Proof.
  rewrite base64URLEncode_chars, list_ascii_of_string_of_list_ascii.
  pose proof (core_sextets_bound (byte_codes bytes) (codes_bound _)) as Hb.
  induction Hb as [|v vs Hv _ IH]; [reflexivity|]. cbn [map forallb]. rewrite IH, andb_true_r.
  by destruct (alphabet_char_facts v Hv) as (_ & _ & _ & H & _).
Qed.

Lemma length_byte_codes (bytes : list Byte.byte) :
  List.length (byte_codes bytes) = List.length bytes.
Proof.
  unfold byte_codes, string_of_list_byte.
  by rewrite list_ascii_of_string_of_list_ascii, !length_map.
Qed.

Lemma base64URLEncode_length (bytes : list Byte.byte) :
  Js.length (ScalekitAuth.base64URLEncode bytes) = (4 * Z.of_nat (List.length bytes) + 2) / 3.
Proof.
  rewrite base64URLEncode_chars, js_length_chars, !length_map, length_core_sextets,
    length_byte_codes.
  lia_div.
Qed.

Lemma base64URLEncode_truthy (bytes : list Byte.byte) :
  bytes <> [] -> Js.truthy (ScalekitAuth.base64URLEncode bytes) = true.
Proof.
  intros H. pose proof (base64URLEncode_length bytes) as Hlen.
  destruct (ScalekitAuth.base64URLEncode bytes); [|reflexivity].
  destruct bytes; [done|]. unfold Js.length in Hlen. simpl in Hlen. lia_div.
Qed.

(** X4: [base64URLEncode] writes only letters, digits, [-] and [_], so
    its result has no dot, no [+], [/] or [=]; of [n] bytes it makes
    [(4n + 2) / 3] code units rounded down, which is 43 for the 32 random
    bytes of the PKCE verifier; and its result is empty, hence falsy, only
    for no bytes at all. *)
Theorem base64URLEncode_alphabet :
  forall bytes : list Byte.byte,
    forallb is_url_safe (list_ascii_of_string (ScalekitAuth.base64URLEncode bytes)) = true
    /\ no_dot (ScalekitAuth.base64URLEncode bytes) = true
    /\ Js.length (ScalekitAuth.base64URLEncode bytes)
       = (4 * Z.of_nat (List.length bytes) + 2) / 3
    /\ (List.length bytes = 32%nat -> Js.length (ScalekitAuth.base64URLEncode bytes) = 43)
    /\ (Js.truthy (ScalekitAuth.base64URLEncode bytes) = true <-> bytes <> []).
Proof.
  intros bytes. split; [apply base64URLEncode_safe|]. split.
  { rewrite <- (string_of_list_ascii_of_string (ScalekitAuth.base64URLEncode bytes)).
    apply url_safe_no_dot, base64URLEncode_safe. }
  split; [apply base64URLEncode_length|]. split.
  { intros H. rewrite base64URLEncode_length, H. reflexivity. }
  split; [|apply base64URLEncode_truthy].
  intros H ->. discriminate H.
Qed.

(** X5: the decoding steps of [decodeIdToken] undo [base64URLEncode]:
    re-padding to a multiple of four, putting [+] and [/] back and [atob]
    give the binary string of the bytes again, so the middle segment
    [base64URLEncode(bytes)] is read as [JSON.parse] reads the text of the
    bytes, whatever the header and the signature are; and two byte
    sequences with the same encoding are equal. *)
Theorem base64url_roundtrip :
  forall bytes : list Byte.byte,
    Base64.atob (Base64.btoa (string_of_list_byte bytes)) = Ret (string_of_list_byte bytes)
    /\ decode_payload (ScalekitAuth.base64URLEncode bytes)
       = Json.parse (string_of_list_byte bytes)
    /\ (forall header signature,
          no_dot header = true -> no_dot signature = true ->
          ScalekitAuth.decodeIdToken
            (header +:+ "." +:+ ScalekitAuth.base64URLEncode bytes +:+ "." +:+ signature)
          = match Json.parse (string_of_list_byte bytes) with
            | Throw _ => Throw MalformedToken
            | r => r
            end)
    /\ (forall bytes',
          ScalekitAuth.base64URLEncode bytes = ScalekitAuth.base64URLEncode bytes' ->
          bytes = bytes').
Proof.
  intros bytes. split; [apply atob_btoa|]. split; [apply decode_payload_encoded|]. split.
  - intros header signature Hh Hs. rewrite decodeIdToken_run.
    assert (Hp : no_dot (ScalekitAuth.base64URLEncode bytes) = true).
    { rewrite <- (string_of_list_ascii_of_string (ScalekitAuth.base64URLEncode bytes)).
      apply url_safe_no_dot, base64URLEncode_safe. }
    rewrite (split_segment header _ Hh), (split_segment _ signature Hp), (split_no_dot _ Hs).
    by rewrite decode_payload_encoded.
  - intros bytes' E.
    pose proof (repadded_payload bytes) as H. pose proof (repadded_payload bytes') as H'.
    cbv zeta in H, H'. rewrite E, H' in H.
    apply (f_equal Base64.atob) in H. rewrite !atob_btoa in H. injection H as H.
    rewrite <- (list_byte_of_string_of_list_byte bytes),
      <- (list_byte_of_string_of_list_byte bytes').
    by rewrite H.
Qed.

(** ** The exchange, step by step *)

Section ExchangeRuns.

Variable p : Platform.
Variable svc : ScalekitAuth.t.

Lemma exchange_run code now s :
  ScalekitAuth.exchangeCodeForTokens p svc code now s =
    match getItem_rejects p CODE_VERIFIER with
    | Some e => (Throw e, s)
    | None =>
        match secureStore s !! CODE_VERIFIER with
        | Some verifier =>
            if Js.truthy verifier then
              let s1 := with_request (ScalekitAuth.token_request svc code verifier) s in
              match fetch_response p (ScalekitAuth.token_request svc code verifier) with
              | Ret response =>
                  if response_ok response then
                    match Json.parse (response_text response) with
                    | Ret v =>
                        match as_TokenResponse v with
                        | Some data =>
                            let t := ScalekitAuth.tokens_of_response data now in
                            let blob := Json.stringify (tokens_to_json t) in
                            if Js.is_safe_integer (now + expires_in data * 1000) then
                              match setItem_rejects p TOKENS blob with
                              | None =>
                                  match deleteItem_rejects p CODE_VERIFIER with
                                  | None =>
                                      (Ret t,
                                       with_secureStore
                                         (delete CODE_VERIFIER (<[TOKENS := blob]> (secureStore s)))
                                         s1)
                                  | Some e =>
                                      (Throw e,
                                       with_secureStore (<[TOKENS := blob]> (secureStore s)) s1)
                                  end
                              | Some e => (Throw e, s1)
                              end
                            else (Unmodelled, s1)
                        | None => (Unmodelled, s1)
                        end
                    | Throw e => (Throw e, s1)
                    | Unmodelled => (Unmodelled, s1)
                    end
                  else (Throw (Error ("Token exchange failed: " +:+ response_text response)), s1)
              | Throw e => (Throw e, s1)
              | Unmodelled => (Unmodelled, s1)
              end
            else (Throw MissingVerifier, s)
        | None => (Throw MissingVerifier, s)
        end
    end.
Proof.
  unfold ScalekitAuth.exchangeCodeForTokens. rewrite try_rethrow.
  unfold bind at 1, ScalekitAuth.SecureStore_getItemAsync.
  destruct (getItem_rejects p CODE_VERIFIER); [reflexivity|].
  destruct (secureStore s !! CODE_VERIFIER) as [verifier|]; [|reflexivity].
  destruct (Js.truthy verifier); [|reflexivity]. simpl negb. cbv iota zeta.
  unfold bind at 1, ScalekitAuth.fetch.
  destruct (fetch_response p _) as [response| |]; [|reflexivity..].
  destruct (response_ok response); [|reflexivity]. simpl negb. cbv iota.
  unfold bind at 1, ScalekitAuth.response_json, bind at 1, lift.
  destruct (Json.parse (response_text response)) as [v| |]; [|reflexivity..].
  destruct (as_TokenResponse v) as [data|]; [|reflexivity]. unfold ret at 1.
  change (expiresAt (ScalekitAuth.tokens_of_response data now))
    with (now + expires_in data * 1000).
  destruct (Js.is_safe_integer (now + expires_in data * 1000)); [|reflexivity].
  simpl negb. cbv iota.
  unfold bind, ScalekitAuth.SecureStore_setItemAsync, ScalekitAuth.SecureStore_deleteItemAsync.
  destruct (setItem_rejects p TOKENS _); [reflexivity|].
  by destruct (deleteItem_rejects p CODE_VERIFIER).
Qed.

(** What a returning exchange has found and done. *)
Lemma exchange_returned code now s t s1 :
  ScalekitAuth.exchangeCodeForTokens p svc code now s = (Ret t, s1) ->
  exists verifier response v data,
    secureStore s !! CODE_VERIFIER = Some verifier /\ Js.truthy verifier = true
    /\ fetch_response p (ScalekitAuth.token_request svc code verifier) = Ret response
    /\ response_ok response = true
    /\ Json.parse (response_text response) = Ret v /\ as_TokenResponse v = Some data
    /\ t = ScalekitAuth.tokens_of_response data now
    /\ Js.is_safe_integer (expiresAt t) = true
    /\ s1 = with_secureStore
              (delete CODE_VERIFIER
                 (<[TOKENS := Json.stringify (tokens_to_json t)]> (secureStore s)))
              (with_request (ScalekitAuth.token_request svc code verifier) s).
Proof.
  rewrite exchange_run. intros H.
  destruct (getItem_rejects p CODE_VERIFIER); [discriminate|].
  destruct (secureStore s !! CODE_VERIFIER) as [verifier|]; [|discriminate].
  destruct (Js.truthy verifier) eqn:Ht; [|discriminate]. cbv zeta in H.
  destruct (fetch_response p _) as [response| |] eqn:Hf; [|discriminate..].
  destruct (response_ok response) eqn:Hok; [|discriminate].
  destruct (Json.parse (response_text response)) as [v| |] eqn:Hp; [|discriminate..].
  destruct (as_TokenResponse v) as [data|] eqn:Hd; [|discriminate].
  destruct (Js.is_safe_integer (now + expires_in data * 1000)) eqn:Hs; [|discriminate].
  destruct (setItem_rejects p TOKENS _); [discriminate|].
  destruct (deleteItem_rejects p CODE_VERIFIER); [discriminate|].
  injection H as <- <-. by exists verifier, response, v, data.
Qed.

(** The record that a returning exchange has stored reads back. *)
Lemma exchange_returned_holds code now s t s1 :
  ScalekitAuth.exchangeCodeForTokens p svc code now s = (Ret t, s1) -> holds_tokens s1 t.
Proof.
  intros H. destruct (exchange_returned _ _ _ _ _ H)
    as (verifier & response & v & data & _ & _ & _ & _ & _ & Hd & Ht & Hs & ->).
  apply holds_serialised; [| exact Hs |].
  - rewrite Ht. exact (as_TokenResponse_safe v data Hd).
  - cbn [secureStore with_secureStore]. rewrite lookup_delete_ne by done.
    apply lookup_insert_eq.
Qed.

End ExchangeRuns.



(** X7: an exchange that throws leaves the state of the provider, the
    verifier and every key of the store other than the tokens key as they
    were.  It has written the tokens key only when the error is the
    rejection of the verifier's deletion, after the record of the answer was
    stored; with a store that accepts this deletion the whole store is as it
    was.  When it has sent no request, the error is the missing verifier or
    the rejection of the store's read. *)
Theorem exchange_failure_store :
  forall (p : Platform) (svc : ScalekitAuth.t) (code : string) (now : Z) (s : System)
         (e : exn) (s1 : System),
    ScalekitAuth.exchangeCodeForTokens p svc code now s = (Throw e, s1) ->
    authState s1 = authState s
    /\ secureStore s1 !! CODE_VERIFIER = secureStore s !! CODE_VERIFIER
    /\ (forall key, key <> TOKENS -> secureStore s1 !! key = secureStore s !! key)
    /\ (deleteItem_rejects p CODE_VERIFIER = None -> secureStore s1 = secureStore s)
    /\ (secureStore s1 <> secureStore s ->
        deleteItem_rejects p CODE_VERIFIER = Some e
        /\ exists data,
             secureStore s1 !! TOKENS
             = Some (Json.stringify (tokens_to_json (ScalekitAuth.tokens_of_response data now))))
    /\ (requests s1 = requests s ->
        e = MissingVerifier \/ getItem_rejects p CODE_VERIFIER = Some e).
Proof.
  intros p svc code now s e s1. rewrite exchange_run. cbv zeta. intros H.
  assert (Hreq : forall q, q :: requests s <> requests s) by (intros q; apply cons_neq).
  repeat case_match; simplify_eq;
    cbn [authState secureStore requests with_secureStore with_request];
    (split; [reflexivity|]); (split; [by rewrite ?lookup_insert_ne|]);
    (split; [by intros key Hk; rewrite ?lookup_insert_ne|]);
    (split; [done|]);
    (split; [| first [ by right | by left | by intros ?%Hreq ]]);
    try (intros Hne; by destruct Hne).
  intros _. split; [done|]. eexists. apply lookup_insert_eq.
Qed.

(** The token endpoint refuses the exchange of the scenario. *)
Lemma exchange_failure_store_witness :
  exists e s1,
    ScalekitAuth.exchangeCodeForTokens Scenario.quiet Scenario.service "abc" Scenario.now
        Scenario.awaiting_callback = (Throw e, s1)
    /\ secureStore s1 = secureStore Scenario.awaiting_callback
    /\ secureStore s1 !! CODE_VERIFIER = Some Scenario.verifier.
Proof.
  do 2 eexists. split; [reflexivity|].
  destruct (exchange_failure_store Scenario.quiet Scenario.service "abc" Scenario.now
              Scenario.awaiting_callback _ _ eq_refl) as (_ & Hv & _ & Hs & _).
  split; [by apply Hs | by rewrite Hv].
Defined.



(** X9: the access token of a returning exchange is served by
    [getAccessToken] exactly until 60 s before [expiresIn] seconds have
    passed since the answer was received: a later call returns [null]; so a
    record whose [expiresIn] is at most 60 is never served, not even at the
    instant of the exchange. *)
Theorem issued_token_lifetime :
  forall (p : Platform) (svc : ScalekitAuth.t) (code : string) (now : Z) (s : System)
         (t : ScalekitTokens) (s1 : System),
    ScalekitAuth.exchangeCodeForTokens p svc code now s = (Ret t, s1) ->
    (forall p' now',
        getItem_rejects p' TOKENS = None ->
        ScalekitProvider.getAccessToken p' now' s1
        = (Ret (if now' - now >=? (expiresIn t - 60) * 1000 then None
                else Some (accessToken t)), s1))
    /\ (expiresIn t <= 60 ->
        forall p' now',
          getItem_rejects p' TOKENS = None -> now <= now' ->
          ScalekitProvider.getAccessToken p' now' s1 = (Ret None, s1)).
Proof.
  intros p svc code now s t s1 H.
  assert (Hrun : forall p' now',
            getItem_rejects p' TOKENS = None ->
            ScalekitProvider.getAccessToken p' now' s1
            = (Ret (if now' - now >=? (expiresIn t - 60) * 1000 then None
                    else Some (accessToken t)), s1)).
  { intros p' now' Hget. unfold ScalekitProvider.getAccessToken, bind.
    rewrite (getStoredTokens_holds p' s1 t Hget (exchange_returned_holds _ _ _ _ _ _ _ H)).
    unfold ScalekitAuth.areTokensExpired.
    destruct (exchange_returned _ _ _ _ _ _ _ H) as (_ & _ & _ & data & _ & _ & _ & _ & _ & _ & -> & _).
    cbn [expiresAt expiresIn accessToken ScalekitAuth.tokens_of_response].
    destruct (now' >=? now + expires_in data * 1000 - 60000) eqn:E1;
      destruct (now' - now >=? (expires_in data - 60) * 1000) eqn:E2; try reflexivity; lia. }
  split; [exact Hrun|].
  intros Hshort p' now' Hget Hlater. rewrite (Hrun p' now' Hget).
  destruct (now' - now >=? (expiresIn t - 60) * 1000) eqn:E; [reflexivity | lia].
Qed.

(** The record issued in the scenario lives 3600 s. *)
Lemma issued_token_lifetime_witness :
  exists s1,
    ScalekitAuth.exchangeCodeForTokens (Scenario.answering Scenario.issued_response)
        Scenario.service "abc" Scenario.now Scenario.awaiting_callback
      = (Ret (ScalekitAuth.tokens_of_response Scenario.issued Scenario.now), s1)
    /\ ScalekitProvider.getAccessToken Scenario.quiet (Scenario.now + 3539999) s1
       = (Ret (Some "new-access-token"), s1)
    /\ ScalekitProvider.getAccessToken Scenario.quiet (Scenario.now + 3540000) s1
       = (Ret None, s1).
Proof.
  eexists. split; [reflexivity|].
  destruct (issued_token_lifetime (Scenario.answering Scenario.issued_response)
              Scenario.service "abc" Scenario.now Scenario.awaiting_callback _ _ eq_refl)
    as [H _].
  split; [exact (H Scenario.quiet (Scenario.now + 3539999) eq_refl)
         | exact (H Scenario.quiet (Scenario.now + 3540000) eq_refl)].
Defined.

(** ** Clearing the store *)

Lemma cleanup_lookup p (m : gmap string string) key :
  cleanup p m !! key
  = if bool_decide (key ∈ [TOKENS; USER_INFO; CODE_VERIFIER])
       && bool_decide (deleteItem_rejects p key = None)
    then None else m !! key.
Proof.
  unfold cleanup, delete_unless_rejected.
  destruct (decide (key = TOKENS)) as [->|H1];
    [|destruct (decide (key = USER_INFO)) as [->|H2];
      [|destruct (decide (key = CODE_VERIFIER)) as [->|H3]]].
  - rewrite bool_decide_eq_true_2 by (rewrite !elem_of_cons; tauto). cbn [andb].
    destruct (deleteItem_rejects p TOKENS), (deleteItem_rejects p USER_INFO),
      (deleteItem_rejects p CODE_VERIFIER); cbn [bool_decide];
      rewrite ?(lookup_delete_ne _ CODE_VERIFIER TOKENS), ?(lookup_delete_ne _ USER_INFO TOKENS),
        ?lookup_delete_eq by done; reflexivity.
  - rewrite bool_decide_eq_true_2 by (rewrite !elem_of_cons; tauto). cbn [andb].
    destruct (deleteItem_rejects p TOKENS), (deleteItem_rejects p USER_INFO),
      (deleteItem_rejects p CODE_VERIFIER); cbn [bool_decide];
      rewrite ?(lookup_delete_ne _ CODE_VERIFIER USER_INFO), ?lookup_delete_eq,
        ?(lookup_delete_ne _ TOKENS USER_INFO) by done; reflexivity.
  - rewrite bool_decide_eq_true_2 by (rewrite !elem_of_cons; tauto). cbn [andb].
    destruct (deleteItem_rejects p TOKENS), (deleteItem_rejects p USER_INFO),
      (deleteItem_rejects p CODE_VERIFIER); cbn [bool_decide];
      rewrite ?lookup_delete_eq, ?(lookup_delete_ne _ USER_INFO CODE_VERIFIER),
        ?(lookup_delete_ne _ TOKENS CODE_VERIFIER) by done; reflexivity.
  - rewrite bool_decide_eq_false_2 by (rewrite !elem_of_cons, elem_of_nil; tauto). cbn [andb].
    destruct (deleteItem_rejects p TOKENS), (deleteItem_rejects p USER_INFO),
      (deleteItem_rejects p CODE_VERIFIER); by rewrite ?lookup_delete_ne.
Qed.

(** X10: [logout] of the service asks for the deletion of the three keys,
    each whether or not another is rejected: afterwards a key of the three
    whose deletion the store accepted is gone, and every other key, the
    state of the provider and the network log are as they were.  It returns
    exactly when no deletion is rejected, and otherwise throws one of the
    rejections. *)
Theorem service_logout_outcome :
  forall (p : Platform) (s : System),
    exists r s',
      ScalekitAuth.logout p s = (r, s')
      /\ (forall key,
            secureStore s' !! key
            = if bool_decide (key ∈ [TOKENS; USER_INFO; CODE_VERIFIER])
                 && bool_decide (deleteItem_rejects p key = None)
              then None else secureStore s !! key)
      /\ authState s' = authState s
      /\ requests s' = requests s
      /\ (r = Ret tt <-> deletes_resolve p = true)
      /\ (forall e, r = Throw e ->
            exists key, key ∈ [TOKENS; USER_INFO; CODE_VERIFIER]
                        /\ deleteItem_rejects p key = Some e)
      /\ r <> Unmodelled.
Proof.
  intros p s. destruct s as [a m rs].
  exists (ScalekitAuth.logout p {| authState := a; secureStore := m; requests := rs |}).1,
    {| authState := a; secureStore := cleanup p m; requests := rs |}.
  split.
  { destruct (service_logout_run p {| authState := a; secureStore := m; requests := rs |})
      as (r & -> & _). reflexivity. }
  split; [intros key; apply cleanup_lookup|]. split; [reflexivity|]. split; [reflexivity|].
  unfold ScalekitAuth.logout, try_catch, ScalekitAuth.rethrow, throw, Promise_all,
    ScalekitAuth.SecureStore_deleteItemAsync, deletes_resolve, ret, forallb.
  destruct (deleteItem_rejects p TOKENS) as [e1|] eqn:E1;
    destruct (deleteItem_rejects p USER_INFO) as [e2|] eqn:E2;
    destruct (deleteItem_rejects p CODE_VERIFIER) as [e3|] eqn:E3; cbn;
    (split; [by split|]); (split; [|done]); intros e [= <-];
    first [ exists TOKENS; split; [rewrite !elem_of_cons; tauto | done]
          | exists USER_INFO; split; [rewrite !elem_of_cons; tauto | done]
          | exists CODE_VERIFIER; split; [rewrite !elem_of_cons; tauto | done] ].
Qed.

(** ** A restore on an incomplete session *)

(** X11: at the mount, a token record without a usable user ends the
    session whatever the clock says: when the user blob is missing, is
    rejected by the store, does not parse, or is a falsy value, [initAuth]
    runs the cleanup, and with a store that accepts the deletions it ends
    unauthenticated without error and without the tokens.  Conversely, when
    the token blob is missing, rejected or does not parse, [initAuth] ends
    unauthenticated without error and leaves the store as it was, a user
    blob included. *)
Theorem initAuth_incomplete_session :
  forall (p : Platform) (now : Z) (s : System),
    (forall t u,
        getItem_rejects p TOKENS = None -> holds_tokens s t ->
        ScalekitAuth.getStoredUserInfo p s = (Ret u, s) -> Json.truthy u = false ->
        ScalekitProvider.initAuth p now s
        = (Ret tt,
           with_authState
             (ScalekitProvider.unauthenticated
                (if deletes_resolve p then None else Some "Failed to initialize authentication"))
             (with_secureStore (cleanup p (secureStore s)) s))
        /\ (deletes_resolve p = true ->
            secureStore (ScalekitProvider.initAuth p now s).2 !! TOKENS = None))
    /\ (secureStore s !! USER_INFO = None
        \/ (exists e, getItem_rejects p USER_INFO = Some e)
        \/ (exists blob e, secureStore s !! USER_INFO = Some blob /\ Json.parse blob = Throw e) ->
        ScalekitAuth.getStoredUserInfo p s = (Ret JNull, s))
    /\ (forall u,
        secureStore s !! TOKENS = None
        \/ (exists e, getItem_rejects p TOKENS = Some e)
        \/ (exists blob e, secureStore s !! TOKENS = Some blob /\ Json.parse blob = Throw e) ->
        ScalekitAuth.getStoredUserInfo p s = (Ret u, s) ->
        ScalekitProvider.initAuth p now s
        = (Ret tt, with_authState (ScalekitProvider.unauthenticated None) s)).
Proof.
  intros p now s. split; [|split].
  - intros t u Hget Ht Hu Hfalsy.
    assert (Hrun := initAuth_cleanup p now s t u (getStoredTokens_holds p s t Hget Ht) Hu).
    rewrite Hrun by (unfold ScalekitProvider.valid_session; by rewrite Hfalsy).
    split; [reflexivity|]. intros Hd. cbn [snd secureStore with_authState with_secureStore].
    rewrite (cleanup_resolved p _ Hd). apply cleared_tokens_lookup.
  - rewrite getStoredUserInfo_run.
    intros [H | [(e & H) | (blob & e & H & Hp)]]; rewrite H; [by case_match|done|].
    case_match; [done|]. rewrite Hp. by case_match.
  - intros u Ht Hu.
    assert (Hnone : ScalekitAuth.getStoredTokens p s = (Ret None, s)).
    { destruct Ht as [H | [(e & H) | (blob & e & H & Hp)]].
      - by apply getStoredTokens_absent.
      - by apply (getStoredTokens_rejected p s e).
      - by apply (getStoredTokens_corrupt p s blob e). }
    unfold ScalekitProvider.initAuth, try_catch.
    by rewrite (initAuth_try_after_reads p now s None u Hnone Hu).
Qed.

(** A store with the tokens of the scenario and no user: the restore clears
    it although the tokens are not expired. *)
Lemma initAuth_incomplete_session_witness :
  ScalekitProvider.initAuth Scenario.quiet Scenario.now
      (Scenario.mounting (<[TOKENS := Json.stringify (tokens_to_json Scenario.old_tokens)]> ∅))
    = (Ret tt,
       with_authState (ScalekitProvider.unauthenticated None)
         (with_secureStore
            (cleanup Scenario.quiet
               (<[TOKENS := Json.stringify (tokens_to_json Scenario.old_tokens)]> ∅))
            (Scenario.mounting
               (<[TOKENS := Json.stringify (tokens_to_json Scenario.old_tokens)]> ∅))))
  /\ ScalekitAuth.areTokensExpired Scenario.now Scenario.old_tokens = false.
Proof.
  split; [|reflexivity].
  destruct (initAuth_incomplete_session Scenario.quiet Scenario.now
              (Scenario.mounting
                 (<[TOKENS := Json.stringify (tokens_to_json Scenario.old_tokens)]> ∅)))
    as (H & _).
  assert (Hheld : holds_tokens
            (Scenario.mounting
               (<[TOKENS := Json.stringify (tokens_to_json Scenario.old_tokens)]> ∅))
            Scenario.old_tokens) by (apply holds_serialised; reflexivity).
  exact (proj1 (H Scenario.old_tokens JNull eq_refl Hheld eq_refl eq_refl)).
Defined.

(** ** The order of the members of an object *)

Lemma parse_digits_all (l : list ascii) : forall acc,
  forallb Js.is_digit l = true ->
  Json.parse_digits l acc
  = (fold_left (fun a d => 10 * a + Js.digit_value d) l acc, []).
Proof.
  induction l as [|c l IH]; intros acc H; [reflexivity|].
  cbn [forallb] in H. apply andb_prop in H as [Hc Hl].
  cbn [Json.parse_digits fold_left]. rewrite Hc. by apply IH.
Qed.

Lemma digits_uint (l : list ascii) :
  forallb Js.is_digit l = true ->
  exists d, l = list_ascii_of_string (NilEmpty.string_of_uint d).
Proof.
  induction l as [|c l IH]; [by exists Decimal.Nil|].
  cbn [forallb]. intros [Hc Hl]%andb_prop. destruct (IH Hl) as [d ->].
  destruct c as [[] [] [] [] [] [] [] []]; try discriminate Hc;
    first [ by exists (Decimal.D0 d) | by exists (Decimal.D1 d) | by exists (Decimal.D2 d)
          | by exists (Decimal.D3 d) | by exists (Decimal.D4 d) | by exists (Decimal.D5 d)
          | by exists (Decimal.D6 d) | by exists (Decimal.D7 d) | by exists (Decimal.D8 d)
          | by exists (Decimal.D9 d) ].
Qed.

Lemma nonzero_digit (c : ascii) :
  Js.is_digit c = true -> Ascii.eqb c "0" = false ->
  exists (pc : positive) (D : Decimal.uint -> Decimal.uint),
    Js.digit_value c = Z.pos pc
    /\ forall d,
         String c (NilEmpty.string_of_uint d) = NilEmpty.string_of_uint (D d)
         /\ Pos.of_uint (D d) = Npos (Pos.of_uint_acc d pc)
         /\ Decimal.unorm (D d) = D d.
Proof.
  intros Hc Hz.
  destruct c as [[] [] [] [] [] [] [] []]; try discriminate Hc; try discriminate Hz;
    first [ by exists 1%positive, Decimal.D1 | by exists 2%positive, Decimal.D2
          | by exists 3%positive, Decimal.D3 | by exists 4%positive, Decimal.D4
          | by exists 5%positive, Decimal.D5 | by exists 6%positive, Decimal.D6
          | by exists 7%positive, Decimal.D7 | by exists 8%positive, Decimal.D8
          | by exists 9%positive, Decimal.D9 ].
Qed.

(** An array index is the numeral that prints its value. *)
Lemma array_index_print (k : string) (i : Z) :
  Json.array_index k = Some i -> k = Js.number_to_string i.
Proof.
  destruct k as [|c r]; [discriminate|]. unfold Json.array_index.
  destruct (forallb Js.is_digit (list_ascii_of_string (String c r))) eqn:Hd; [|discriminate].
  cbn [list_ascii_of_string forallb] in Hd. apply andb_prop in Hd as [Hc Hr].
  destruct (Ascii.eqb c "0") eqn:Hz.
  - destruct r as [|c' r']; [|discriminate]. apply Ascii.eqb_eq in Hz as ->.
    cbn. intros [= <-]. reflexivity.
  - cbn [negb orb andb list_ascii_of_string fold_left].
    destruct (nonzero_digit c Hc Hz) as (pc & D & Hv & HD).
    destruct (digits_uint _ Hr) as [d Hrd].
    replace (10 * 0 + Js.digit_value c) with (Z.pos pc) by lia.
    pose proof (parse_digits_all _ (Z.pos pc) Hr) as Hp.
    rewrite Hrd in Hp at 1.
    rewrite <- (List.app_nil_r (list_ascii_of_string (NilEmpty.string_of_uint d))) in Hp.
    rewrite (parse_digits_uint d pc [] eq_refl) in Hp. injection Hp as Hp. rewrite <- Hp.
    destruct (Z.pos (Pos.of_uint_acc d pc) <=? 4294967294); [|discriminate].
    intros [= <-]. destruct (HD d) as (Hs & Hof & Hn).
    pose proof (DecimalPos.Unsigned.to_of (D d)) as Hto. rewrite Hof, Hn in Hto.
    unfold Js.number_to_string. cbn [Z.to_int NilZero.string_of_int].
    change (N.to_uint (N.pos (Pos.of_uint_acc d pc))) with (Pos.to_uint (Pos.of_uint_acc d pc))
      in Hto.
    rewrite Hto. apply (f_equal string_of_list_ascii) in Hrd.
    rewrite !string_of_list_ascii_of_string in Hrd. rewrite Hrd, Hs.
    destruct (D d) eqn:E; [|reflexivity..].
    specialize (HD d) as (Hs'' & _). rewrite E in Hs''. discriminate Hs''.
Qed.

Lemma array_index_inj (k k' : string) (i : Z) :
  Json.array_index k = Some i -> Json.array_index k' = Some i -> k = k'.
Proof. intros H H'. by rewrite (array_index_print k i H), (array_index_print k' i H'). Qed.

Lemma get_none (k : string) (o : list (string * json)) :
  Json.get k o = None <-> forallb (fun kv => negb (String.eqb k (fst kv))) o = true.
Proof.
  induction o as [|[k' v'] o IH]; [done|]. cbn [Json.get forallb fst].
  destruct (String.eqb k k'); [done|]. by rewrite IH.
Qed.

Lemma key_before_neq (k k' : string) : key_before k k' = true -> String.eqb k' k = false.
Proof.
  unfold key_before. intros [H _]%andb_prop. rewrite String.eqb_sym.
  by destruct (String.eqb k k').
Qed.

Lemma forallb_insert_index (P : string * json -> bool) i k v (o : list (string * json)) :
  forallb P (Json.insert_index i k v o) = P (k, v) && forallb P o.
Proof.
  induction o as [|[k' v'] o IH]; [reflexivity|]. cbn [Json.insert_index].
  destruct (Json.array_index k') as [j|]; [|reflexivity].
  destruct (j <? i); [|reflexivity]. cbn [forallb]. rewrite IH.
  by destruct (P (k', v')), (P (k, v)).
Qed.

Lemma forallb_replace_value (P : string * json -> bool) k v (o : list (string * json)) :
  (forall v', P (k, v') = P (k, v)) ->
  forallb P (Json.replace_value k v o) = forallb P o.
Proof.
  intros HP. induction o as [|[k' v'] o IH]; [reflexivity|]. cbn [Json.replace_value].
  destruct (String.eqb_spec k k') as [<-|]; cbn [forallb]; [by rewrite (HP v') | by rewrite IH].
Qed.

Lemma ordered_replace_value k v (o : list (string * json)) :
  ordered (Json.replace_value k v o) = ordered o.
Proof.
  induction o as [|[k' v'] o IH]; [reflexivity|]. cbn [Json.replace_value].
  destruct (String.eqb_spec k k') as [<-|]; [reflexivity|].
  cbn [ordered fst]. by rewrite IH, forallb_replace_value.
Qed.

Lemma ordered_insert_index i k v (o : list (string * json)) :
  Json.array_index k = Some i -> Json.get k o = None -> ordered o = true ->
  ordered (Json.insert_index i k v o) = true.
Proof.
  intros Hk. induction o as [|[k' v'] o IH]; [reflexivity|].
  cbn [Json.get ordered fst Json.insert_index].
  destruct (String.eqb k k') eqn:Hne; [discriminate|].
  intros Hget [Hall Ho]%andb_prop.
  assert (Hfresh : forallb (fun kv' => key_before k (fst kv')) ((k', v') :: o) = true
                   \/ exists j, Json.array_index k' = Some j /\ j < i).
  { cbn [forallb fst]. unfold key_before at 1. rewrite Hne, Hk. cbn [negb andb].
    destruct (Json.array_index k') as [j|] eqn:Hk'.
    - destruct (Z.ltb_spec j i) as [Hlt|Hge]; [right; by exists j|]. left.
      assert (i <> j) by (intros <-; apply String.eqb_neq in Hne; apply Hne;
                          exact (array_index_inj _ _ _ Hk Hk')).
      apply andb_true_intro. split; [lia|].
      apply forallb_forall. intros [k2 v2] Hin.
      apply get_none in Hget. rewrite forallb_forall in Hget, Hall.
      specialize (Hget _ Hin). specialize (Hall _ Hin). cbn [fst] in *.
      unfold key_before in *. rewrite Hk. rewrite Hk' in Hall.
      destruct (String.eqb k k2); [discriminate|]. cbn [negb andb].
      apply andb_prop in Hall as [_ Hall].
      destruct (Json.array_index k2); [lia | done].
    - left. cbn [andb]. apply forallb_forall. intros [k2 v2] Hin.
      apply get_none in Hget. rewrite forallb_forall in Hget, Hall.
      specialize (Hget _ Hin). specialize (Hall _ Hin). cbn [fst] in *.
      unfold key_before in *. rewrite Hk. rewrite Hk' in Hall.
      destruct (String.eqb k k2); [discriminate|]. cbn [negb andb].
      apply andb_prop in Hall as [_ Hall].
      by destruct (Json.array_index k2). }
  destruct (Json.array_index k') as [j|] eqn:Hk'.
  - destruct (Z.ltb_spec j i) as [Hlt|Hge].
    + cbn [ordered fst]. rewrite forallb_insert_index, Hall, (IH Hget Ho), !andb_true_r.
      cbn [fst]. unfold key_before. rewrite Hk', Hk, String.eqb_sym, Hne. cbn [negb andb]. lia.
    + destruct Hfresh as [Hf | (j' & [= <-] & Hlt)]; [|lia].
      cbn [ordered fst]. by rewrite Hf, Hall, Ho.
  - destruct Hfresh as [Hf | (j' & [=] & _)].
    cbn [ordered fst]. by rewrite Hf, Hall, Ho.
Qed.

Lemma ordered_app (o1 o2 : list (string * json)) :
  ordered (o1 ++ o2)
  = ordered o1 && ordered o2
    && forallb (fun kv => forallb (fun kv' => key_before (fst kv) (fst kv')) o2) o1.
Proof.
  induction o1 as [|kv o1 IH]; [cbn; by rewrite andb_true_r|].
  cbn [app ordered forallb]. rewrite IH, forallb_app.
  repeat match goal with |- context [forallb ?f ?l] => destruct (forallb f l) end;
    repeat match goal with |- context [ordered ?l] => destruct (ordered l) end; reflexivity.
Qed.

(** [o[k] = v] keeps the members in enumeration order. *)
Lemma ordered_set k v (o : list (string * json)) :
  ordered o = true -> ordered (Json.set k v o) = true.
Proof.
  intros Ho. unfold Json.set. destruct (Json.get k o) eqn:Hget.
  - by rewrite ordered_replace_value.
  - destruct (Json.array_index k) as [i|] eqn:Hk; [by apply ordered_insert_index|].
    rewrite ordered_app, Ho. cbn [ordered forallb andb].
    apply forallb_forall. intros [k1 v1] Hin. cbn [forallb fst]. rewrite andb_true_r.
    apply get_none in Hget. rewrite forallb_forall in Hget. specialize (Hget _ Hin).
    cbn [fst] in Hget. unfold key_before. rewrite Hk, String.eqb_sym.
    destruct (String.eqb k k1); [discriminate|]. by destruct (Json.array_index k1).
Qed.

Lemma insert_index_last i k v (o : list (string * json)) :
  Json.array_index k = Some i ->
  forallb (fun kv => key_before (fst kv) k) o = true ->
  Json.insert_index i k v o = o ++ [(k, v)].
Proof.
  intros Hk. induction o as [|[k' v'] o IH]; [reflexivity|].
  cbn [forallb fst Json.insert_index app]. intros [Hb Ho]%andb_prop.
  unfold key_before in Hb. rewrite Hk in Hb. apply andb_prop in Hb as [_ Hb].
  destruct (Json.array_index k') as [j|]; [|discriminate]. rewrite Hb. by rewrite IH.
Qed.

(** Assigning the members of an ordered object in their order rebuilds it. *)
Lemma fold_set_ordered (o2 : list (string * json)) : forall o1,
  ordered (o1 ++ o2) = true ->
  fold_left (fun a kv => Json.set (fst kv) (snd kv) a) o2 o1 = o1 ++ o2.
Proof.
  induction o2 as [|[k v] o2 IH]; intros o1 Ho; [by rewrite List.app_nil_r|].
  cbn [fold_left fst snd].
  assert (Hbefore : forallb (fun kv => key_before (fst kv) k) o1 = true).
  { rewrite ordered_app in Ho. apply andb_prop in Ho as [_ Ho].
    apply forallb_forall. intros kv Hin. rewrite forallb_forall in Ho.
    specialize (Ho _ Hin). cbn [forallb fst] in Ho. by apply andb_prop in Ho as [Ho _]. }
  assert (Hset : Json.set k v o1 = o1 ++ [(k, v)]).
  { unfold Json.set.
    assert (Hget : Json.get k o1 = None).
    { apply get_none, forallb_forall. intros kv Hin. rewrite forallb_forall in Hbefore.
      by rewrite (key_before_neq _ _ (Hbefore _ Hin)). }
    rewrite Hget. destruct (Json.array_index k) as [i|] eqn:Hk; [|reflexivity].
    by apply insert_index_last. }
  rewrite Hset, IH; rewrite <- List.app_assoc; [reflexivity | exact Ho].
Qed.

(** ** What [JSON.parse] returns is canonical *)

Lemma parse_unsigned_safe s n rest :
  Json.parse_unsigned s = Json.Parsed n rest -> Js.is_safe_integer n = true.
Proof.
  unfold Json.parse_unsigned. destruct s as [|c r]; [discriminate|].
  destruct (Js.is_digit c); [|discriminate].
  destruct (if Ascii.eqb c "0" then (0, r) else Json.parse_digits (c :: r) 0) as [m rest'].
  destruct (Json.starts_fraction_or_exponent rest'); [discriminate|].
  destruct (Js.is_safe_integer m) eqn:E; [|discriminate]. by intros [= <- _].
Qed.

Lemma parse_number_canonical s v rest :
  Json.parse_number s = Json.Parsed v rest -> canonical v = true.
Proof.
  unfold Json.parse_number. destruct s as [|c r]; [discriminate|].
  destruct (Ascii.eqb c "-").
  - destruct (Json.parse_unsigned r) as [n rest'| |] eqn:E; [|discriminate..].
    intros [= <- _]. cbn [canonical]. rewrite safe_opp. exact (parse_unsigned_safe _ _ _ E).
  - destruct (Json.parse_unsigned (c :: r)) as [n rest'| |] eqn:E; [|discriminate..].
    intros [= <- _]. exact (parse_unsigned_safe _ _ _ E).
Qed.

Lemma keyword_canonical w v0 s v rest :
  canonical v0 = true -> Json.keyword w v0 s = Json.Parsed v rest -> canonical v = true.
Proof.
  unfold Json.keyword. intros H. destruct (Json.strip_prefix _ _); [|discriminate].
  by intros [= <- _].
Qed.

Lemma forallb_replace_value_true (P : string * json -> bool) k v (o : list (string * json)) :
  P (k, v) = true -> forallb P o = true -> forallb P (Json.replace_value k v o) = true.
Proof.
  intros Hv. induction o as [|[k' v'] o IH]; [done|]. cbn [Json.replace_value forallb].
  intros [H1 H2]%andb_prop. destruct (String.eqb k k'); cbn [forallb].
  - by rewrite Hv, H2.
  - by rewrite H1, IH.
Qed.

Lemma canonical_set k v (o : list (string * json)) :
  canonical v = true -> forallb (fun kv => canonical (snd kv)) o = true ->
  forallb (fun kv => canonical (snd kv)) (Json.set k v o) = true.
Proof.
  intros Hv Ho. unfold Json.set. destruct (Json.get k o).
  - by apply forallb_replace_value_true.
  - destruct (Json.array_index k).
    + rewrite forallb_insert_index. cbn [snd]. by rewrite Hv, Ho.
    + rewrite forallb_app, Ho. cbn [forallb snd]. by rewrite Hv.
Qed.

Lemma forallb_rev_true {A : Type} (P : A -> bool) (l : list A) :
  forallb P l = true -> forallb P (rev l) = true.
Proof.
  rewrite !forallb_forall. intros H x Hx. by apply H, in_rev.
Qed.

Lemma parse_canonical_fuel (f : nat) :
  (forall s v rest, Json.parse_value f s = Json.Parsed v rest -> canonical v = true)
  /\ (forall s acc v rest,
        Json.parse_elements f s acc = Json.Parsed v rest ->
        forallb canonical acc = true -> canonical v = true)
  /\ (forall s acc v rest,
        Json.parse_members f s acc = Json.Parsed v rest ->
        forallb (fun kv => canonical (snd kv)) acc = true -> ordered acc = true ->
        canonical v = true).
Proof.
  induction f as [|f (IHv & IHe & IHm)]; [by repeat split|].
  split; [|split].
  - intros s v rest. cbn [Json.parse_value].
    destruct (Json.skip_ws s) as [|c r]; [discriminate|].
    destruct (Ascii.eqb c Js.DQUOTE).
    { destruct (Json.parse_string r []); [|discriminate..]. by intros [= <- _]. }
    destruct (Ascii.eqb c "[").
    { destruct (Json.skip_ws r) as [|c' r']; [discriminate|].
      destruct (Ascii.eqb c' "]"); [by intros [= <- _]|].
      intros H. by apply (IHe _ _ _ _ H). }
    destruct (Ascii.eqb c "{").
    { destruct (Json.skip_ws r) as [|c' r']; [discriminate|].
      destruct (Ascii.eqb c' "}"); [by intros [= <- _]|].
      intros H. by apply (IHm _ _ _ _ H). }
    destruct (Ascii.eqb c "n"); [by apply keyword_canonical|].
    destruct (Ascii.eqb c "t"); [by apply keyword_canonical|].
    destruct (Ascii.eqb c "f"); [by apply keyword_canonical|].
    apply parse_number_canonical.
  - intros s acc v rest. cbn [Json.parse_elements].
    destruct (Json.parse_value f s) as [e rest'| |] eqn:E; [|discriminate..].
    destruct (Json.skip_ws rest') as [|c r]; [discriminate|].
    intros H Hacc.
    assert (Hacc' : forallb canonical (e :: acc) = true).
    { cbn [forallb]. by rewrite (IHv _ _ _ E), Hacc. }
    destruct (Ascii.eqb c ","); [by apply (IHe _ _ _ _ H)|].
    destruct (Ascii.eqb c "]"); [|discriminate].
    injection H as <- _. exact (forallb_rev_true canonical (e :: acc) Hacc').
  - intros s acc v rest. cbn [Json.parse_members].
    destruct (Json.skip_ws s) as [|c r]; [discriminate|].
    destruct (Ascii.eqb c Js.DQUOTE); [|discriminate].
    destruct (Json.parse_string r []) as [k rest1| |]; [|discriminate..].
    destruct (Json.skip_ws rest1) as [|c1 r1]; [discriminate|].
    destruct (Ascii.eqb c1 ":"); [|discriminate].
    destruct (Json.parse_value f r1) as [e rest2| |] eqn:E; [|discriminate..].
    destruct (Json.skip_ws rest2) as [|c2 r2]; [discriminate|].
    intros H Hacc Hord.
    pose proof (canonical_set k e acc (IHv _ _ _ E) Hacc) as Hacc'.
    pose proof (ordered_set k e acc Hord) as Hord'.
    destruct (Ascii.eqb c2 ","); [by apply (IHm _ _ _ _ H)|].
    destruct (Ascii.eqb c2 "}"); [|discriminate].
    injection H as <- _. cbn [canonical]. by rewrite Hacc', Hord'.
Qed.

Lemma parse_canonical (text : string) (v : json) :
  Json.parse text = Ret v -> canonical v = true.
Proof.
  unfold Json.parse.
  destruct (Json.parse_value _ _) as [v' rest| |] eqn:E; [|discriminate..].
  destruct (Json.skip_ws rest); [|discriminate]. intros [= <-].
  exact (proj1 (parse_canonical_fuel _) _ _ _ E).
Qed.

(** ** [JSON.parse] reads back what [JSON.stringify] wrote *)

Lemma size_pos (v : json) : (1 <= size v)%nat.
Proof. destruct v; cbn [size]; lia. Qed.

Lemma stringify_head (v : json) :
  exists c r, list_ascii_of_string (Json.stringify v) = c :: r
              /\ Json.is_ws c = false /\ Ascii.eqb c "]" = false.
Proof.
  destruct v as [|[]|z|s|l|o]; try (by eexists _, _).
  destruct (number_head z) as (c & r & E & Hc). exists c, r. split; [exact E|].
  clear E. by destruct c as [[] [] [] [] [] [] [] []].
Qed.

Lemma join_stringify_cons (e e' : json) (l : list json) :
  Js.join "," (map Json.stringify (e :: e' :: l))
  = Json.stringify e +:+ "," +:+ Js.join "," (map Json.stringify (e' :: l)).
Proof. reflexivity. Qed.

Lemma join_stringify_head (l : list json) (tail : list ascii) :
  l <> [] ->
  exists c r, list_ascii_of_string (Js.join "," (map Json.stringify l)) ++ tail = c :: r
              /\ Json.is_ws c = false /\ Ascii.eqb c "]" = false.
Proof.
  destruct l as [|e [|e' l']]; [done | |]; intros _;
    destruct (stringify_head e) as (c & r & E & H).
  - cbn [map Js.join String.concat]. rewrite E. by eexists _, _.
  - rewrite join_stringify_cons, laos_app, E. by eexists _, _.
Qed.

Section Nested.

Variable n : nat.

Hypothesis parse_smaller :
  forall v, (size v <= n)%nat -> canonical v = true ->
  forall f rest, (size v <= f)%nat -> number_end rest = true ->
  Json.parse_value f (list_ascii_of_string (Json.stringify v) ++ rest) = Json.Parsed v rest.

Lemma parse_elements_canonical (l : list json) : forall acc f rest,
  l <> [] -> forallb canonical l = true ->
  (fold_right (fun e m => size e + m) 0 l <= n)%nat ->
  (fold_right (fun e m => size e + m) 0 l < f)%nat ->
  Json.parse_elements f
    (list_ascii_of_string (Js.join "," (map Json.stringify l)) ++ "]"%char :: rest) acc
  = Json.Parsed (JArray (rev acc ++ l)) rest.
Proof.
  induction l as [|e l IH]; intros acc f rest Hne Hc Hn Hf; [done|].
  cbn [forallb] in Hc. apply andb_prop in Hc as [He Hl].
  cbn [fold_right] in Hn, Hf. pose proof (size_pos e) as Hpos.
  destruct f as [|f]; [lia|]. cbn [Json.parse_elements].
  destruct l as [|e' l'].
  - cbn [map Js.join String.concat].
    rewrite (parse_smaller e) by (done || cbn [fold_right] in *; lia).
    cbn [Json.skip_ws]. change (Json.is_ws "]") with false. cbv iota.
    change (Ascii.eqb "]" ",") with false. change (Ascii.eqb "]" "]") with true. cbv iota.
    reflexivity.
  - rewrite join_stringify_cons, laos_app, <- List.app_assoc, laos_app.
    cbn [list_ascii_of_string app].
    rewrite (parse_smaller e) by (done || lia).
    cbn [Json.skip_ws]. change (Json.is_ws ",") with false. cbv iota.
    change (Ascii.eqb "," ",") with true. cbv iota.
    rewrite (IH (e :: acc) f rest); [|done|exact Hl|lia|lia].
    cbn [rev]. by rewrite <- List.app_assoc.
Qed.

Lemma parse_members_step_canonical f k v c tail acc :
  (size v <= n)%nat -> canonical v = true -> (size v <= f)%nat ->
  number_end (c :: tail) = true -> Json.is_ws c = false ->
  Json.parse_members (S f) (list_ascii_of_string (member_text (k, v)) ++ c :: tail) acc
  = if Ascii.eqb c "," then Json.parse_members f tail (Json.set k v acc)
    else if Ascii.eqb c "}" then Json.Parsed (JObject (Json.set k v acc)) tail
    else Json.SyntaxError.
Proof.
  intros Hn Hc Hf Hend Hws. rewrite member_text_chars.
  cbn [Json.parse_members Json.skip_ws].
  change (Json.is_ws Js.DQUOTE) with false. cbv iota.
  change (Ascii.eqb Js.DQUOTE Js.DQUOTE) with true. cbv iota.
  rewrite parse_string_quoted. cbn [rev app]. rewrite string_of_list_ascii_of_string.
  cbn [Json.skip_ws]. change (Json.is_ws ":") with false. cbv iota.
  change (Ascii.eqb ":" ":") with true. cbv iota.
  rewrite (parse_smaller v Hn Hc f (c :: tail) Hf Hend).
  cbn [Json.skip_ws]. rewrite Hws. reflexivity.
Qed.

Lemma parse_members_canonical (o : list (string * json)) : forall acc f rest,
  o <> [] -> forallb (fun kv => canonical (snd kv)) o = true ->
  (fold_right (fun kv m => size (snd kv) + m) 0 o <= n)%nat ->
  (fold_right (fun kv m => size (snd kv) + m) 0 o < f)%nat ->
  Json.parse_members f
    (list_ascii_of_string (Js.join "," (map member_text o)) ++ "}"%char :: rest) acc
  = Json.Parsed (JObject (fold_left (fun a kv => Json.set (fst kv) (snd kv) a) o acc)) rest.
Proof.
  induction o as [|[k v] o IH]; intros acc f rest Hne Hc Hn Hf; [done|].
  cbn [forallb snd] in Hc. apply andb_prop in Hc as [Hv Ho].
  cbn [fold_right snd] in Hn, Hf. pose proof (size_pos v) as Hpos.
  destruct f as [|f]; [lia|].
  destruct o as [|kv' o'].
  - cbn [map Js.join String.concat].
    rewrite (parse_members_step_canonical f k v "}" rest acc);
      [reflexivity | cbn [fold_right] in *; lia | done | cbn [fold_right] in *; lia | done | done].
  - cbn [map]. rewrite join_cons, laos_app, <- List.app_assoc, laos_app.
    cbn [list_ascii_of_string app].
    rewrite (parse_members_step_canonical f k v "," _ acc); [|lia|done|lia|done|done].
    change (Ascii.eqb "," ",") with true. cbv iota.
    change (member_text kv' :: map member_text o') with (map member_text (kv' :: o')).
    rewrite (IH (Json.set k v acc) f rest); [reflexivity | done | exact Ho | lia | lia].
Qed.

End Nested.

Lemma parse_value_canonical (n : nat) :
  forall v, (size v <= n)%nat -> canonical v = true ->
  forall f rest, (size v <= f)%nat -> number_end rest = true ->
  Json.parse_value f (list_ascii_of_string (Json.stringify v) ++ rest) = Json.Parsed v rest.
Proof.
  induction n as [|n IHn]; intros v Hn Hc f rest Hf Hend;
    pose proof (size_pos v) as Hpos; [lia|].
  destruct f as [|f]; [lia|].
  destruct v as [|[]|z|s|l|o]; try reflexivity.
  - by apply parse_value_number.
  - apply parse_value_string.
  - cbn [size] in Hn, Hf. cbn [canonical] in Hc. destruct l as [|e l']; [reflexivity|].
    change (Json.stringify (JArray (e :: l')))
      with ("[" +:+ Js.join "," (map Json.stringify (e :: l')) +:+ "]").
    rewrite !laos_app. cbn [list_ascii_of_string app]. rewrite <- List.app_assoc. cbn [app].
    destruct (join_stringify_head (e :: l') ("]"%char :: rest)) as (c & r & E & Hws & Hnb);
      [done|].
    cbn [Json.parse_value Json.skip_ws]. change (Json.is_ws "[") with false. cbv iota.
    change (Ascii.eqb "[" Js.DQUOTE) with false. change (Ascii.eqb "[" "[") with true.
    cbv iota. rewrite E. cbn [Json.skip_ws]. rewrite Hws, Hnb. rewrite <- E.
    rewrite (parse_elements_canonical n IHn (e :: l') [] f rest); [reflexivity|done|done|lia|lia].
  - cbn [size] in Hn, Hf. cbn [canonical] in Hc. apply andb_prop in Hc as [Hc Hord].
    destruct o as [|kv o']; [reflexivity|].
    change (Json.stringify (JObject (kv :: o')))
      with ("{" +:+ Js.join "," (map member_text (kv :: o')) +:+ "}").
    rewrite !laos_app. cbn [list_ascii_of_string app]. rewrite <- List.app_assoc. cbn [app].
    destruct (join_head (kv :: o') ("}"%char :: rest)) as (r & E); [done|].
    cbn [Json.parse_value Json.skip_ws]. change (Json.is_ws "{") with false. cbv iota.
    change (Ascii.eqb "{" Js.DQUOTE) with false. change (Ascii.eqb "{" "[") with false.
    change (Ascii.eqb "{" "{") with true. cbv iota. rewrite E. cbn [Json.skip_ws].
    change (Json.is_ws Js.DQUOTE) with false. cbv iota.
    change (Ascii.eqb Js.DQUOTE "}") with false. cbv iota. rewrite <- E.
    rewrite (parse_members_canonical n IHn (kv :: o') [] f rest); [|done|done|lia|lia].
    by rewrite (fold_set_ordered (kv :: o') [] Hord).
Qed.

Lemma size_stringify (v : json) : (size v <= String.length (Json.stringify v))%nat.
Proof.
  assert (H : forall n v, (size v <= n)%nat -> (size v <= String.length (Json.stringify v))%nat).
  { clear v. induction n as [|n IHn]; intros v Hn; pose proof (size_pos v); [lia|].
    destruct v as [|[]|z|s|l|o]; try (cbn; lia).
    - destruct (number_head z) as (c & r & E & _).
      apply (f_equal (@List.length ascii)) in E. cbn [size Json.stringify].
      rewrite <- (string_of_list_ascii_of_string (Js.number_to_string z)).
      destruct (list_ascii_of_string (Js.number_to_string z)); [discriminate|]. cbn. lia.
    - cbn [size] in *.
      change (Json.stringify (JArray l))
        with ("[" +:+ Js.join "," (map Json.stringify l) +:+ "]").
      rewrite !length_append. cbn [String.length].
      assert (fold_right (fun e m => size e + m) 0 l
              <= String.length (Js.join "," (map Json.stringify l)))%nat; [|lia].
      assert (Hl : (fold_right (fun e m => size e + m) 0 l <= n)%nat) by lia. clear Hn.
      induction l as [|e [|e' l'] IHl]; [cbn; lia | |].
      + cbn [fold_right map Js.join String.concat] in *.
        specialize (IHn e). lia.
      + rewrite join_stringify_cons, !length_append. cbn [fold_right] in *.
        specialize (IHn e). cbn [String.length]. lia.
    - cbn [size] in *.
      change (Json.stringify (JObject o))
        with ("{" +:+ Js.join "," (map member_text o) +:+ "}").
      rewrite !length_append. cbn [String.length].
      assert (fold_right (fun kv m => size (snd kv) + m) 0 o
              <= String.length (Js.join "," (map member_text o)))%nat; [|lia].
      assert (Hl : (fold_right (fun kv m => size (snd kv) + m) 0 o <= n)%nat) by lia. clear Hn.
      assert (Hm : forall kv, (size (snd kv) <= n)%nat ->
                (size (snd kv) <= String.length (member_text kv))%nat).
      { intros kv Hkv. unfold member_text. rewrite !length_append. specialize (IHn _ Hkv). lia. }
      induction o as [|kv [|kv' o'] IHo]; [cbn; lia | |].
      + cbn [fold_right map Js.join String.concat] in *. specialize (Hm kv). lia.
      + cbn [map]. rewrite join_cons, !length_append. cbn [fold_right map] in *.
        specialize (Hm kv). cbn [String.length]. lia. }
  by apply (H (size v)).
Qed.

(** The round trip of a canonical value. *)
Lemma parse_stringify (v : json) :
  canonical v = true -> Json.parse (Json.stringify v) = Ret v.
Proof.
  intros Hc. unfold Json.parse.
  rewrite <- (List.app_nil_r (list_ascii_of_string (Json.stringify v))).
  rewrite (parse_value_canonical (size v) v); [reflexivity | lia | done | | done].
  pose proof (size_stringify v). lia.
Qed.

(** What [JSON.parse] has returned is read back from its serialised form. *)
Lemma parse_stringify_parsed (text : string) (v : json) :
  Json.parse text = Ret v -> Json.parse (Json.stringify v) = Ret v.
Proof. intros H. apply parse_stringify. exact (parse_canonical text v H). Qed.

(** ** The stored session *)

Lemma decodeIdToken_parsed (tok : string) (u : ScalekitUser) :
  ScalekitAuth.decodeIdToken tok = Ret u -> exists text, Json.parse text = Ret u.
Proof.
  rewrite decodeIdToken_run.
  destruct (Js.split "." tok) as [|a [|b [|c [|d l]]]]; try discriminate.
  unfold decode_payload. destruct (Base64.atob _) as [text| |]; try discriminate.
  cbn [obind]. destruct (Json.parse text) as [v| |] eqn:E; try discriminate.
  intros [= <-]. by exists text.
Qed.

Lemma holds_stringified (s : System) (key : string) (u : json) :
  canonical u = true -> secureStore s !! key = Some (Json.stringify u) -> holds s key u.
Proof. intros Hc Hs. exists (Json.stringify u). by rewrite (parse_stringify u Hc). Qed.

(** X12: the user that [getUserInfo] returns is the one it has stored: it
    is the decoded payload of the ID token, its serialised form is under
    the user key, and [getStoredUserInfo] on the resulting store returns
    this very value, for every payload that the embedding reads, objects
    with any nesting and key order included. *)
Theorem stored_user_roundtrip :
  forall (p : Platform) (tok : string) (s : System) (u : ScalekitUser) (s1 : System),
    ScalekitAuth.getUserInfo p tok s = (Ret u, s1) ->
    ScalekitAuth.decodeIdToken tok = Ret u
    /\ canonical u = true
    /\ secureStore s1 !! USER_INFO = Some (Json.stringify u)
    /\ Json.parse (Json.stringify u) = Ret u
    /\ (forall p',
          getItem_rejects p' USER_INFO = None ->
          ScalekitAuth.getStoredUserInfo p' s1 = (Ret u, s1)).
Proof.
  intros p tok s u s1. rewrite getUserInfo_run.
  destruct (ScalekitAuth.decodeIdToken tok) as [u'| |] eqn:D; [|discriminate..].
  destruct (setItem_rejects p USER_INFO _); [discriminate|]. intros [= <- <-].
  destruct (decodeIdToken_parsed tok u' D) as [text Ht].
  pose proof (parse_canonical text u' Ht) as Hc.
  assert (Hs : secureStore
                 (with_secureStore (<[USER_INFO := Json.stringify u']> (secureStore s)) s)
               !! USER_INFO = Some (Json.stringify u')) by apply lookup_insert_eq.
  split; [reflexivity|]. split; [exact Hc|]. split; [exact Hs|].
  split; [by apply parse_stringify|].
  intros p' Hget. apply getStoredUserInfo_holds; [done|]. by apply holds_stringified.
Qed.

(** The claims of the scenario's token. *)
Lemma stored_user_roundtrip_witness :
  exists s1,
    ScalekitAuth.getUserInfo Scenario.quiet Scenario.jwt (Scenario.mounting ∅)
      = (Ret Scenario.claims, s1)
    /\ ScalekitAuth.getStoredUserInfo Scenario.quiet s1 = (Ret Scenario.claims, s1).
Proof.
  eexists. split; [reflexivity|].
  destruct (stored_user_roundtrip Scenario.quiet Scenario.jwt (Scenario.mounting ∅) _ _ eq_refl)
    as (_ & _ & _ & _ & H).
  by apply H.
Defined.

(** A login that makes an unauthenticated state authenticated has gone
    through the browser, the exchange and the decoding. *)
Lemma login_authenticated p svc options now s :
  isAuthenticated (authState s) = false ->
  isAuthenticated (authState (ScalekitProvider.login p svc options now s).2) = true ->
  exists result s1 code t s2 tok u,
    ScalekitAuth.login p svc options (logging_in s) = (Ret result, s1)
    /\ URL_searchParams_get p (default EmptyString (result_url result)) "code" = Ret (Some code)
    /\ ScalekitAuth.exchangeCodeForTokens p svc code now s1 = (Ret t, s2)
    /\ idToken t = Some tok
    /\ ScalekitAuth.decodeIdToken tok = Ret u
    /\ ScalekitProvider.login p svc options now s
       = (Ret tt,
          with_authState (ScalekitProvider.authenticated u t)
            (with_secureStore (<[USER_INFO := Json.stringify u]> (secureStore s2)) s2)).
Proof.
  intros Hs. unfold ScalekitProvider.login, try_catch, setAuthState.
  destruct (ScalekitAuth.login p svc options (logging_in s)) as [r s1] eqn:E.
  destruct (service_login_frame p svc options _ r s1 E) as (Ha & _ & _).
  assert (Hl : forall s', authState s' = authState (logging_in s) ->
            isAuthenticated (authState s') = true -> False).
  { intros s' ->. cbn. by rewrite Hs. }
  destruct r as [result|e|]; cycle 1.
  { rewrite (login_try_service_failure p svc options now s _ s1 E) by done. done. }
  { rewrite (login_try_service_failure p svc options now s _ s1 E) by done.
    intros H. by destruct (Hl s1). }
  rewrite (login_try_after_browser p svc options now s result s1 E).
  destruct (String.eqb (result_type result) "success" && Js.truthy_opt (result_url result)).
  - destruct (URL_searchParams_get p _ "code") as [code|e|] eqn:Hcode;
      [|done|intros H; by destruct (Hl s1)].
    destruct code as [code|]; [|by cbn].
    change (default EmptyString (Some code)) with code.
    change (Js.truthy_opt (Some code)) with (Js.truthy code).
    destruct (Js.truthy code); [|by cbn]. cbn [negb].
    destruct (ScalekitAuth.exchangeCodeForTokens p svc code now s1) as [r2 s2] eqn:E2.
    destruct (exchange_frame p svc _ now s1 r2 s2 E2) as [Ha2 _].
    destruct r2 as [t|e|]; [|by cbn|intros H; destruct (Hl s2); [congruence|done]].
    destruct (idToken t) as [tok|] eqn:Htok; [|by cbn].
    change (default EmptyString (Some tok)) with tok.
    change (Js.truthy_opt (Some tok)) with (Js.truthy tok).
    destruct (Js.truthy tok); [|by cbn]. cbn [negb].
    rewrite getUserInfo_run.
    destruct (ScalekitAuth.decodeIdToken tok) as [u|e|] eqn:D;
      [|by cbn|intros H; destruct (Hl s2); [congruence|done]].
    destruct (setItem_rejects p USER_INFO _) eqn:W; [by cbn|].
    intros _. by exists result, s1, code, t, s2, tok, u.
  - destruct (String.eqb (result_type result) "dismiss" || String.eqb (result_type result) "cancel");
      [|done].
    cbn. rewrite Ha. cbn. by rewrite Hs.
Qed.

(** X13: a login that takes the provider from an unauthenticated state to
    an authenticated one has returned; the tokens of the new state are the
    record of the exchange, whose absolute expiry is the time of receipt
    plus [expiresIn * 1000] ms, and its user is the decoded payload of
    their ID token; the store holds the serialised record and user and no
    verifier, its other keys are as before, and one request was sent.  The
    session survives a restart: on any system with this store, with a store
    that answers the two reads, while the record is not expired and the
    user is truthy, [initAuth] ends authenticated with the same user and
    the same tokens. *)
Theorem login_session_restorable :
  forall (p : Platform) (svc : ScalekitAuth.t) (options : option ScalekitLoginOptions)
         (now : Z) (s : System),
    isAuthenticated (authState s) = false ->
    isAuthenticated (authState (ScalekitProvider.login p svc options now s).2) = true ->
    exists u t s',
      ScalekitProvider.login p svc options now s = (Ret tt, s')
      /\ authState s' = ScalekitProvider.authenticated u t
      /\ expiresAt t = now + expiresIn t * 1000
      /\ (exists tok, idToken t = Some tok /\ ScalekitAuth.decodeIdToken tok = Ret u)
      /\ secureStore s' !! TOKENS = Some (Json.stringify (tokens_to_json t))
      /\ secureStore s' !! USER_INFO = Some (Json.stringify u)
      /\ secureStore s' !! CODE_VERIFIER = None
      /\ (forall key, key <> TOKENS -> key <> USER_INFO -> key <> CODE_VERIFIER ->
            secureStore s' !! key = secureStore s !! key)
      /\ (exists q, requests s' = q :: requests s)
      /\ (forall p' now' s'',
            secureStore s'' = secureStore s' ->
            getItem_rejects p' TOKENS = None -> getItem_rejects p' USER_INFO = None ->
            Json.truthy u = true -> now' < expiresAt t - 60000 ->
            ScalekitProvider.initAuth p' now' s''
            = (Ret tt, with_authState (ScalekitProvider.authenticated u t) s'')).
Proof.
  intros p svc options now s Hs Hauth.
  destruct (login_authenticated p svc options now s Hs Hauth)
    as (result & s1 & code & t & s2 & tok & u & E & Hcode & E2 & Htok & D & Hrun).
  destruct (service_login_frame p svc options _ _ s1 E) as (_ & Hreq1 & Hkeys1).
  destruct (exchange_returned p svc code now s1 t s2 E2)
    as (verifier & response & v & data & _ & _ & _ & _ & _ & Hd & Ht & Hsafe & Hs2).
  destruct (decodeIdToken_parsed tok u D) as [text Hparse].
  pose proof (parse_canonical text u Hparse) as Hc.
  exists u, t. eexists. split; [exact Hrun|]. rewrite Hs2.
  cbn [authState secureStore requests with_authState with_secureStore with_request].
  split; [reflexivity|]. split; [by rewrite Ht|]. split; [by exists tok|].
  assert (Htokens :
    <[USER_INFO := Json.stringify u]>
      (delete CODE_VERIFIER (<[TOKENS := Json.stringify (tokens_to_json t)]> (secureStore s1)))
    !! TOKENS = Some (Json.stringify (tokens_to_json t))).
  { rewrite lookup_insert_ne by done. rewrite lookup_delete_ne by done. apply lookup_insert_eq. }
  split; [exact Htokens|]. split; [apply lookup_insert_eq|].
  split; [rewrite lookup_insert_ne by done; apply lookup_delete_eq|].
  split.
  { intros key H1 H2 H3. rewrite lookup_insert_ne by done. rewrite lookup_delete_ne by done.
    rewrite lookup_insert_ne by done. by rewrite (Hkeys1 key H3). }
  split; [eexists; by rewrite Hreq1|].
  intros p' now' s'' Hstore Hget1 Hget2 Htruthy Hfresh.
  assert (Hheld : holds_tokens s'' t).
  { apply holds_serialised; [| exact Hsafe | by rewrite Hstore].
    rewrite Ht. exact (as_TokenResponse_safe v data Hd). }
  assert (Huser : holds s'' USER_INFO u).
  { apply holds_stringified; [exact Hc|]. rewrite Hstore. apply lookup_insert_eq. }
  unfold ScalekitProvider.initAuth, try_catch.
  rewrite (initAuth_try_after_reads p' now' s'' (Some t) u
             (getStoredTokens_holds p' s'' t Hget1 Hheld)
             (getStoredUserInfo_holds p' s'' u Hget2 Huser)).
  unfold ScalekitProvider.valid_session, ScalekitAuth.areTokensExpired. rewrite Htruthy.
  destruct (now' >=? expiresAt t - 60000) eqn:Hexp; [lia | reflexivity].
Qed.

(** The login of the scenario, from a signed-out provider, and a restart
    one minute later. *)
Lemma login_session_restorable_witness :
  exists s',
    ScalekitProvider.login (Scenario.answering Scenario.issued_response) Scenario.service None
        Scenario.now (Scenario.system (ScalekitProvider.unauthenticated None) ∅)
      = (Ret tt, s')
    /\ authState s'
       = ScalekitProvider.authenticated Scenario.claims
           (ScalekitAuth.tokens_of_response Scenario.issued Scenario.now)
    /\ ScalekitProvider.initAuth Scenario.quiet (Scenario.now + 60000)
         (Scenario.mounting (secureStore s'))
       = (Ret tt,
          with_authState
            (ScalekitProvider.authenticated Scenario.claims
               (ScalekitAuth.tokens_of_response Scenario.issued Scenario.now))
            (Scenario.mounting (secureStore s'))).
Proof.
  assert (Hauth :
    isAuthenticated
      (authState
         (ScalekitProvider.login (Scenario.answering Scenario.issued_response)
            Scenario.service None Scenario.now
            (Scenario.system (ScalekitProvider.unauthenticated None) ∅)).2) = true)
    by (vm_compute; reflexivity).
  destruct (login_session_restorable (Scenario.answering Scenario.issued_response)
              Scenario.service None Scenario.now
              (Scenario.system (ScalekitProvider.unauthenticated None) ∅) eq_refl Hauth)
    as (u & t & s' & Hrun & Ha & _ & _ & _ & _ & _ & _ & _ & Hrestart).
  exists s'. split; [exact Hrun|].
  assert (Hstate : authState s'
            = ScalekitProvider.authenticated Scenario.claims
                (ScalekitAuth.tokens_of_response Scenario.issued Scenario.now)).
  { apply (f_equal snd) in Hrun. cbn [snd] in Hrun. rewrite <- Hrun. vm_compute. reflexivity. }
  split; [exact Hstate|].
  rewrite Ha in Hstate. injection Hstate as -> ->.
  apply Hrestart; reflexivity.
Defined.

(** ** The challenge *)

Lemma hexToBytes_pairs_length (l : list ascii) :
  List.length (ScalekitAuth.hexToBytes_pairs l) = (List.length l / 2)%nat.
Proof.
  assert (H : forall l : list ascii,
             List.length (ScalekitAuth.hexToBytes_pairs l) = (List.length l / 2)%nat
             /\ forall a, List.length (ScalekitAuth.hexToBytes_pairs (a :: l))
                          = (List.length (a :: l) / 2)%nat).
  { clear l. induction l as [|b l [IH0 IH1]]; [by split|].
    split; [apply IH1|]. intros a. cbn [ScalekitAuth.hexToBytes_pairs List.length].
    rewrite IH0. lia_div. }
  apply H.
Qed.

Lemma parse_hex_byte (b : Byte.byte) :
  ScalekitAuth.to_uint8
    (ScalekitAuth.parseInt16
       (String (Json.hex_digit (Byte.to_N b / 16))
          (String (Json.hex_digit (Byte.to_N b mod 16)) EmptyString))) = b.
Proof. destruct b; reflexivity. Qed.

Lemma hexToBytes_hex (bytes : list Byte.byte) :
  ScalekitAuth.hexToBytes (hex_of_bytes bytes) = bytes.
Proof.
  unfold ScalekitAuth.hexToBytes, hex_of_bytes. rewrite list_ascii_of_string_of_list_ascii.
  induction bytes as [|b bytes IH]; [reflexivity|].
  cbn [flat_map app ScalekitAuth.hexToBytes_pairs]. by rewrite parse_hex_byte, IH.
Qed.

(** X14: [hexToBytes] never fails and makes one byte of every full pair of
    code units, so half as many bytes as the text has code units, rounded
    down; it reads back the bytes of a lower-case hexadecimal text.  So for
    a digest that the crypto provider prints in hexadecimal, the challenge
    of [generateCodeChallenge] is the base64url form of the digest's bytes,
    43 code units for the 32 bytes of SHA-256, and leaves the system as it
    was. *)
Theorem hexToBytes_digest :
  forall (p : Platform) (verifier : string) (bytes : list Byte.byte) (s : System),
    (forall hex : string,
        List.length (ScalekitAuth.hexToBytes hex) = (String.length hex / 2)%nat)
    /\ ScalekitAuth.hexToBytes (hex_of_bytes bytes) = bytes
    /\ (digestStringAsync p verifier = Ret (hex_of_bytes bytes) ->
        ScalekitAuth.generateCodeChallenge p verifier s
        = (Ret (ScalekitAuth.base64URLEncode bytes), s)
        /\ (List.length bytes = 32%nat ->
            Js.length (ScalekitAuth.base64URLEncode bytes) = 43)).
Proof.
  intros p verifier bytes s. split.
  { intros hex. unfold ScalekitAuth.hexToBytes. rewrite hexToBytes_pairs_length. f_equal.
    clear. induction hex as [|c hex IH]; [reflexivity|]. simpl. by rewrite IH. }
  split; [apply hexToBytes_hex|].
  intros Hd. split.
  - unfold ScalekitAuth.generateCodeChallenge, bind, lift, ret. by rewrite Hd, hexToBytes_hex.
  - intros H. rewrite base64URLEncode_length, H. reflexivity.
Qed.

(** The digest of the scenario. *)
Lemma hexToBytes_digest_witness :
  ScalekitAuth.generateCodeChallenge Scenario.quiet Scenario.verifier (Scenario.mounting ∅)
    = (Ret "DwBzhbb51LfusnSGBa_hqYSgo7-j8BTQnip4TOnlzRo", Scenario.mounting ∅)
  /\ Js.length "DwBzhbb51LfusnSGBa_hqYSgo7-j8BTQnip4TOnlzRo" = 43.
Proof.
  destruct (hexToBytes_digest Scenario.quiet Scenario.verifier
              (ScalekitAuth.hexToBytes
                 "0f007385b6f9d4b7eeb2748605afe1a984a0a3bfa3f014d09e2a784ce9e5cd1a")
              (Scenario.mounting ∅)) as (_ & _ & H).
  destruct H as [Hrun Hlen]; [by vm_compute|].
  split; [exact Hrun | exact (Hlen eq_refl)].
Defined.

(** ** The configuration in the two requests *)

(** X15: the service that the provider constructs never has an empty
    redirect URI: it is the configured one when that is a non-empty string
    and [exp://localhost:8081/--/auth/callback] otherwise; the scopes are
    [openid profile email] when none are configured.  This one URI and the
    client id are what the authorization URL carries, unless [extraParams]
    overrides them, and what the token request carries, so that the two
    requests of one flow agree; the token request goes to the environment's
    [/oauth/token] and the browser to its [/oauth/authorize]. *)
Theorem redirect_uri_consistent :
  forall (config : ScalekitConfig) (options : option ScalekitLoginOptions)
         (codeChallenge code codeVerifier : string),
    let svc := ScalekitAuth.new config in
    Js.truthy (ScalekitAuth.config_redirectUri svc) = true
    /\ ScalekitAuth.config_redirectUri svc
       = (if Js.truthy_opt (redirectUri config) then default EmptyString (redirectUri config)
          else "exp://localhost:8081/--/auth/callback")
    /\ (extra_param options "redirect_uri" = None ->
        ScalekitAuth.authorization_params svc options codeChallenge !! "redirect_uri"
        = Some (ScalekitAuth.config_redirectUri svc))
    /\ In ("redirect_uri", ScalekitAuth.config_redirectUri svc)
          (request_body (ScalekitAuth.token_request svc code codeVerifier))
    /\ (extra_param options "client_id" = None ->
        ScalekitAuth.authorization_params svc options codeChallenge !! "client_id"
        = Some (clientId config))
    /\ In ("client_id", clientId config)
          (request_body (ScalekitAuth.token_request svc code codeVerifier))
    /\ (scopes config = None -> extra_param options "scope" = None ->
        ScalekitAuth.authorization_params svc options codeChallenge !! "scope"
        = Some "openid profile email")
    /\ request_url (ScalekitAuth.token_request svc code codeVerifier)
       = envUrl config +:+ "/oauth/token"
    /\ ScalekitAuth.getEndpoints_authorization svc = envUrl config +:+ "/oauth/authorize".
Proof.
  intros config options codeChallenge code codeVerifier svc.
  assert (Huri : ScalekitAuth.config_redirectUri svc
                 = (if Js.truthy_opt (redirectUri config)
                    then default EmptyString (redirectUri config)
                    else "exp://localhost:8081/--/auth/callback")).
  { unfold svc, ScalekitAuth.new. cbn [ScalekitAuth.config_redirectUri].
    destruct (redirectUri config) as [r|]; [|reflexivity]. cbn [Js.truthy_opt].
    by destruct (Js.truthy r). }
  split.
  { rewrite Huri. destruct (redirectUri config) as [r|]; [|reflexivity]. cbn [Js.truthy_opt].
    by destruct (Js.truthy r) eqn:E. }
  split; [exact Huri|]. split; [intros H; by rewrite standard_param_lookup|].
  split; [cbn; tauto|]. split; [intros H; by rewrite standard_param_lookup|].
  split; [cbn; tauto|]. split; [|by split].
  intros Hs H. rewrite standard_param_lookup by done.
  unfold standard_param, svc, ScalekitAuth.new. cbn. by rewrite Hs.
Qed.

(** ** The config plugin *)

Section Plugin.

Import ConfigPlugin.

Lemma includes_added (scheme : string) (name : option string) :
  includes_scheme scheme
    {| CFBundleTypeRole := "Editor"; CFBundleURLSchemes := Some [scheme];
       CFBundleURLName := name |} = true.
Proof. unfold includes_scheme. cbn. by rewrite String.eqb_refl. Qed.

Lemma withInfoPlist_mod_registered scheme config plist :
  exists types,
    CFBundleURLTypes (withInfoPlist_mod scheme config plist) = Some types
    /\ existsb (includes_scheme scheme) types = true.
Proof.
  unfold withInfoPlist_mod.
  destruct (existsb (includes_scheme scheme) (default [] (CFBundleURLTypes plist))) eqn:E.
  - by eexists.
  - eexists. split; [reflexivity|]. rewrite existsb_app. cbn [existsb].
    by rewrite includes_added, orb_true_r.
Qed.

Lemma withInfoPlist_mod_idempotent scheme config config' plist :
  withInfoPlist_mod scheme config' (withInfoPlist_mod scheme config plist)
  = withInfoPlist_mod scheme config plist.
Proof.
  destruct (withInfoPlist_mod_registered scheme config plist) as (types & Ht & Hreg).
  unfold withInfoPlist_mod at 1. rewrite Ht. change (default [] (Some types)) with types.
  rewrite Hreg.
  destruct (withInfoPlist_mod scheme config plist) as [o]. cbn in Ht. by rewrite Ht.
Qed.

(** X16: the plugin takes as URL scheme the first non-empty one of its own
    [scheme], the config's [scheme] and the slug, and throws exactly when
    all three are missing or empty.  Its change of [Info.plist] registers
    the scheme: afterwards some URL type lists it; the URL types that were
    there are kept in their order, at most one is appended, and none when
    the scheme was listed already, so that running the change again,
    whatever the config then is, changes nothing more. *)
Theorem withScalekit_infoPlist :
  forall (config : ExpoConfig) (props : option ScalekitPluginProps),
    (withScalekit config props = Throw NoScheme
     <-> Js.truthy_opt (props ≫= props_scheme) = false
         /\ Js.truthy_opt (config_scheme config) = false
         /\ Js.truthy (config_slug config) = false)
    /\ (forall mods,
          withScalekit config props = Ret mods ->
          exists scheme,
            Js.truthy scheme = true
            /\ (Js.truthy_opt (props ≫= props_scheme) = true ->
                props ≫= props_scheme = Some scheme)
            /\ (Js.truthy_opt (props ≫= props_scheme) = false ->
                Js.truthy_opt (config_scheme config) = true -> config_scheme config = Some scheme)
            /\ (Js.truthy_opt (props ≫= props_scheme) = false ->
                Js.truthy_opt (config_scheme config) = false -> config_slug config = scheme)
            /\ forall config' plist,
                 (exists types added,
                     CFBundleURLTypes (infoPlist mods config' plist) = Some types
                     /\ existsb (includes_scheme scheme) types = true
                     /\ types = default [] (CFBundleURLTypes plist) ++ added
                     /\ (List.length added <= 1)%nat
                     /\ (existsb (includes_scheme scheme) (default [] (CFBundleURLTypes plist))
                         = true -> added = []))
                 /\ forall config'',
                      infoPlist mods config'' (infoPlist mods config' plist)
                      = infoPlist mods config' plist).
Proof.
  intros config props. unfold withScalekit, resolve_scheme. split.
  - destruct (Js.truthy_opt (props ≫= props_scheme)) eqn:E1.
    { destruct (props ≫= props_scheme) as [a|]; [|discriminate]. cbn in E1 |- *.
      rewrite E1. cbn. split; [discriminate | by intros [? _]]. }
    destruct (Js.truthy_opt (config_scheme config)) eqn:E2.
    { destruct (config_scheme config) as [b|]; [|discriminate]. cbn in E2 |- *.
      rewrite E2. cbn. split; [discriminate | by intros (_ & ? & _)]. }
    destruct (Js.truthy (config_slug config)); cbn; split; try done.
    by intros (_ & _ & ?).
  - intros mods.
    set (scheme :=
           if Js.truthy_opt (props ≫= props_scheme) then default EmptyString (props ≫= props_scheme)
           else if Js.truthy_opt (config_scheme config)
                then default EmptyString (config_scheme config)
                else config_slug config).
    destruct (Js.truthy scheme) eqn:Ht; [|discriminate]. cbn [negb]. intros [= <-].
    exists scheme. split; [exact Ht|]. unfold scheme.
    split; [intros H; rewrite H; by destruct (props ≫= props_scheme)|].
    split; [intros H1 H2; rewrite H1, H2; by destruct (config_scheme config)|].
    split; [intros H1 H2; by rewrite H1, H2|].
    fold scheme. intros config' plist. cbn [infoPlist]. split.
    + unfold withInfoPlist_mod.
      destruct (existsb (includes_scheme scheme) (default [] (CFBundleURLTypes plist))) eqn:E.
      * exists (default [] (CFBundleURLTypes plist)), [].
        cbn [CFBundleURLTypes]. rewrite List.app_nil_r. repeat split; (done || cbn; lia).
      * eexists _, [_]. cbn [CFBundleURLTypes]. split; [reflexivity|].
        split; [|repeat split; (done || cbn; lia)].
        rewrite existsb_app. cbn [existsb]. by rewrite includes_added, orb_true_r.
    + intros config''. apply withInfoPlist_mod_idempotent.
Qed.

(** An app whose scheme comes from its config and whose plist has no URL
    types yet. *)
Lemma withScalekit_infoPlist_witness :
  exists mods,
    withScalekit
      {| config_scheme := Some "myapp"; config_slug := "my-app";
         config_ios_bundleIdentifier := None |} None = Ret mods
    /\ infoPlist mods
         {| config_scheme := Some "myapp"; config_slug := "my-app";
            config_ios_bundleIdentifier := None |}
         {| CFBundleURLTypes := None |}
       = {| CFBundleURLTypes :=
              Some [{| CFBundleTypeRole := "Editor"; CFBundleURLSchemes := Some ["myapp"];
                       CFBundleURLName := Some "my-app" |}] |}
    /\ withScalekit
         {| config_scheme := None; config_slug := ""; config_ios_bundleIdentifier := None |}
         (Some {| props_scheme := Some "" |}) = Throw NoScheme.
Proof.
  eexists. split; [reflexivity|]. split; [reflexivity|].
  by apply (proj1 (withScalekit_infoPlist
                    {| config_scheme := None; config_slug := "";
                       config_ios_bundleIdentifier := None |}
                    (Some {| props_scheme := Some "" |}))).
Defined.

Lemma update_found_split {A : Type} (found : A -> bool) (change : A -> A) (l : list A) :
  existsb found l = true ->
  exists pre a post,
    l = pre ++ a :: post /\ forallb (fun x => negb (found x)) pre = true /\ found a = true
    /\ update_found found change l = pre ++ change a :: post.
Proof.
  induction l as [|x l IH]; [discriminate|]. cbn [existsb update_found].
  destruct (found x) eqn:E.
  - intros _. by exists [], x, l.
  - cbn [orb]. intros H. destruct (IH H) as (pre & a & post & -> & Hpre & Ha & Hu).
    exists (x :: pre), a, post. cbn [app forallb]. by rewrite E, Hpre, Hu.
Qed.

Lemma update_found_at {A : Type} (found : A -> bool) (change : A -> A) pre a post :
  forallb (fun x => negb (found x)) pre = true -> found a = true ->
  update_found found change (pre ++ a :: post) = pre ++ change a :: post.
Proof.
  intros Hpre Ha. induction pre as [|x pre IH]; cbn [app update_found]; [by rewrite Ha|].
  cbn [forallb] in Hpre. apply andb_prop in Hpre as [Hx Hpre].
  destruct (found x); [discriminate|]. by rewrite IH.
Qed.

Lemma add_deep_link_main scheme a : is_main a = true -> is_main (add_deep_link scheme a) = true.
Proof.
  unfold is_main, add_deep_link. cbn [activity_attributes intent_filter].
  destruct (bool_decide _); [done|]. cbn [orb].
  destruct (intent_filter a) as [filters|]; [|discriminate].
  change (default [] (Some filters)) with filters.
  intros H.
  destruct (existsb (fun filter => some_attribute "android:scheme" scheme (data filter)) filters);
    [exact H|].
  rewrite existsb_app. by rewrite H.
Qed.

Lemma add_deep_link_linked scheme a :
  exists filters,
    intent_filter (add_deep_link scheme a) = Some filters
    /\ existsb (fun filter => some_attribute "android:scheme" scheme (data filter)) filters = true.
Proof.
  unfold add_deep_link. cbn [intent_filter].
  destruct (existsb _ (default [] (intent_filter a))) eqn:E; eexists; (split; [reflexivity|]);
    [exact E|].
  rewrite existsb_app. cbn [existsb deep_link_filter data some_attribute attribute].
  rewrite lookup_singleton_eq, bool_decide_eq_true_2 by done. by rewrite !orb_true_r.
Qed.

Lemma add_deep_link_idempotent scheme a :
  add_deep_link scheme (add_deep_link scheme a) = add_deep_link scheme a.
Proof.
  destruct (add_deep_link_linked scheme a) as (filters & Hf & Hlinked).
  unfold add_deep_link at 1. rewrite Hf. change (default [] (Some filters)) with filters.
  rewrite Hlinked.
  destruct (add_deep_link scheme a) as [attrs o]. cbn in Hf. by rewrite Hf.
Qed.

(** X17: the plugin's change of the Android manifest touches nothing when
    the manifest has no application, or its first application has no
    activity that is named [.MainActivity] or has a [MAIN] action.
    Otherwise it changes only the first such activity of the first
    application: it keeps the activity's attributes and intent filters and
    appends the filter with the [VIEW] action, the [DEFAULT] and
    [BROWSABLE] categories and the scheme, unless some filter of the
    activity already has the scheme; afterwards that activity has a filter
    for the scheme and is still the first main activity, so that running
    the change again changes nothing more. *)
Theorem withAndroidManifest_mod_outcome :
  forall (scheme : string) (manifest : AndroidManifest),
    (forall mainApplication applications activities,
        application manifest = Some (mainApplication :: applications) ->
        activity mainApplication = Some activities ->
        existsb is_main activities = true ->
        exists pre mainActivity post filters,
          activities = pre ++ mainActivity :: post
          /\ forallb (fun a => negb (is_main a)) pre = true
          /\ is_main mainActivity = true
          /\ withAndroidManifest_mod scheme manifest
             = {| application :=
                    Some
                      ({| activity := Some (pre ++ add_deep_link scheme mainActivity :: post) |}
                       :: applications) |}
          /\ activity_attributes (add_deep_link scheme mainActivity)
             = activity_attributes mainActivity
          /\ intent_filter (add_deep_link scheme mainActivity) = Some filters
          /\ existsb (fun filter => some_attribute "android:scheme" scheme (data filter)) filters
             = true
          /\ (filters = default [] (intent_filter mainActivity)
              \/ filters = default [] (intent_filter mainActivity) ++ [deep_link_filter scheme])
          /\ is_main (add_deep_link scheme mainActivity) = true)
    /\ (match application manifest with
        | Some (mainApplication :: _) =>
            match activity mainApplication with
            | Some activities => existsb is_main activities = false
            | None => True
            end
        | _ => True
        end -> withAndroidManifest_mod scheme manifest = manifest)
    /\ withAndroidManifest_mod scheme (withAndroidManifest_mod scheme manifest)
       = withAndroidManifest_mod scheme manifest.
Proof.
  intros scheme manifest. split; [|split].
  - intros app apps acts Happ Hacts Hmain.
    destruct (update_found_split is_main (add_deep_link scheme) acts Hmain)
      as (pre & a & post & -> & Hpre & Ha & Hu).
    destruct (add_deep_link_linked scheme a) as (filters & Hf & Hlinked).
    exists pre, a, post, filters. split; [reflexivity|]. split; [exact Hpre|].
    split; [exact Ha|]. split.
    { unfold withAndroidManifest_mod. by rewrite Happ, Hacts, Hmain, Hu. }
    split; [reflexivity|]. split; [exact Hf|]. split; [exact Hlinked|].
    split; [|by apply add_deep_link_main].
    unfold add_deep_link in Hf. cbn [intent_filter] in Hf. injection Hf as <-.
    destruct (existsb _ (default [] (intent_filter a))); [by left | by right].
  - unfold withAndroidManifest_mod.
    destruct (application manifest) as [[|app apps]|]; try done.
    destruct (activity app) as [acts|]; [|done]. by intros ->.
  - unfold withAndroidManifest_mod at 2.
    destruct (application manifest) as [[|app apps]|] eqn:Happ;
      try (unfold withAndroidManifest_mod; by rewrite Happ).
    destruct (activity app) as [acts|] eqn:Hacts;
      [|unfold withAndroidManifest_mod; by rewrite Happ, Hacts].
    destruct (existsb is_main acts) eqn:Hmain;
      [|unfold withAndroidManifest_mod; by rewrite Happ, Hacts, Hmain].
    destruct (update_found_split is_main (add_deep_link scheme) acts Hmain)
      as (pre & a & post & -> & Hpre & Ha & Hu).
    rewrite Hu. unfold withAndroidManifest_mod. cbn [application activity].
    rewrite existsb_app. cbn [existsb]. rewrite (add_deep_link_main scheme a Ha), orb_true_r.
    rewrite (update_found_at is_main (add_deep_link scheme) pre _ post Hpre
               (add_deep_link_main scheme a Ha)).
    by rewrite add_deep_link_idempotent, Happ, Hacts, Hmain, Hu.
Qed.

(** A manifest whose one activity is the main one and has the launcher
    filter only. *)
Lemma withAndroidManifest_mod_outcome_witness :
  withAndroidManifest_mod "myapp"
    {| application :=
         Some [{| activity :=
                    Some [{| activity_attributes := named ".MainActivity";
                             intent_filter :=
                               Some [{| action := Some [named "android.intent.action.MAIN"];
                                        category := None; data := None |}] |}] |}] |}
  = {| application :=
         Some [{| activity :=
                    Some [{| activity_attributes := named ".MainActivity";
                             intent_filter :=
                               Some [{| action := Some [named "android.intent.action.MAIN"];
                                        category := None; data := None |};
                                     deep_link_filter "myapp"] |}] |}] |}.
Proof.
  destruct (withAndroidManifest_mod_outcome "myapp"
              {| application :=
                   Some [{| activity :=
                              Some [{| activity_attributes := named ".MainActivity";
                                       intent_filter :=
                                         Some [{| action := Some [named "android.intent.action.MAIN"];
                                                  category := None; data := None |}] |}] |}] |})
    as (H & _).
  destruct (H _ _ _ eq_refl eq_refl eq_refl)
    as (pre & a & post & filters & Hsplit & Hpre & _ & Hrun & _).
  rewrite Hrun. destruct pre as [|x pre].
  - injection Hsplit as <- <-. reflexivity.
  - injection Hsplit as <- Hrest. by destruct pre.
Defined.

End Plugin.

(** ** After a logout *)

Lemma provider_logout_run p s :
  ScalekitProvider.logout p s
  = (Ret tt,
     with_authState
       (if deletes_resolve p then ScalekitProvider.unauthenticated None
        else ScalekitProvider.with_loading_error false (Some "Failed to logout") (authState s))
       (with_secureStore (cleanup p (secureStore s)) s)).
Proof.
  unfold ScalekitProvider.logout, ScalekitProvider.logout_try, try_catch, bind, setAuthState.
  destruct (service_logout_run p (with_authState (ScalekitProvider.with_loading true (authState s)) s))
    as (r & -> & Hok & Hko).
  destruct (deletes_resolve p).
  - by rewrite (Hok eq_refl).
  - by destruct (Hko eq_refl) as (e & ->).
Qed.

(** The callback of the current context value is the callback that has
    captured the tokens of the state. *)
Lemma refreshUser_current p s :
  ScalekitProvider.refreshUser p s
  = ScalekitProvider.refreshUser_of p (tokens (authState s)) s.
Proof.
  unfold ScalekitProvider.refreshUser, ScalekitProvider.refreshUser_of.
  destruct (tokens (authState s)) as [t|]; [|reflexivity].
  by destruct (negb (Js.truthy_opt (idToken t))).
Qed.

(** [refreshUser] of any render, step by step. *)
Lemma refreshUser_of_run p (captured : option ScalekitTokens) s :
  ScalekitProvider.refreshUser_of p captured s =
    match captured ≫= idToken with
    | Some tok =>
        if Js.truthy tok then
          match ScalekitAuth.decodeIdToken tok with
          | Ret u =>
              match setItem_rejects p USER_INFO (Json.stringify u) with
              | None =>
                  (Ret tt,
                   with_authState (ScalekitProvider.with_user u (authState s))
                     (with_secureStore (<[USER_INFO := Json.stringify u]> (secureStore s)) s))
              | Some e => (Throw e, s)
              end
          | Throw e => (Throw e, s)
          | Unmodelled => (Unmodelled, s)
          end
        else (Throw (Error "No active session"), s)
    | None => (Throw (Error "No active session"), s)
    end.
Proof.
  unfold ScalekitProvider.refreshUser_of.
  destruct captured as [t|]; [|reflexivity]. simpl.
  destruct (idToken t) as [tok|]; [|reflexivity]. simpl.
  destruct (Js.truthy tok); [|reflexivity]. simpl.
  rewrite try_rethrow. unfold bind. rewrite getUserInfo_run.
  destruct (ScalekitAuth.decodeIdToken tok) as [u| |]; try reflexivity.
  by destruct (setItem_rejects p USER_INFO _).
Qed.

(** X18: after a logout whose deletions the store accepted, whatever the
    clock and the collaborators of the later calls: [getAccessToken] returns
    [null], an exchange finds no verifier and sends nothing, a restart ends
    unauthenticated without error, and [refreshUser] as the callback of the
    current context value, which has captured the tokens [null] of the new
    state, throws for the missing session.  A [refreshUser] obtained before
    the logout has captured the tokens of its render: called after the
    logout it does not throw but decodes their ID token, writes the user
    blob back to the store and sets [user] in the state, which stays
    unauthenticated and without tokens; [getAccessToken] still returns
    [null] afterwards.  When the store rejected the deletion of the tokens,
    the stored record is still served by [getAccessToken] while it is not
    expired. *)
Theorem logout_ends_session :
  forall (p : Platform) (s : System),
    (deletes_resolve p = true ->
     forall (p' : Platform) (svc : ScalekitAuth.t) (code : string) (now : Z),
       ScalekitProvider.getAccessToken p' now (ScalekitProvider.logout p s).2
       = (Ret None, (ScalekitProvider.logout p s).2)
       /\ ScalekitProvider.refreshUser p' (ScalekitProvider.logout p s).2
          = (Throw (Error "No active session"), (ScalekitProvider.logout p s).2)
       /\ ScalekitProvider.refreshUser_of p'
            (tokens (authState (ScalekitProvider.logout p s).2)) (ScalekitProvider.logout p s).2
          = (Throw (Error "No active session"), (ScalekitProvider.logout p s).2)
       /\ (getItem_rejects p' CODE_VERIFIER = None ->
           ScalekitAuth.exchangeCodeForTokens p' svc code now (ScalekitProvider.logout p s).2
           = (Throw MissingVerifier, (ScalekitProvider.logout p s).2))
       /\ ScalekitProvider.initAuth p' now (ScalekitProvider.logout p s).2
          = (Ret tt,
             with_authState (ScalekitProvider.unauthenticated None)
               (ScalekitProvider.logout p s).2)
       /\ (forall t tok u,
             idToken t = Some tok -> Js.truthy tok = true ->
             ScalekitAuth.decodeIdToken tok = Ret u ->
             setItem_rejects p' USER_INFO (Json.stringify u) = None ->
             exists s',
               ScalekitProvider.refreshUser_of p' (Some t) (ScalekitProvider.logout p s).2
               = (Ret tt, s')
               /\ authState s'
                  = {| isLoading := false; isAuthenticated := false; user := u; tokens := None;
                       error := None |}
               /\ secureStore s'
                  = <[USER_INFO := Json.stringify u]>
                      (delete CODE_VERIFIER (delete USER_INFO (delete TOKENS (secureStore s))))
               /\ ScalekitProvider.getAccessToken p' now s' = (Ret None, s')))
    /\ (forall e t p' now,
          deleteItem_rejects p TOKENS = Some e -> holds_tokens s t ->
          getItem_rejects p' TOKENS = None -> now < expiresAt t - 60000 ->
          ScalekitProvider.getAccessToken p' now (ScalekitProvider.logout p s).2
          = (Ret (Some (accessToken t)), (ScalekitProvider.logout p s).2)).
Proof.
  intros p s. rewrite provider_logout_run. cbn [snd]. split.
  - intros Hd p' svc code now. rewrite Hd.
    set (s' := with_authState _ _).
    assert (Hstore : secureStore s'
                     = delete CODE_VERIFIER (delete USER_INFO (delete TOKENS (secureStore s))))
      by apply (cleanup_resolved p _ Hd).
    assert (Ht : secureStore s' !! TOKENS = None)
      by (rewrite Hstore; apply cleared_tokens_lookup).
    assert (Hu : secureStore s' !! USER_INFO = None).
    { rewrite Hstore. rewrite lookup_delete_ne by done. apply lookup_delete_eq. }
    assert (Hv : secureStore s' !! CODE_VERIFIER = None)
      by (rewrite Hstore; apply lookup_delete_eq).
    split; [|split; [|split; [|split; [|split]]]].
    + unfold ScalekitProvider.getAccessToken, bind.
      by rewrite (getStoredTokens_absent p' s' Ht).
    + by rewrite refreshUser_run.
    + by rewrite refreshUser_of_run.
    + intros Hget. apply exchange_missing_verifier; [done|]. by rewrite Hv.
    + unfold ScalekitProvider.initAuth, try_catch.
      by rewrite (initAuth_try_after_reads p' now s' None JNull
                    (getStoredTokens_absent p' s' Ht) (getStoredUserInfo_absent p' s' Hu)).
    + intros t tok u Hid Htruthy Hdec Hset.
      rewrite refreshUser_of_run. cbn [mbind option_bind]. rewrite Hid. cbn [mbind option_bind].
      rewrite Htruthy, Hdec, Hset.
      eexists. split; [reflexivity|]. split; [reflexivity|].
      split; [cbn [secureStore with_authState with_secureStore]; by rewrite <- Hstore|].
      unfold ScalekitProvider.getAccessToken, bind.
      rewrite getStoredTokens_absent; [reflexivity|].
      cbn [secureStore with_authState with_secureStore].
      rewrite lookup_insert_ne by done. exact Ht.
  - intros e t p' now He (v & (blob & Hblob & Hparse) & Hv) Hget Hfresh.
    apply getAccessToken_fresh; [done| |done].
    exists v. split; [|exact Hv]. exists blob. split; [|exact Hparse].
    cbn [secureStore with_authState with_secureStore].
    unfold cleanup, delete_unless_rejected. rewrite He.
    destruct (deleteItem_rejects p USER_INFO), (deleteItem_rejects p CODE_VERIFIER);
      by rewrite ?lookup_delete_ne.
Qed.

(** The signed-in provider of the scenario logs out; the [refreshUser] of
    the render before the logout, which has captured the session's tokens,
    is called afterwards. *)
Lemma logout_ends_session_witness :
  ScalekitProvider.getAccessToken Scenario.quiet Scenario.now
      (ScalekitProvider.logout Scenario.quiet Scenario.signed_in).2
    = (Ret None, (ScalekitProvider.logout Scenario.quiet Scenario.signed_in).2)
  /\ ScalekitProvider.initAuth Scenario.quiet Scenario.now
       (ScalekitProvider.logout Scenario.quiet Scenario.signed_in).2
     = (Ret tt,
        with_authState (ScalekitProvider.unauthenticated None)
          (ScalekitProvider.logout Scenario.quiet Scenario.signed_in).2)
  /\ ScalekitProvider.refreshUser Scenario.quiet
       (ScalekitProvider.logout Scenario.quiet Scenario.signed_in).2
     = (Throw (Error "No active session"),
        (ScalekitProvider.logout Scenario.quiet Scenario.signed_in).2)
  /\ exists s',
       ScalekitProvider.refreshUser_of Scenario.quiet (tokens (authState Scenario.signed_in))
         (ScalekitProvider.logout Scenario.quiet Scenario.signed_in).2
       = (Ret tt, s')
       /\ authState s'
          = {| isLoading := false; isAuthenticated := false; user := Scenario.claims;
               tokens := None; error := None |}
       /\ secureStore s' !! USER_INFO = Some (Json.stringify Scenario.claims).
Proof.
  destruct (logout_ends_session Scenario.quiet Scenario.signed_in) as [H _].
  destruct (H eq_refl Scenario.quiet Scenario.service "abc" Scenario.now)
    as (H1 & H2 & _ & _ & H4 & H5).
  split; [exact H1|]. split; [exact H4|]. split; [exact H2|].
  assert (Hdec : ScalekitAuth.decodeIdToken Scenario.jwt = Ret Scenario.claims)
    by (vm_compute; reflexivity).
  destruct (H5 Scenario.old_tokens Scenario.jwt Scenario.claims eq_refl eq_refl Hdec eq_refl)
    as (s' & Hrun & Hstate & Hstore & _).
  exists s'. split; [exact Hrun|]. split; [exact Hstate|].
  rewrite Hstore. apply lookup_insert_eq.
Defined.

(** ** The calls of the provider settle *)

Lemma login_settles p svc options now s r s' :
  ScalekitProvider.login p svc options now s = (r, s') ->
  (r = Ret tt /\ isLoading (authState s') = false) \/ r = Unmodelled.
Proof.
  unfold ScalekitProvider.login, try_catch, setAuthState.
  destruct (ScalekitAuth.login p svc options (logging_in s)) as [r1 s1] eqn:E.
  destruct r1 as [result|e|]; cycle 1.
  { rewrite (login_try_service_failure p svc options now s _ s1 E) by done.
    intros [= <- <-]. by left. }
  { rewrite (login_try_service_failure p svc options now s _ s1 E) by done.
    intros [= <- <-]. by right. }
  rewrite (login_try_after_browser p svc options now s result s1 E).
  intros H. repeat case_match; simplify_eq; first [by left | by right].
Qed.

(** X19: [initAuth], [login] and [logout] of the provider never throw:
    whatever the secure store, the browser, the network and the decoder do,
    each call that the embedding follows to its end returns, and leaves
    [isLoading] false; a call that ends unauthenticated by a failure has
    the failure in the [error] field.  Of the calls of the provider only
    [refreshUser] throws. *)
Theorem provider_calls_settle :
  forall (p : Platform) (svc : ScalekitAuth.t) (options : option ScalekitLoginOptions)
         (now : Z) (s : System),
    (forall r s',
        ScalekitProvider.initAuth p now s = (r, s') ->
        (r = Ret tt /\ isLoading (authState s') = false) \/ r = Unmodelled)
    /\ (forall r s',
          ScalekitProvider.login p svc options now s = (r, s') ->
          (r = Ret tt /\ isLoading (authState s') = false) \/ r = Unmodelled)
    /\ (exists s',
          ScalekitProvider.logout p s = (Ret tt, s') /\ isLoading (authState s') = false)
    /\ (forall e s',
          ScalekitProvider.login_try p svc options now s = (Throw e, s') ->
          error (authState (ScalekitProvider.login p svc options now s).2)
          = Some (ScalekitProvider.login_error_message e)).
Proof.
  intros p svc options now s. split; [|split; [|split]].
  - intros r s'. unfold ScalekitProvider.initAuth, try_catch, ScalekitProvider.initAuth_try,
      bind at 1.
    rewrite getStoredTokens_run.
    destruct (match getItem_rejects p TOKENS with Some _ => _ | None => _ end)
      as [storedTokens| |]; [|intros [= <- <-]; by left|intros [= <- <-]; by right].
    unfold bind at 1. rewrite getStoredUserInfo_run.
    destruct (match getItem_rejects p USER_INFO with Some _ => _ | None => _ end)
      as [storedUser| |]; [|intros [= <- <-]; by left|intros [= <- <-]; by right].
    destruct storedTokens as [t|]; [|intros [= <- <-]; by left].
    destruct (ScalekitProvider.valid_session now (Some t) storedUser);
      [intros [= <- <-]; by left|].
    unfold bind. destruct (service_logout_run p s) as (r1 & -> & Hok & Hko).
    destruct (deletes_resolve p).
    + rewrite (Hok eq_refl). intros [= <- <-]. by left.
    + destruct (Hko eq_refl) as (e & ->). intros [= <- <-]. by left.
  - intros r s'. apply login_settles.
  - eexists. split; [apply provider_logout_run|]. by destruct (deletes_resolve p).
  - intros e s' H. unfold ScalekitProvider.login, try_catch. by rewrite H.
Qed.
